(** * VCP auto-updater: a shallow embedding of [update_vcp.py]

    The development follows the source file top-down: text helpers and
    the MD5 digest used by the configuration fingerprint, the data model
    (status and checkpoint enumerations, project descriptors, results),
    the external environment the script drives (sub-processes, files,
    clock, cancellation event), and then the git synchroniser, the
    deployment controller and the fleet orchestrator.

    Conventions.
    - Python [bytes] are byte strings ([string]) and a [str] is the
      string of its UTF-8 bytes.  [strip] removes the white space of
      [str.isspace], multi-byte characters included; [lower] and the
      word patterns of [re] follow Python on ASCII text (the output of
      git and docker the script tests for) and treat every other
      character as a caseless letter.
    - A [pathlib.Path] is the string of the path; two different strings
      name two different files.
    - Dictionaries whose iteration order matters ([self.projects]) are
      association lists; the others are [gmap]s.
    - The cancellation event is read by the script and raised either by
      the environment or by the script's own [KeyboardInterrupt]
      handlers.  A [KeyboardInterrupt] is delivered where the
      environment says one is pending as [update_project] enters its
      [try] block; other delivery points are not followed.
    - The configuration holds the values [getboolean] and [getint]
      return; the one read outside every handler on the way of a
      project, [interactive_mode], may fail to parse. *)

From Stdlib Require Import ZArith String Ascii List Bool Lia.
From stdpp Require Import base tactics option list gmap strings.

Open Scope Z_scope.

(** ** Text helpers *)

Module Text.

  (** [' '.join(parts)] and friends. *)
Fixpoint join (sep : string) (parts : list string) : string :=
    match parts with
    | [] => ""
    | [p] => p
    | p :: rest => p +:+ sep +:+ join sep rest
    end.

  (** [s.startswith(p)] *)
Fixpoint startswith (p s : string) : bool :=
    match p, s with
    | EmptyString, _ => true
    | String a p', String b s' => if Ascii.eqb a b then startswith p' s' else false
    | String _ _, EmptyString => false
    end.

  (** [needle in hay] *)
Fixpoint contains (needle hay : string) : bool :=
    startswith needle hay ||
    match hay with
    | EmptyString => false
    | String _ hay' => contains needle hay'
    end.

Definition lower_ascii (c : ascii) : ascii :=
    let n := N_of_ascii c in
    if ((65 <=? n) && (n <=? 90))%N then ascii_of_N (n + 32) else c.

  (** [s.lower()] *)
Fixpoint lower (s : string) : string :=
    match s with
    | EmptyString => EmptyString
    | String c s' => String (lower_ascii c) (lower s')
    end.

(** White space as [str.isspace] has it, on the UTF-8 bytes of a
      character: U+0009..U+000D, U+001C..U+0020; *)
Definition space1 (a : ascii) : bool :=
    let n := N_of_ascii a in
    ((9 <=? n) && (n <=? 13) || (28 <=? n) && (n <=? 32))%N.

  (** U+0085 and U+00A0; *)
Definition space2 (a b : ascii) : bool :=
    let '(m, n) := (N_of_ascii a, N_of_ascii b) in
    ((m =? 194) && ((n =? 133) || (n =? 160)))%N.

  (** U+1680, U+2000..U+200A, U+2028, U+2029, U+202F, U+205F, U+3000. *)
Definition space3 (a b c : ascii) : bool :=
    let '(l, m, n) := (N_of_ascii a, N_of_ascii b, N_of_ascii c) in
    ((l =? 225) && (m =? 154) && (n =? 128)
     || (l =? 226) && (m =? 128)
        && ((128 <=? n) && (n <=? 138) || (n =? 168) || (n =? 169) || (n =? 175))
     || (l =? 226) && (m =? 129) && (n =? 159)
     || (l =? 227) && (m =? 128) && (n =? 128))%N.

Fixpoint lstrip (s : string) : string :=
    match s with
    | String a s1 =>
        if space1 a then lstrip s1
        else match s1 with
             | String b s2 =>
                 if space2 a b then lstrip s2
                 else match s2 with
                      | String c s3 => if space3 a b c then lstrip s3 else s
                      | EmptyString => s
                      end
             | EmptyString => s
             end
    | EmptyString => EmptyString
    end.

  (** [lstrip] on the reversed bytes: the last byte of a character comes
      first. *)
Fixpoint lstrip_reversed (s : string) : string :=
    match s with
    | String c s1 =>
        if space1 c then lstrip_reversed s1
        else match s1 with
             | String b s2 =>
                 if space2 b c then lstrip_reversed s2
                 else match s2 with
                      | String a s3 => if space3 a b c then lstrip_reversed s3 else s
                      | EmptyString => s
                      end
             | EmptyString => s
             end
    | EmptyString => EmptyString
    end.

Definition rstrip (s : string) : string := String.rev (lstrip_reversed (String.rev s)).

  (** [s.strip()] *)
Definition strip (s : string) : string := rstrip (lstrip s).

  (** A continuation byte of UTF-8. *)
Definition continuation (a : ascii) : bool :=
    let n := N_of_ascii a in ((128 <=? n) && (n <=? 191))%N.

  (** The second byte of a three-byte and of a four-byte character: no
      overlong form, no surrogate, nothing beyond U+10FFFF. *)
Definition second_of_three (a b : ascii) : bool :=
    let '(m, n) := (N_of_ascii a, N_of_ascii b) in
    (if m =? 224 then (160 <=? n) && (n <=? 191)
     else if m =? 237 then (128 <=? n) && (n <=? 159)
     else continuation b)%N.
Definition second_of_four (a b : ascii) : bool :=
    let '(m, n) := (N_of_ascii a, N_of_ascii b) in
    (if m =? 240 then (144 <=? n) && (n <=? 191)
     else if m =? 244 then (128 <=? n) && (n <=? 143)
     else continuation b)%N.

  (** The bytes decode as UTF-8 (the strict decoder of a file opened with
      [encoding='utf-8']). *)
Fixpoint utf8 (s : string) : bool :=
    match s with
    | EmptyString => true
    | String a s1 =>
        let n := N_of_ascii a in
        if (n <? 128)%N then utf8 s1
        else if ((194 <=? n) && (n <=? 223))%N then
          match s1 with
          | String b s2 => continuation b && utf8 s2
          | _ => false
          end
        else if ((224 <=? n) && (n <=? 239))%N then
          match s1 with
          | String b (String c s3) => second_of_three a b && continuation c && utf8 s3
          | _ => false
          end
        else if ((240 <=? n) && (n <=? 244))%N then
          match s1 with
          | String b (String c (String d s4)) =>
              second_of_four a b && continuation c && continuation d && utf8 s4
          | _ => false
          end
        else false
    end.

  (** Text mode on reading: a carriage return, with the line feed that
      follows it if there is one, is read as one line feed. *)
Fixpoint universal_newlines (s : string) : string :=
    match s with
    | EmptyString => EmptyString
    | String a s1 =>
        if Ascii.eqb a "013"%char then
          match s1 with
          | String b s2 =>
              if Ascii.eqb b "010"%char then String "010"%char (universal_newlines s2)
              else String "010"%char (universal_newlines s1)
          | EmptyString => String "010"%char EmptyString
          end
        else String a (universal_newlines s1)
    end.

  (** [f.read()] of a file opened with [open(path, 'r', encoding='utf-8')]
      that holds the bytes [raw]; [None] is a [UnicodeDecodeError]. *)
Definition read_text (raw : string) : option string :=
    if utf8 raw then Some (universal_newlines raw) else None.

  (** [bool(s)] for a string *)
Definition nonempty (s : string) : bool :=
    match s with EmptyString => false | _ => true end.

  (** [s.split(sep)] for a one-character separator. *)
Fixpoint split_go (sep : ascii) (cur : string) (s : string) : list string :=
    match s with
    | EmptyString => [String.rev cur]
    | String c s' =>
        if Ascii.eqb c sep then String.rev cur :: split_go sep EmptyString s'
        else split_go sep (String c cur) s'
    end.
Definition split (sep : ascii) (s : string) : list string := split_go sep EmptyString s.

Definition lines (s : string) : list string := split "010"%char s.

  (** [s[:n]] *)
Fixpoint take (n : nat) (s : string) : string :=
    match n, s with
    | S n', String c s' => String c (take n' s')
    | _, _ => EmptyString
    end.

  (** [s[n:]] *)
Fixpoint drop (n : nat) (s : string) : string :=
    match n, s with
    | S n', String _ s' => drop n' s'
    | _, _ => s
    end.

  (** Word characters of [\w]: ASCII letters, digits and the underscore.
      Python decides a character beyond ASCII by the Unicode data base
      (letters and digits are word characters, punctuation and symbols are
      not); here every byte of such a character counts as a letter, so
      [search_words] agrees with [re] on ASCII text and on text whose
      other characters are letters. *)
Definition is_word (c : ascii) : bool :=
    let n := N_of_ascii c in
    ((48 <=? n) && (n <=? 57) || (65 <=? n) && (n <=? 90) ||
     (97 <=? n) && (n <=? 122) || (n =? 95) || (128 <=? n))%N.

Definition starts_word (s : string) : bool :=
    match s with String c _ => is_word c | EmptyString => false end.

  (** [s] begins with [w] (compared on lower-cased text) and the match is
      followed by a word boundary. *)
Fixpoint word_here (w s : string) : bool :=
    match w, s with
    | EmptyString, _ => negb (starts_word s)
    | String a w', String b s' =>
        if Ascii.eqb a (lower_ascii b) then word_here w' s' else false
    | String _ _, EmptyString => false
    end.

  (** [re.search(r'\b(w1|w2|...)\b', s, re.IGNORECASE)] for lower-case
      alphabetic alternatives; [prev] tells whether the preceding
      character is a word character. *)
Fixpoint search_words_go (ws : list string) (prev : bool) (s : string) : bool :=
    (negb prev && existsb (fun w => word_here w s) ws) ||
    match s with
    | EmptyString => false
    | String c s' => search_words_go ws (is_word c) s'
    end.
Definition search_words (ws : list string) (s : string) : bool :=
    search_words_go ws false s.

  (** An ASCII character that is not white space, and a string of such
      characters. *)
Definition solid (a : ascii) : bool :=
    (N_of_ascii a <? 128)%N && negb (space1 a).
Fixpoint no_space (s : string) : bool :=
    match s with
    | EmptyString => true
    | String c s' => solid c && no_space s'
    end.

End Text.

(** ** MD5 ([hashlib.md5(...).hexdigest()]) *)

Module MD5.

Definition mask32 (x : Z) : Z := Z.land x 0xFFFFFFFF.

Definition rotl32 (x c : Z) : Z :=
    mask32 (Z.lor (Z.shiftl x c) (Z.shiftr (mask32 x) (32 - c))).

Definition K : list Z :=
    [ 0xd76aa478; 0xe8c7b756; 0x242070db; 0xc1bdceee;
      0xf57c0faf; 0x4787c62a; 0xa8304613; 0xfd469501;
      0x698098d8; 0x8b44f7af; 0xffff5bb1; 0x895cd7be;
      0x6b901122; 0xfd987193; 0xa679438e; 0x49b40821;
      0xf61e2562; 0xc040b340; 0x265e5a51; 0xe9b6c7aa;
      0xd62f105d; 0x02441453; 0xd8a1e681; 0xe7d3fbc8;
      0x21e1cde6; 0xc33707d6; 0xf4d50d87; 0x455a14ed;
      0xa9e3e905; 0xfcefa3f8; 0x676f02d9; 0x8d2a4c8a;
      0xfffa3942; 0x8771f681; 0x6d9d6122; 0xfde5380c;
      0xa4beea44; 0x4bdecfa9; 0xf6bb4b60; 0xbebfbc70;
      0x289b7ec6; 0xeaa127fa; 0xd4ef3085; 0x04881d05;
      0xd9d4d039; 0xe6db99e5; 0x1fa27cf8; 0xc4ac5665;
      0xf4292244; 0x432aff97; 0xab9423a7; 0xfc93a039;
      0x655b59c3; 0x8f0ccc92; 0xffeff47d; 0x85845dd1;
      0x6fa87e4f; 0xfe2ce6e0; 0xa3014314; 0x4e0811a1;
      0xf7537e82; 0xbd3af235; 0x2ad7d2bb; 0xeb86d391 ].

Definition R : list Z :=
    [ 7; 12; 17; 22; 7; 12; 17; 22; 7; 12; 17; 22; 7; 12; 17; 22;
      5; 9; 14; 20; 5; 9; 14; 20; 5; 9; 14; 20; 5; 9; 14; 20;
      4; 11; 16; 23; 4; 11; 16; 23; 4; 11; 16; 23; 4; 11; 16; 23;
      6; 10; 15; 21; 6; 10; 15; 21; 6; 10; 15; 21; 6; 10; 15; 21 ].

Definition bytes_of_string (s : string) : list Z :=
    (fun c => Z.of_N (N_of_ascii c)) <$> list_ascii_of_string s.

  (** little-endian bytes of the low [n] bytes of [x] *)
Fixpoint le_bytes (n : nat) (x : Z) : list Z :=
    match n with
    | O => []
    | S n' => Z.land x 255 :: le_bytes n' (Z.shiftr x 8)
    end.

Definition pad (msg : list Z) : list Z :=
    let len := Z.of_nat (length msg) in
    let zeros := Z.to_nat ((55 - len) mod 64) in
    msg ++ [128] ++ repeat 0 zeros ++ le_bytes 8 (len * 8).

Fixpoint words (fuel : nat) (bs : list Z) : list Z :=
    match fuel, bs with
    | S f, b0 :: b1 :: b2 :: b3 :: rest =>
        (b0 + Z.shiftl b1 8 + Z.shiftl b2 16 + Z.shiftl b3 24) :: words f rest
    | _, _ => []
    end.

Definition state : Type := Z * Z * Z * Z.

Definition step (M : list Z) (st : state) (i : nat) : state :=
    let '(a, b, c, d) := st in
    let iz := Z.of_nat i in
    let '(f, g) :=
      if iz <? 16 then (Z.lor (Z.land b c) (Z.land (mask32 (Z.lnot b)) d), iz)
      else if iz <? 32 then (Z.lor (Z.land d b) (Z.land (mask32 (Z.lnot d)) c), (5 * iz + 1) mod 16)
      else if iz <? 48 then (Z.lxor (Z.lxor b c) d, (3 * iz + 5) mod 16)
      else (Z.lxor c (Z.lor b (mask32 (Z.lnot d))), (7 * iz) mod 16) in
    let f' := mask32 (f + a + nth i K 0 + nth (Z.to_nat g) M 0) in
    (d, mask32 (b + rotl32 f' (nth i R 0)), b, c).

Definition block (st : state) (M : list Z) : state :=
    let '(a0, b0, c0, d0) := st in
    let '(a, b, c, d) := fold_left (step M) (seq 0 64) st in
    (mask32 (a0 + a), mask32 (b0 + b), mask32 (c0 + c), mask32 (d0 + d)).

Fixpoint blocks (fuel : nat) (st : state) (ws : list Z) : state :=
    match fuel, ws with
    | S f, _ :: _ => blocks f (block st (firstn 16 ws)) (skipn 16 ws)
    | _, _ => st
    end.

Definition digest (msg : list Z) : list Z :=
    let p := pad msg in
    let ws := words (length p) p in
    let '(a, b, c, d) :=
      blocks (length ws) (0x67452301, 0xefcdab89, 0x98badcfe, 0x10325476) ws in
    le_bytes 4 a ++ le_bytes 4 b ++ le_bytes 4 c ++ le_bytes 4 d.

Definition hex_digit (n : Z) : ascii :=
    if n <? 10 then ascii_of_N (Z.to_N (48 + n)) else ascii_of_N (Z.to_N (87 + n)).

Fixpoint hex_of_bytes (bs : list Z) : string :=
    match bs with
    | [] => EmptyString
    | b :: rest =>
        String (hex_digit (Z.land (Z.shiftr b 4) 15))
          (String (hex_digit (Z.land b 15)) (hex_of_bytes rest))
    end.

Definition hexdigest (content : string) : string :=
    hex_of_bytes (digest (bytes_of_string content)).

End MD5.

(** ** Data model *)

(** [class UpdateStatus(Enum)] *)
Inductive UpdateStatus : Set :=
  | SUCCESS | FAILED | PARTIAL | SKIPPED | NO_CHANGES | IN_PROGRESS | CANCELLED.

Global Instance UpdateStatus_eq_dec : EqDecision UpdateStatus.
Proof. solve_decision. Defined.

Definition UpdateStatus_value (s : UpdateStatus) : string :=
  match s with
  | SUCCESS => "success"
  | FAILED => "failed"
  | PARTIAL => "partial"
  | SKIPPED => "skipped"
  | NO_CHANGES => "no_changes"
  | IN_PROGRESS => "in_progress"
  | CANCELLED => "cancelled"
  end.

(** The terminal statuses: every value but [IN_PROGRESS]. *)
Definition is_terminal (s : UpdateStatus) : bool :=
  match s with IN_PROGRESS => false | _ => true end.

(** [class GitCheckpointType(Enum)] *)
Inductive GitCheckpointType : Set :=
  | BEFORE_UPDATE | AFTER_REMOTE_SETUP | AFTER_FETCH | AFTER_MERGE | AFTER_PUSH
  | MANUAL | AUTO_BACKUP.

Global Instance GitCheckpointType_eq_dec : EqDecision GitCheckpointType.
Proof. solve_decision. Defined.

Definition GitCheckpointType_value (k : GitCheckpointType) : string :=
  match k with
  | BEFORE_UPDATE => "before_update"
  | AFTER_REMOTE_SETUP => "after_remote_setup"
  | AFTER_FETCH => "after_fetch"
  | AFTER_MERGE => "after_merge"
  | AFTER_PUSH => "after_push"
  | MANUAL => "manual"
  | AUTO_BACKUP => "auto_backup"
  end.

(** [@dataclass ProjectConfig] *)
Record ProjectConfig : Type := mkProjectConfig {
  path : string;
  upstream_url : string;
  origin_url : string;
  has_docker : bool;
  docker_compose_file : string;
  is_git_repo : bool;
  docker_health_check_timeout : Z;
  docker_health_check_interval : Z;
  docker_port : option Z;
  docker_service_name : option string;
  branch : string;
  auto_stash : bool;
  custom_commands : list string
}.

(** [@dataclass UpdateResult]; times are clock readings. *)
Record UpdateResult : Type := mkUpdateResult {
  project_name : string;
  status : UpdateStatus;
  git_status : option UpdateStatus;
  docker_status : option UpdateStatus;
  start_time : option Z;
  end_time : option Z;
  error_message : option string;
  changes_count : Z;
  files_changed : list string;
  backup_branch : option string;
  stash_ref : option string
}.

(** [UpdateResult.duration] *)
Definition duration (r : UpdateResult) : option Z :=
  match start_time r, end_time r with
  | Some s, Some e => Some (e - s)
  | _, _ => None
  end.

Definition set_status (v : UpdateStatus) (r : UpdateResult) : UpdateResult :=
  mkUpdateResult (project_name r) v (git_status r) (docker_status r) (start_time r)
    (end_time r) (error_message r) (changes_count r) (files_changed r)
    (backup_branch r) (stash_ref r).
Definition set_git_status (v : option UpdateStatus) (r : UpdateResult) : UpdateResult :=
  mkUpdateResult (project_name r) (status r) v (docker_status r) (start_time r)
    (end_time r) (error_message r) (changes_count r) (files_changed r)
    (backup_branch r) (stash_ref r).
Definition set_docker_status (v : option UpdateStatus) (r : UpdateResult) : UpdateResult :=
  mkUpdateResult (project_name r) (status r) (git_status r) v (start_time r)
    (end_time r) (error_message r) (changes_count r) (files_changed r)
    (backup_branch r) (stash_ref r).
Definition set_end_time (v : option Z) (r : UpdateResult) : UpdateResult :=
  mkUpdateResult (project_name r) (status r) (git_status r) (docker_status r) (start_time r)
    v (error_message r) (changes_count r) (files_changed r)
    (backup_branch r) (stash_ref r).
Definition set_error_message (v : option string) (r : UpdateResult) : UpdateResult :=
  mkUpdateResult (project_name r) (status r) (git_status r) (docker_status r) (start_time r)
    (end_time r) v (changes_count r) (files_changed r)
    (backup_branch r) (stash_ref r).
Definition set_changes (n : Z) (fs : list string) (r : UpdateResult) : UpdateResult :=
  mkUpdateResult (project_name r) (status r) (git_status r) (docker_status r) (start_time r)
    (end_time r) (error_message r) n fs (backup_branch r) (stash_ref r).
Definition set_backup_branch (v : option string) (r : UpdateResult) : UpdateResult :=
  mkUpdateResult (project_name r) (status r) (git_status r) (docker_status r) (start_time r)
    (end_time r) (error_message r) (changes_count r) (files_changed r) v (stash_ref r).
Definition set_stash_ref (v : option string) (r : UpdateResult) : UpdateResult :=
  mkUpdateResult (project_name r) (status r) (git_status r) (docker_status r) (start_time r)
    (end_time r) (error_message r) (changes_count r) (files_changed r)
    (backup_branch r) v.

(** The options of [update_vcp_config.ini] the update path reads, with the
    defaults of [_load_config], as [getboolean] and [getint] return them.
    A value that does not parse makes the read raise [ValueError]; this
    is followed for [interactive_mode], which [update_project] reads
    before its [try] block. *)
Record Config : Type := mkConfig {
  auto_merge_conflicts : bool;
  force_push : bool;
  backup_before_update : bool;
  verify_health : bool;                 (* [general] verify_docker_health *)
  skip_unchanged_docker : bool;
  create_restore_points : bool;
  push_checkpoints : bool;
  interactive_mode : option bool;       (* [None]: the value is no boolean *)
  safe_merge_only : bool;
  max_backup_age_days : Z;
  network_retry_count : Z;
  network_retry_delay : Z;
  auto_prune : bool;
  max_restart_attempts : Z;
  use_simple_health_check : bool;
  wait_before_health_check : Z;
  rebuild_on_config_change : bool;
  remove_orphans : bool;
  prune_scope : string;
  enable_parallel_git : bool;
  enable_parallel_docker : bool;
  ssl_verify : bool
}.

Definition default_config : Config :=
  {| auto_merge_conflicts := true; force_push := false;
     backup_before_update := true; verify_health := true;
     skip_unchanged_docker := true; create_restore_points := true;
     push_checkpoints := false; interactive_mode := Some false;
     safe_merge_only := false; max_backup_age_days := 30;
     network_retry_count := 3;
     network_retry_delay := 5; auto_prune := false;
     max_restart_attempts := 3; use_simple_health_check := true;
     wait_before_health_check := 10; rebuild_on_config_change := true;
     remove_orphans := true; prune_scope := "project";
     enable_parallel_git := true; enable_parallel_docker := false;
     ssl_verify := true |}.

(** The part of [VCPAutoUpdater] that is fixed once [__init__] returns. *)
Record Updater : Type := mkUpdater {
  config : Config;
  projects : list (string * ProjectConfig);
  docker_compose_cmd : list string;
  vcp_root : string;
  cache_dir : string;
  backup_dir : string;
  max_workers : Z;
  git_timeout : Z;
  docker_timeout : Z
}.

(** [self.projects[name]] / [name in self.projects] *)
Fixpoint lookup_project (ps : list (string * ProjectConfig)) (name : string)
  : option ProjectConfig :=
  match ps with
  | [] => None
  | (n, c) :: rest => if String.eqb n name then Some c else lookup_project rest name
  end.

(** ** Files *)

(** [p / name] of [pathlib] *)
Definition path_join (p name : string) : string :=
  if Text.startswith "/" name then name else p +:+ "/" +:+ name.

(** [p.name] *)
Definition path_name (p : string) : string := List.last (Text.split "/"%char p) "".

(** A file-system entry: a directory, or a file with its bytes and
    whether opening it for reading / for writing succeeds. *)
Inductive Node : Type :=
  | Dir
  | File (data : string) (readable writable : bool).

Abbreviation FS := (gmap string Node).

(** [p.exists()] *)
Definition fs_exists (fs : FS) (p : string) : bool :=
  match fs !! p with Some _ => true | None => false end.

(** [open(p, 'rb').read()]; [None] when Python raises. *)
Definition fs_read (fs : FS) (p : string) : option string :=
  match fs !! p with
  | Some (File d true _) => Some d
  | _ => None
  end.

(** [open(p, 'w').write(d)]; [None] when Python raises. A missing file is
    created. *)
Definition fs_write (fs : FS) (p d : string) : option FS :=
  match fs !! p with
  | None => Some (<[p := File d true true]> fs)
  | Some (File _ r true) => Some (<[p := File d r true]> fs)
  | Some _ => None
  end.

(** ** Configuration fingerprint ([_check_docker_config_changed]) *)

Module Fingerprint.

Definition additional_configs : list string :=
    ["Dockerfile"; ".env"; "docker-compose.override.yml"; "requirements.txt"].

  (** The loop over [self.projects.items()] with its [break]. *)
Fixpoint find_project_config (ps : list (string * ProjectConfig)) (project_path : string)
    : option ProjectConfig :=
    match ps with
    | [] => None
    | (_, c) :: rest =>
        if String.eqb (path c) project_path
           || String.eqb (path_name (path c)) (path_name project_path)
        then Some c
        else find_project_config rest project_path
    end.

  (** [config_files]: the compose file and the auxiliary files present. *)
Definition config_files (fs : FS) (project_path compose_file : string) : list string :=
    compose_file ::
    filter (fun f => fs_exists fs (path_join project_path f) = true) additional_configs.

  (** [combined_content]: a file that cannot be read is skipped. *)
Fixpoint combined_content (fs : FS) (project_path : string) (files : list string)
    (acc : string) : string :=
    match files with
    | [] => acc
    | f :: rest =>
        let p := path_join project_path f in
        if fs_exists fs p then
          match fs_read fs p with
          | Some d => combined_content fs project_path rest (acc +:+ d)
          | None => combined_content fs project_path rest acc
          end
        else combined_content fs project_path rest acc
    end.

Definition cache_file (u : Updater) (project_path : string) : string :=
    path_join (cache_dir u) (path_name project_path +:+ "_docker_config.hash").

  (** The paths the fingerprint may read. *)
Definition fingerprinted (project_path compose_file : string) : list string :=
    path_join project_path <$> (compose_file :: additional_configs).

  (** [f.read().strip()] of the cache file, which is opened as UTF-8
      text; [None] when its bytes do not decode. *)
Definition cached_hash (raw : string) : option string :=
    Text.strip <$> Text.read_text raw.

  (** The [try] block around the cache file. *)
Definition compare_with_cache (fs : FS) (cache current_hash : string) : bool * FS :=
    if fs_exists fs cache then
      match fs_read fs cache ≫= cached_hash with
      | None => (false, fs)
      | Some cached =>
          if negb (String.eqb current_hash cached) then
            match fs_write fs cache current_hash with
            | Some fs' => (true, fs')
            | None => (false, fs)
            end
          else (false, fs)
      end
    else
      match fs_write fs cache current_hash with
      | Some fs' => (false, fs')
      | None => (false, fs)
      end.

Definition _check_docker_config_changed (u : Updater) (project_path : string) (fs : FS)
    : bool * FS :=
    match find_project_config (projects u) project_path with
    | None => (false, fs)
    | Some project_config =>
        let compose_file := docker_compose_file project_config in
        let compose_path := path_join project_path compose_file in
        if negb (fs_exists fs compose_path) then (false, fs)
        else
          let files := config_files fs project_path compose_file in
          let combined := combined_content fs project_path files "" in
          if negb (Text.nonempty combined) then (false, fs)
          else
            compare_with_cache fs (cache_file u project_path) (MD5.hexdigest combined)
    end.

  (** What the check hashes in [fs], when it gets that far. *)
Definition observed (u : Updater) (project_path : string) (fs : FS) : option string :=
    match find_project_config (projects u) project_path with
    | None => None
    | Some pc =>
        if fs_exists fs (path_join project_path (docker_compose_file pc)) then
          Some (combined_content fs project_path
                  (config_files fs project_path (docker_compose_file pc)) "")
        else None
    end.

  (** The cache file is not one of the files the fingerprint reads. *)
Definition cache_apart (u : Updater) (project_path : string) : Prop :=
    ∀ pc, find_project_config (projects u) project_path = Some pc →
          cache_file u project_path ∉ fingerprinted project_path (docker_compose_file pc).



End Fingerprint.

(** ** The environment *)

(** What [subprocess.run] does: it completes with an exit status and the
    two output streams, or raises [TimeoutExpired], or raises something
    else (the executable is missing, ...). *)
Inductive ProcOutcome : Type :=
  | Completed (returncode : Z) (stdout stderr : string)
  | TimeoutExpired
  | ProcException (msg : string).

(** One entry of [docker compose ps --format json] after
    [container.get(key, '')]. *)
Record Container : Type := mkContainer {
  c_State : string;
  c_Health : string;
  c_Service : string
}.

(** [json.loads(stdout)] as the health check uses it: the text does not
    parse; it is a list of objects whose [State] and [Health] are strings
    or absent; it is a list that starts with such objects and goes on
    with an entry on which [container.get(...).lower()] raises; it is
    some other JSON value. *)
Inductive PsJson : Type :=
  | JsonDecodeError
  | JsonList (containers : list Container)
  | JsonBadList (containers : list Container)
  | JsonOther.

(** The outside world is a deterministic machine over a state [X] the
    script cannot see: running a process may change [X] and any file;
    the clock is read from [X]; sleeping moves [X]. The library
    functions whose results the script only passes on ([json.loads],
    [strftime], [isoformat], [shlex.split]) are part of the interface.
    [sigint] tells whether a Ctrl-C is waiting to be delivered to the main
    thread as a [KeyboardInterrupt]; [can_save] tells whether the write
    of the rollback document (temporary file, [json.dump], [replace])
    goes through. *)
Class Env (X : Type) : Type := {
  subprocess_run :
    list string → option string → bool → Z → X * FS → ProcOutcome * (X * FS);
  time_time : X → Z;
  time_sleep : Z → X → X;
  connect_ex : Z → X → option Z * X;
  input_line : X → option string * X;
  json_loads : string → PsJson;
  strftime : string → Z → string;
  isoformat : Z → string;
  shlex_split : string → option (list string);
  stale_bundles : string → string → Z → X * FS → list string;
  sigint : X → bool;
  can_save : X → bool
}.

(** The world as the script meets it: the hidden state, the files, the
    number of interactions so far, and the interaction count from which
    [shutdown_event.is_set()] answers [True] (the event is raised from
    outside or set by the script, and stays raised until the script
    clears it). *)
Record World (X : Type) : Type := mkWorld {
  ext : X;
  fs : FS;
  ticks : nat;
  raised_at : option nat
}.
Arguments mkWorld {X}.
Arguments ext {X}.
Arguments fs {X}.
Arguments ticks {X}.
Arguments raised_at {X}.

(** Values stored in [rollback_info]. *)
Inductive JVal : Type :=
  | JStr (s : string)
  | JBool (b : bool)
  | JNum (n : Z)
  | JNone.

(** [checkpoint_info] of [create_git_checkpoint] *)
Record Checkpoint : Type := mkCheckpoint {
  commit_hash : string;
  ck_branch : string;
  has_uncommitted_changes : bool;
  uncommitted_changes : string;
  timestamp : string;
  checkpoint_type : string;
  description : string;
  version : string
}.

Definition __version__ : string := "v1.0".

(** The lines of [_log_safe] that report a checkpoint or the outcome of
    a stage; the other log lines are not kept. Each constructor names
    the statement that writes it. *)
Inductive LogRec : Type :=
  | LogCheckpointBegin (name : string)                 (* create_git_checkpoint, first line *)
  | LogCheckpointNoCommit (name : string)              (* create_git_checkpoint, no commit *)
  | LogCheckpointCreated (name commit : string)        (* create_git_checkpoint, last line *)
  | LogStatusFailed                                    (* check_git_status, error lines *)
  | LogRemoteReady (remote : string)                   (* _setup_git_remote, info 'configured'/'added' *)
  | LogRemoteFailed (remote : string)                  (* _setup_git_remote, error lines *)
  | LogFetchOk                                         (* fetch_upstream_changes, info *)
  | LogFetchFailed                                     (* fetch_upstream_changes, error *)
  | LogMergeUpToDate                                   (* merge_upstream_changes, no_changes *)
  | LogMergeOk                                         (* merge_upstream_changes, plain merge *)
  | LogMergeConflict                                   (* merge_upstream_changes, warning *)
  | LogMergeDisabled                                   (* merge_upstream_changes, auto merge off *)
  | LogMergeTry (strategy : list string)               (* merge_upstream_changes, per strategy *)
  | LogMergeResolved                                   (* merge_upstream_changes, strategy worked *)
  | LogMergeUnresolved                                 (* merge_upstream_changes, none worked *)
  | LogMergeFailed                                     (* merge_upstream_changes, other failure *)
  | LogPushOk                                          (* push_to_origin, info *)
  | LogPushUpToDate                                    (* push_to_origin, nothing to push *)
  | LogPushFailed                                      (* push_to_origin, error *)
  | LogGitFailure (stage : string)                     (* _handle_git_failure, first line *)
  | LogRestoreMissing (name : string)                  (* restore_git_checkpoint, not found *)
  | LogRestoreFailed (name : string)                   (* restore_git_checkpoint, reset failed *)
  | LogRestored (name : string)                        (* restore_git_checkpoint, last line *)
  | LogNoRestore                                       (* _handle_git_failure, for-else *)
  | LogGitUpdateOk (project : string).                 (* _perform_git_update, last line *)

(** The mutable part of [VCPAutoUpdater] together with the world. *)
Record St (X : Type) : Type := mkSt {
  world : World X;
  log : list LogRec;
  rollback_info : gmap string (gmap string JVal);
  git_checkpoints : gmap string (gmap string Checkpoint);
  persisted : option (gmap string (gmap string JVal) * gmap string (gmap string Checkpoint));
  should_cancel : bool
}.
Arguments mkSt {X}.
Arguments world {X}.
Arguments log {X}.
Arguments rollback_info {X}.
Arguments git_checkpoints {X}.
Arguments persisted {X}.
Arguments should_cancel {X}.

(** A Python call that may raise. *)
Inductive Exc (A : Type) : Type :=
  | Ok (a : A)
  | Raised (msg : string).
Arguments Ok {A}.
Arguments Raised {A}.

(** State passing, with a [let*] notation for sequencing. *)
Definition State (S A : Type) : Type := S → A * S.
Definition ret {S A : Type} (a : A) : State S A := fun s => (a, s).
Definition bind {S A B : Type} (m : State S A) (k : A → State S B) : State S B :=
  fun s => let '(a, s') := m s in k a s'.

Notation "'let*' x ':=' m 'in' k" := (bind m (fun x => k))
  (at level 10, x name, m at level 100, k at level 200).
Notation "'let*' ' p ':=' m 'in' k" := (bind m (fun x => let 'p := x in k))
  (at level 10, p pattern, m at level 100, k at level 200).
Notation "'do' m 'then' k" := (bind m (fun _ => k))
  (at level 10, m at level 100, k at level 200).

(** Sequencing of calls that may raise: the first exception ends the
    sequence. *)
Definition bindE {S A B : Type} (m : State S (Exc A)) (k : A → State S (Exc B))
  : State S (Exc B) :=
  let* r := m in
  match r with
  | Ok a => k a
  | Raised e => ret (Raised e)
  end.

Notation "'try*' x ':=' m 'in' k" := (bindE m (fun x => k))
  (at level 10, x name, m at level 100, k at level 200).

Definition CmdResult : Type := bool * string * string.

Section Script.
  Context {X : Type} `{Env X}.
  Variable u : Updater.

  Implicit Types (w : World X) (s : St X).

  (** *** World-level primitives *)

Definition tick : State (World X) unit :=
    fun w => (tt, mkWorld (ext w) (fs w) (S (ticks w)) (raised_at w)).

  (** [self.shutdown_event.is_set()] *)
Definition shutdown_is_set : State (World X) bool :=
    fun w =>
      (match raised_at w with
       | Some n => bool_decide (n ≤ ticks w)%nat
       | None => false
       end,
       mkWorld (ext w) (fs w) (S (ticks w)) (raised_at w)).

  (** [self.shutdown_event.set()] *)
Definition shutdown_set : State (World X) unit :=
    fun w => (tt, mkWorld (ext w) (fs w) (S (ticks w)) (Some 0%nat)).

  (** A [KeyboardInterrupt] is delivered here. *)
Definition keyboard_interrupt : State (World X) bool :=
    fun w => (sigint (ext w), w).

Definition proc (command : list string) (cwd : option string) (capture : bool)
    (timeout : Z) : State (World X) ProcOutcome :=
    fun w =>
      let '(o, (x', fs')) := subprocess_run command cwd capture timeout (ext w, fs w) in
      (o, mkWorld x' fs' (S (ticks w)) (raised_at w)).

Definition sleep (seconds : Z) : State (World X) unit :=
    fun w => (tt, mkWorld (time_sleep seconds (ext w)) (fs w) (S (ticks w)) (raised_at w)).

Definition now : State (World X) Z := fun w => (time_time (ext w), w).

Definition path_exists (p : string) : State (World X) bool :=
    fun w => (fs_exists (fs w) p, w).

  (** *** [run_command] *)

Definition cancelled_msg : string := "操作已取消".
Definition timeout_msg : string := "命令执行超时".
Definition exhausted_msg : string := "所有重试都失败".

Definition network_commands : list string := ["fetch"; "push"; "pull"; "clone"].

  (** The [for attempt in range(max_retries)] loop; [remaining] counts the
      iterations left. *)
Fixpoint run_command_loop (command : list string) (cwd : string) (capture : bool)
    (timeout : Z) (retry : bool) (max_retries : Z) (remaining : nat) (attempt : Z)
    : State (World X) CmdResult :=
    match remaining with
    | O => ret (false, "", exhausted_msg)
    | S k =>
        let* stop := shutdown_is_set in
        if stop then ret (false, "", cancelled_msg)
        else
          do (if 0 <? attempt then sleep (network_retry_delay (config u)) else ret tt) then
          let* o := proc command (Some cwd) capture timeout in
          let last := attempt =? max_retries - 1 in
          let again :=
            run_command_loop command cwd capture timeout retry max_retries k (attempt + 1) in
          match o with
          | Completed rc out err =>
              let stdout := if capture then Text.strip out else "" in
              let stderr := if capture then Text.strip err else "" in
              if rc =? 0 then ret (true, stdout, stderr)
              else if negb retry || last then ret (false, stdout, stderr)
              else again
          | TimeoutExpired => if last then ret (false, "", timeout_msg) else again
          | ProcException msg => if last then ret (false, "", msg) else again
          end
    end.

Definition run_command_full (command : list string) (cwd : option string)
    (capture : bool) (timeout : option Z) (retry_on_failure : option bool)
    : State (World X) CmdResult :=
    let cwd := match cwd with Some c => c | None => vcp_root u end in
    let joined := Text.join " " command in
    let timeout :=
      match timeout with
      | Some t => if t =? 0 then None else Some t
      | None => None
      end in
    let timeout :=
      match timeout with
      | Some t => t
      | None => if Text.contains "docker" joined then docker_timeout u else git_timeout u
      end in
    let retry :=
      match retry_on_failure with
      | Some b => b
      | None => existsb (fun c => Text.contains c joined) network_commands
      end in
    let max_retries := if retry then network_retry_count (config u) else 1 in
    run_command_loop command cwd capture timeout retry max_retries
      (Z.to_nat max_retries) 0.

  (** [self.run_command(command, cwd)] *)
Definition run_command (command : list string) (cwd : string) : State (World X) CmdResult :=
    run_command_full command (Some cwd) true None None.

  (** [check_docker_availability]: two direct [subprocess.run] calls. *)
Definition check_docker_availability : State (World X) bool :=
    let* o := proc ["docker"; "version"] None true 10 in
    match o with
    | Completed rc _ _ =>
        if negb (rc =? 0) then ret false
        else
          let* o2 := proc (docker_compose_cmd u ++ ["version"]) None true 10 in
          match o2 with
          | Completed rc2 _ _ => ret (rc2 =? 0)
          | _ => ret false
          end
    | _ => ret false
    end.

  (** [get_current_commit] *)
Definition get_current_commit (project_path : string) : State (World X) (option string) :=
    let* '(success, commit, _) := run_command ["git"; "rev-parse"; "HEAD"] project_path in
    ret (if success then Some (Text.strip commit) else None).

  (** What [git rev-parse rev] would print in [w]: the commit a name
      stands for, [None] when the command does not exit with 0. *)
Definition rev_parse (rev project_path : string) (w : World X) : option string :=
    match (proc ["git"; "rev-parse"; rev] (Some project_path) true (git_timeout u) w).1 with
    | Completed rc out _ => if rc =? 0 then Some (Text.strip out) else None
    | _ => None
    end.

  (** *** Lifting to the updater state *)

Definition liftW {A : Type} (m : State (World X) A) : State (St X) A :=
    fun s =>
      let '(a, w') := m (world s) in
      (a, mkSt w' (log s) (rollback_info s) (git_checkpoints s) (persisted s)
            (should_cancel s)).

Definition log_line (r : LogRec) : State (St X) unit :=
    fun s => (tt, mkSt (world s) (log s ++ [r]) (rollback_info s) (git_checkpoints s)
                    (persisted s) (should_cancel s)).

Definition get_rollback_info : State (St X) (gmap string (gmap string JVal)) :=
    fun s => (rollback_info s, s).
Definition get_git_checkpoints : State (St X) (gmap string (gmap string Checkpoint)) :=
    fun s => (git_checkpoints s, s).

  (** [self.rollback_info[key] = d] *)
Definition rollback_assign (key : string) (d : gmap string JVal) : State (St X) unit :=
    fun s => (tt, mkSt (world s) (log s) (<[key := d]> (rollback_info s))
                    (git_checkpoints s) (persisted s) (should_cancel s)).

  (** [if name not in self.git_checkpoints: self.git_checkpoints[name] = {}]
      followed by [self.git_checkpoints[name][kind] = info] *)
Definition checkpoint_assign (name kind : string) (info : Checkpoint)
    : State (St X) unit :=
    fun s =>
      let entry := default ∅ (git_checkpoints s !! name) in
      (tt, mkSt (world s) (log s) (rollback_info s)
             (<[name := <[kind := info]> entry]> (git_checkpoints s))
             (persisted s) (should_cancel s)).

  (** [save_rollback_info]: the maps go to the JSON document; when the
      write raises, the exception is logged and the document stays as it
      was. *)
Definition save_rollback_info : State (St X) unit :=
    fun s => (tt, mkSt (world s) (log s) (rollback_info s) (git_checkpoints s)
                    (if can_save (ext (world s))
                     then Some (rollback_info s, git_checkpoints s)
                     else persisted s)
                    (should_cancel s)).

  (** [self.rollback_info[name][key] = v]; raises [KeyError] without an
      entry for [name]. *)
Definition rollback_set (name : string) (kvs : list (string * JVal))
    : State (St X) (Exc unit) :=
    let* ri := get_rollback_info in
    match ri !! name with
    | None => ret (Raised "KeyError")
    | Some d =>
        do rollback_assign name (fold_left (fun d kv => <[kv.1 := kv.2]> d) kvs d) then
        ret (Ok tt)
    end.

  (** *** Small helpers *)

Fixpoint for_each {S A : Type} (l : list A) (f : A → State S unit) : State S unit :=
    match l with
    | [] => ret tt
    | a :: rest => do f a then for_each rest f
    end.

  (** [bool(x)] for an optional string: [None] and [''] are false. *)
Definition truthy (o : option string) : bool :=
    match o with Some v => Text.nonempty v | None => false end.

  (** [int(text)] for a run of decimal digits; [None] when Python raises. *)
Fixpoint parse_digits (acc : Z) (t : string) : option Z :=
    match t with
    | EmptyString => Some acc
    | String c t' =>
        match Ascii.is_nat c with
        | Some d => parse_digits (10 * acc + Z.of_nat d) t'
        | None => None
        end
    end.
Definition parse_unsigned (t : string) : option Z :=
    match t with EmptyString => None | _ => parse_digits 0 t end.
Definition parse_int (t : string) : option Z :=
    match t with
    | String "-" t' => Z.opp <$> parse_unsigned t'
    | String "+" t' => parse_unsigned t'
    | _ => parse_unsigned t
    end.

  (** *** Backups *)

  (** [_create_backup_branch] *)
Definition _create_backup_branch (project_path : string)
    : State (World X) (option string) :=
    let* t := now in
    let backup_branch := "backup-before-merge-" +:+ strftime "%Y%m%d_%H%M%S" t in
    let* '(success, _, _) := run_command ["git"; "branch"; backup_branch] project_path in
    ret (if success then Some backup_branch else None).

  (** The scan of [git count-objects -v] in [_create_backup]: [true] when
      a [size-pack] line above 500000 KB is met before a line that does
      not parse. *)
Fixpoint repo_is_large (lines : list string) : bool :=
    match lines with
    | [] => false
    | line :: rest =>
        if Text.contains "size-pack" line then
          match String.words line with
          | _ :: field :: _ =>
              match parse_int field with
              | Some size_kb => if 500000 <? size_kb then true else repo_is_large rest
              | None => false
              end
          | _ => false
          end
        else repo_is_large rest
    end.

  (** [_cleanup_old_backups] *)
Definition _cleanup_old_backups (name : string) : State (World X) unit :=
    fun w =>
      let cutoff := time_time (ext w) - max_backup_age_days (config u) * 24 * 60 * 60 in
      let stale := stale_bundles (backup_dir u) name cutoff (ext w, fs w) in
      (tt, mkWorld (ext w) (fold_left (fun m p => delete p m) stale (fs w))
             (ticks w) (raised_at w)).

Definition mkdir (p : string) : State (World X) unit :=
    fun w =>
      (tt, mkWorld (ext w)
             (match fs w !! p with Some _ => fs w | None => <[p := Dir]> (fs w) end)
             (ticks w) (raised_at w)).

  (** [_create_backup] *)
Definition _create_backup (name project_path : string) : State (World X) unit :=
    if negb (create_restore_points (config u)) then ret tt
    else
      do mkdir (backup_dir u) then
      let* t := now in
      let backup_name := name +:+ "_" +:+ strftime "%Y%m%d_%H%M%S" t in
      let* size_check := proc ["git"; "count-objects"; "-v"] (Some project_path) true 10 in
      let large :=
        match size_check with
        | Completed rc out _ =>
            (rc =? 0) && Text.contains "size-pack" out && repo_is_large (Text.lines out)
        | _ => false
        end in
      if large then ret tt
      else
        let bundle_file := path_join (backup_dir u) (backup_name +:+ ".bundle") in
        let* '(success, _, _) :=
          run_command ["git"; "bundle"; "create"; bundle_file; "--all"] project_path in
        if success then _cleanup_old_backups name else ret tt.

  (** *** Working-tree status *)

  (** [_safe_stash_changes] *)
Definition _safe_stash_changes (project_path : string) : State (World X) (option string) :=
    let* t := now in
    let stash_message := "VCP auto-updater stash " +:+ strftime "%Y%m%d_%H%M%S" t in
    let* '(success, _, _) :=
      run_command ["git"; "stash"; "push"; "-m"; stash_message] project_path in
    if success then
      let* '(stash_success, stash_list, _) :=
        run_command ["git"; "stash"; "list"; "--grep"; stash_message] project_path in
      if stash_success && Text.nonempty stash_list then
        ret (Some (Text.strip (hd "" (Text.split ":"%char stash_list))))
      else ret (Some "stash@{0}")
    else ret None.

  (** [_cleanup_old_stashes] *)
Definition _cleanup_old_stashes (project_path : string) : State (World X) unit :=
    let* '(success, stash_output, _) := run_command ["git"; "stash"; "list"] project_path in
    if success && Text.nonempty stash_output then
      let auto_stash_lines :=
        filter (fun line => Text.contains "VCP auto-updater stash" line = true)
          (Text.lines (Text.strip stash_output)) in
      for_each (firstn (length auto_stash_lines - 5) auto_stash_lines)
        (fun line =>
           let stash_ref := Text.strip (hd "" (Text.split ":"%char line)) in
           do run_command ["git"; "stash"; "drop"; stash_ref] project_path then ret tt)
    else ret tt.

  (** [_initialize_git_repo] *)
Definition _initialize_git_repo (project_path : string) : State (World X) bool :=
    let* '(success, _, _) := run_command ["git"; "init"] project_path in
    if negb success then ret false
    else
      let* '(success_name, existing_name, _) :=
        run_command ["git"; "config"; "user.name"] project_path in
      let* '(success_email, existing_email, _) :=
        run_command ["git"; "config"; "user.email"] project_path in
      do (if negb (success_name && Text.nonempty (Text.strip existing_name))
             || negb (success_email && Text.nonempty (Text.strip existing_email))
          then
            do run_command ["git"; "config"; "user.name"; "VCP Auto Updater"] project_path then
            do run_command ["git"; "config"; "user.email"; "vcp-updater@localhost"]
                 project_path then
            ret tt
          else ret tt) then
      let* '(success, _, _) := run_command ["git"; "add"; "."] project_path in
      if negb success then ret false
      else
        let* '(success, _, _) :=
          run_command
            ["git"; "commit"; "-m"; "Initial commit by VCP auto-updater " +:+ __version__]
            project_path in
        if negb success then ret false
        else
          do run_command ["git"; "branch"; "-M"; "main"] project_path then
          ret true.

  (** [check_git_status]; the result object is returned with its
      [stash_ref] updated. *)
Definition check_git_status (project_path : string) (project_config : ProjectConfig)
    (result : UpdateResult) : State (St X) (bool * UpdateResult) :=
    let* is_repo := liftW (path_exists (path_join project_path ".git")) in
    if negb is_repo then
      if is_git_repo project_config then
        let* ok := liftW (_initialize_git_repo project_path) in
        ret (ok, result)
      else ret (true, result)
    else
      let* '(success, stdout, _) :=
        liftW (run_command ["git"; "status"; "--porcelain"] project_path) in
      if negb success then
        do log_line LogStatusFailed then ret (false, result)
      else if Text.nonempty (Text.strip stdout) then
        if auto_stash project_config then
          let* stash := liftW (_safe_stash_changes project_path) in
          if truthy stash then
            let* t := liftW now in
            do rollback_assign (path_name project_path)
                 {[ "has_stash" := JBool true;
                    "stash_ref" := JStr (default "" stash);
                    "stash_time" := JStr (isoformat t) ]} then
            do liftW (_cleanup_old_stashes project_path) then
            ret (true, set_stash_ref stash result)
          else
            do log_line LogStatusFailed then ret (false, result)
        else if safe_merge_only (config u) then
          do log_line LogStatusFailed then ret (false, result)
        else
          let* t := liftW now in
          do rollback_assign (path_name project_path)
               {[ "uncommitted_changes" := JStr stdout;
                  "timestamp" := JStr (isoformat t) ]} then
          ret (true, result)
      else ret (true, result).

  (** *** Checkpoints *)

  (** [create_git_checkpoint] *)
Definition create_git_checkpoint (project_path : string)
    (checkpoint_type : GitCheckpointType) (description : string)
    : State (St X) (option string) :=
    let checkpoint_name := GitCheckpointType_value checkpoint_type in
    do log_line (LogCheckpointBegin checkpoint_name) then
    let* commit := liftW (get_current_commit project_path) in
    if negb (truthy commit) then
      do log_line (LogCheckpointNoCommit checkpoint_name) then ret None
    else
      let commit_hash := default "" commit in
      let* '(success, branch, _) :=
        liftW (run_command ["git"; "branch"; "--show-current"] project_path) in
      let branch := if success then branch else "main" in
      let* '(success, status_output, _) :=
        liftW (run_command ["git"; "status"; "--porcelain"] project_path) in
      let has_uncommitted := success && Text.nonempty (Text.strip status_output) in
      do (if create_restore_points (config u) then
            let* t := liftW now in
            let tag_name :=
              "vcp-checkpoint-" +:+ checkpoint_name +:+ "-" +:+ strftime "%Y%m%d%H%M%S" t in
            let tag_message :=
              if Text.nonempty description then description
              else "VCP checkpoint: " +:+ checkpoint_name in
            do liftW (run_command ["git"; "tag"; "-a"; tag_name; "-m"; tag_message]
                        project_path) then
            if push_checkpoints (config u) then
              do liftW (run_command ["git"; "push"; "origin"; tag_name] project_path) then
              ret tt
            else ret tt
          else ret tt) then
      let* t := liftW now in
      let checkpoint_info :=
        {| commit_hash := Text.strip commit_hash;
           ck_branch := Text.strip branch;
           has_uncommitted_changes := has_uncommitted;
           uncommitted_changes := if has_uncommitted then status_output else "";
           timestamp := isoformat t;
           checkpoint_type := checkpoint_name;
           description := description;
           version := __version__ |} in
      do checkpoint_assign (path_name project_path) checkpoint_name checkpoint_info then
      do save_rollback_info then
      do log_line (LogCheckpointCreated checkpoint_name commit_hash) then
      ret (Some commit_hash).

  (** [restore_git_checkpoint] *)
Definition restore_git_checkpoint (project_path checkpoint_name : string)
    : State (St X) bool :=
    let name := path_name project_path in
    let* gc := get_git_checkpoints in
    match gc !! name ≫= (.!! checkpoint_name) with
    | None => do log_line (LogRestoreMissing checkpoint_name) then ret false
    | Some checkpoint =>
        do create_git_checkpoint project_path AUTO_BACKUP "Auto backup before restore" then
        do liftW (run_command ["git"; "clean"; "-fd"] project_path) then
        do liftW (run_command ["git"; "reset"; "--hard"] project_path) then
        do liftW (run_command ["git"; "merge"; "--abort"] project_path) then
        do liftW (run_command ["git"; "rebase"; "--abort"] project_path) then
        do liftW (run_command ["git"; "cherry-pick"; "--abort"] project_path) then
        do (if Text.nonempty (ck_branch checkpoint) then
              do liftW (run_command ["git"; "checkout"; ck_branch checkpoint] project_path) then
              ret tt
            else ret tt) then
        let* '(success, _, _) :=
          liftW (run_command ["git"; "reset"; "--hard"; commit_hash checkpoint]
                   project_path) in
        if negb success then
          do log_line (LogRestoreFailed checkpoint_name) then ret false
        else
          let* ri := get_rollback_info in
          do (match ri !! name with
              | Some rollback_data =>
                  match rollback_data !! "has_stash", rollback_data !! "stash_ref" with
                  | Some (JBool true), Some (JStr ref) =>
                      if Text.nonempty ref then
                        do liftW (run_command ["git"; "stash"; "apply"; ref] project_path) then
                        ret tt
                      else ret tt
                  | _, _ => ret tt
                  end
              | None => ret tt
              end) then
          do log_line (LogRestored checkpoint_name) then
          ret true
    end.

Definition checkpoints_priority : list string :=
    GitCheckpointType_value <$>
      [AFTER_PUSH; AFTER_MERGE; AFTER_FETCH; AFTER_REMOTE_SETUP; BEFORE_UPDATE].

  (** The [for checkpoint in checkpoints_priority ... break ... else] loop. *)
Fixpoint restore_first (project_path : string) (names : list string) : State (St X) unit :=
    match names with
    | [] => log_line LogNoRestore
    | n :: rest =>
        let* ok := restore_git_checkpoint project_path n in
        if ok then ret tt else restore_first project_path rest
    end.

  (** [_handle_git_failure] *)
Definition _handle_git_failure (project_path failure_stage : string) : State (St X) unit :=
    do log_line (LogGitFailure failure_stage) then
    do liftW (run_command ["git"; "merge"; "--abort"] project_path) then
    do liftW (run_command ["git"; "rebase"; "--abort"] project_path) then
    do liftW (run_command ["git"; "cherry-pick"; "--abort"] project_path) then
    do liftW (run_command ["git"; "reset"; "--hard"] project_path) then
    restore_first project_path checkpoints_priority.

  (** *** Remotes, fetch, merge, push *)

  (** [_setup_git_remote] *)
Definition _setup_git_remote (project_path remote_name remote_url : string)
    : State (St X) bool :=
    let* '(success, current_url, _) :=
      liftW (run_command ["git"; "remote"; "get-url"; remote_name] project_path) in
    if success then
      if negb (String.eqb (Text.strip current_url) remote_url) then
        let* '(success, _, _) :=
          liftW (run_command ["git"; "remote"; "set-url"; remote_name; remote_url]
                   project_path) in
        if negb success then
          do log_line (LogRemoteFailed remote_name) then ret false
        else
          do log_line (LogRemoteReady remote_name) then ret true
      else
        do log_line (LogRemoteReady remote_name) then ret true
    else
      let* '(success, _, _) :=
        liftW (run_command ["git"; "remote"; "add"; remote_name; remote_url] project_path) in
      if negb success then
        do log_line (LogRemoteFailed remote_name) then ret false
      else
        do log_line (LogRemoteReady remote_name) then ret true.

  (** [setup_git_remotes]; [self.projects[project_name]] raises for an
      unknown name. *)
Definition setup_git_remotes (name : string) : State (St X) (Exc bool) :=
    match lookup_project (projects u) name with
    | None => ret (Raised "KeyError")
    | Some project_config =>
        let project_path := path project_config in
        let* up := _setup_git_remote project_path "upstream" (upstream_url project_config) in
        if negb up then ret (Ok false)
        else
          let* orig := _setup_git_remote project_path "origin" (origin_url project_config) in
          ret (Ok orig)
    end.

Definition fetch_command : list string := ["git"; "fetch"; "upstream"; "--tags"; "--prune"].

  (** [_configure_git_ssl] *)
Definition _configure_git_ssl (project_path : string) : State (World X) unit :=
    for_each
      [ ["git"; "config"; "--local"; "http.sslBackend"; "openssl"];
        ["git"; "config"; "--local"; "http.postBuffer"; "524288000"];
        ["git"; "config"; "--local"; "http.version"; "HTTP/1.1"] ]
      (fun config_cmd => do run_command config_cmd project_path then ret tt).

  (** [fetch_upstream_changes] *)
Definition fetch_upstream_changes (project_path : string) (project_config : ProjectConfig)
    : State (St X) bool :=
    do (if negb (ssl_verify (config u)) then
          do liftW (run_command ["git"; "config"; "--local"; "http.sslVerify"; "false"]
                      project_path) then
          ret tt
        else ret tt) then
    let* '(success, _, stderr) :=
      liftW (run_command_full fetch_command (Some project_path) true
               (Some (git_timeout u)) (Some true)) in
    let* success :=
      (if negb success
          && (Text.contains "ssl" (Text.lower stderr)
              || Text.contains "tls" (Text.lower stderr))
       then
         do liftW (_configure_git_ssl project_path) then
         let* '(success, _, _) :=
           liftW (run_command_full fetch_command (Some project_path) true
                    (Some (git_timeout u * 2)) None) in
         ret success
       else ret success) in
    if success then do log_line LogFetchOk then ret true
    else do log_line LogFetchFailed then ret false.

Definition plain_merge (branch : string) : list string :=
    ["git"; "merge"; "upstream/" +:+ branch; "--no-edit"].

  (** [strategies] of [merge_upstream_changes] *)
Definition theirs_merge (branch : string) : list string :=
    ["git"; "merge"; "upstream/" +:+ branch; "--strategy=recursive";
     "-X"; "theirs"; "--no-edit"].
Definition hard_reset (branch : string) : list string :=
    ["git"; "reset"; "--hard"; "upstream/" +:+ branch].
Definition strategies (branch : string) : list (list string) :=
    [theirs_merge branch; hard_reset branch].

  (** The [for strategy in strategies] loop. *)
Fixpoint try_strategies (project_path : string) (l : list (list string))
    : State (St X) string :=
    match l with
    | [] => do log_line LogMergeUnresolved then ret "failed"
    | strategy :: rest =>
        do log_line (LogMergeTry strategy) then
        let* '(success, _, _) := liftW (run_command strategy project_path) in
        if success then do log_line LogMergeResolved then ret "success"
        else try_strategies project_path rest
    end.

  (** [merge_upstream_changes] *)
Definition merge_upstream_changes (project_path branch : string) : State (St X) string :=
    let auto_merge := auto_merge_conflicts (config u) in
    let* '(success, stdout, stderr) :=
      liftW (run_command (plain_merge branch) project_path) in
    if success then
      if Text.contains "Already up to date" stdout
         || Text.contains "Already up-to-date" stdout
      then do log_line LogMergeUpToDate then ret "no_changes"
      else do log_line LogMergeOk then ret "success"
    else if Text.contains "conflict" (Text.lower stderr)
            || Text.contains "unrelated histories" (Text.lower stderr)
    then
      if negb auto_merge then do log_line LogMergeDisabled then ret "failed"
      else
        do log_line LogMergeConflict then
        do liftW (run_command ["git"; "merge"; "--abort"] project_path) then
        try_strategies project_path (strategies branch)
    else do log_line LogMergeFailed then ret "failed".

  (** [push_to_origin] *)
Definition push_to_origin (project_path branch : string) (force : bool)
    : State (St X) bool :=
    let push_cmd :=
      ["git"; "push"] ++ (if force then ["--force-with-lease"] else [])
        ++ ["origin"; branch] ++ ["--tags"] in
    let* '(success, stdout, stderr) :=
      liftW (run_command_full push_cmd (Some project_path) true None (Some true)) in
    if negb success then
      if Text.contains "Everything up-to-date" stderr
         || Text.contains "Everything up-to-date" stdout
      then do log_line LogPushUpToDate then ret true
      else do log_line LogPushFailed then ret false
    else do log_line LogPushOk then ret true.

  (** *** The git stage *)

Definition jcommit (c : option string) : JVal :=
    match c with Some h => JStr h | None => JNone end.

  (** [_perform_git_update]; the result object is returned with the
      fields the function sets. *)
Definition _perform_git_update (name : string) (project_config : ProjectConfig)
    (project_path : string) (result : UpdateResult)
    : State (St X) (Exc UpdateStatus * UpdateResult) :=
    let* initial_commit := liftW (get_current_commit project_path) in
    let* '(clean, result) := check_git_status project_path project_config result in
    if negb clean then ret (Ok FAILED, result)
    else
      let* result :=
        (if backup_before_update (config u) then
           let* backup_branch := liftW (_create_backup_branch project_path) in
           do liftW (_create_backup name project_path) then
           do create_git_checkpoint project_path BEFORE_UPDATE "" then
           ret (set_backup_branch backup_branch result)
         else ret result) in
      let* remotes := setup_git_remotes name in
      match remotes with
      | Raised e => ret (Raised e, result)
      | Ok false =>
          do _handle_git_failure project_path "setup_remotes" then ret (Ok FAILED, result)
      | Ok true =>
          do create_git_checkpoint project_path AFTER_REMOTE_SETUP "" then
          let* fetched := fetch_upstream_changes project_path project_config in
          if negb fetched then
            do _handle_git_failure project_path "fetch_upstream" then ret (Ok FAILED, result)
          else
            do create_git_checkpoint project_path AFTER_FETCH "" then
            let* merge_result := merge_upstream_changes project_path (branch project_config) in
            if String.eqb merge_result "failed" then
              do _handle_git_failure project_path "merge_upstream" then
              ret (Ok FAILED, result)
            else if String.eqb merge_result "no_changes" then
              let* r :=
                rollback_set name
                  [("git_update_success", JBool true); ("has_changes", JBool false)] in
              match r with
              | Raised e => ret (Raised e, result)
              | Ok _ => ret (Ok NO_CHANGES, result)
              end
            else
              do create_git_checkpoint project_path AFTER_MERGE "" then
              let* pushed :=
                push_to_origin project_path (branch project_config)
                  (force_push (config u)) in
              if negb pushed then
                do _handle_git_failure project_path "push_origin" then
                ret (Ok FAILED, result)
              else
                do create_git_checkpoint project_path AFTER_PUSH "" then
                let* final_commit := liftW (get_current_commit project_path) in
                let* r :=
                  (if truthy final_commit then
                     rollback_set name
                       [("before_update_commit", jcommit initial_commit);
                        ("after_update_commit", jcommit final_commit);
                        ("git_update_success", JBool true);
                        ("has_changes",
                         JBool (negb (bool_decide (initial_commit = final_commit))))]
                   else ret (Ok tt)) in
                match r with
                | Raised e => ret (Raised e, result)
                | Ok _ =>
                    do log_line (LogGitUpdateOk name) then ret (Ok SUCCESS, result)
                end
      end.

End Script.

(** ** Deployment and the fleet run *)

(** How a call that may poll ends: it returns, it raises, or it is still
    polling when the polls that are followed have been used up. An
    exception is known by [str(e)] where the script stores that text, and
    by the name of its class otherwise. *)
Inductive Run (A : Type) : Type :=
  | Returned (a : A)
  | Throws (msg : string)
  | StillPolling.
Arguments Returned {A}.
Arguments Throws {A}.
Arguments StillPolling {A}.

Definition KeyboardInterrupt : string := "KeyboardInterrupt".

Definition bindR {S A B : Type} (m : State S (Run A)) (k : A → State S (Run B))
  : State S (Run B) :=
  let* r := m in
  match r with
  | Returned a => k a
  | Throws e => ret (Throws e)
  | StillPolling => ret StillPolling
  end.

Notation "'run*' x ':=' m 'in' k" := (bindR m (fun x => k))
  (at level 10, x name, m at level 100, k at level 200).

(** Where a block of a function leaves off: at a [return result], or at
    its last statement. *)
Inductive Flow : Type := Return | Continue.

(** What the [for container in containers] loop of the detailed health
    check comes to: a [return False], or the end of the list with the
    flag [all_healthy]. *)
Inductive Scan : Type :=
  | ScanExited
  | ScanEnd (all_healthy : bool).

(** [UpdateResult(project_name=..., status=..., start_time=..., end_time=...)] *)
Definition new_result (name : string) (v : UpdateStatus) (started ended : option Z)
  : UpdateResult :=
  {| project_name := name; status := v; git_status := None; docker_status := None;
     start_time := started; end_time := ended; error_message := None;
     changes_count := 0; files_changed := []; backup_branch := None; stash_ref := None |}.

(** [result.status = v; result.error_message = msg; result.end_time = t] *)
Definition close_result (v : UpdateStatus) (msg : option string) (t : Z)
  (r : UpdateResult) : UpdateResult :=
  set_end_time (Some t) (set_error_message msg (set_status v r)).

(** [self.update_stats[result.status.value] += 1] over [results], on a
    [defaultdict(int)]; the count stops at an entry that is [None], where
    [result.status] raises. *)
Fixpoint tally (results : list (option UpdateResult)) (stats : gmap string Z)
  : bool * gmap string Z :=
  match results with
  | [] => (true, stats)
  | Some r :: rest =>
      let k := UpdateStatus_value (status r) in
      tally rest (<[k := default 0 (stats !! k) + 1]> stats)
  | None :: _ => (false, stats)
  end.

(** The attributes of [VCPAutoUpdater] that only a fleet run touches. *)
Record Fleet (X : Type) : Type := mkFleet {
  st : St X;
  update_stats : gmap string Z;
  update_results : list (option UpdateResult);
  is_running : bool
}.
Arguments mkFleet {X}.
Arguments st {X}.
Arguments update_stats {X}.
Arguments update_results {X}.
Arguments is_running {X}.

Section Deploy.
  Context {X : Type} `{Env X}.
  Variable u : Updater.

  (** The number of polls of [_detailed_health_check] that are followed. *)
  Variable polls : nat.

  Implicit Types (w : World X) (s : St X).

  (** *** Containers *)

  (** [time.sleep(seconds)] where the length comes from the
      configuration: a negative one raises [ValueError]. *)
Definition sleep_checked (seconds : Z) : State (World X) (Run unit) :=
    if seconds <? 0 then ret (Throws "sleep length must be non-negative")
    else do sleep seconds then ret (Returned tt).

  (** [stop_docker_services] *)
Definition stop_docker_services (project_path : string) : State (World X) bool :=
    let* available := check_docker_availability u in
    if negb available then ret true
    else
      let cmd :=
        docker_compose_cmd u ++ ["down"]
          ++ (if remove_orphans (config u) then ["--remove-orphans"] else []) in
      do run_command_full u cmd (Some project_path) false None None then
      ret true.

  (** [_prune_docker_resources] *)
Definition _prune_docker_resources : State (World X) unit :=
    do run_command_full u ["docker"; "image"; "prune"; "-f"] None true (Some 30) None then
    do run_command_full u ["docker"; "container"; "prune"; "-f"] None true (Some 30) None then
    do run_command_full u ["docker"; "network"; "prune"; "-f"] None true (Some 30) None then
    ret tt.

  (** [_clean_docker_images] *)
Definition _clean_docker_images (project_path : string) : State (World X) unit :=
    if String.eqb (prune_scope (config u)) "project" then
      let* '(success, stdout, _) :=
        run_command u (docker_compose_cmd u ++ ["images"; "-q"]) project_path in
      if success && Text.nonempty stdout then
        for_each (Text.lines (Text.strip stdout))
          (fun image_id =>
             if Text.nonempty image_id then
               do run_command_full u ["docker"; "rmi"; "-f"; image_id] None true None None then
               ret tt
             else ret tt)
      else ret tt
    else if String.eqb (prune_scope (config u)) "global" then _prune_docker_resources
    else ret tt.

  (** [_check_port]: [connect_ex] answers a code, or raises. *)
Definition _check_port (port : Z) : State (World X) bool :=
    fun w =>
      let '(r, x') := connect_ex port (ext w) in
      (match r with Some code => code =? 0 | None => false end,
       mkWorld x' (fs w) (S (ticks w)) (raised_at w)).

Definition running_words : list string := ["up"; "running"; "healthy"].
Definition exit_words : list string := ["exit"; "exited"; "stopped"; "dead"].

  (** [_simple_health_check] *)
Definition _simple_health_check (project_path : string) (project_config : ProjectConfig)
    : State (World X) bool :=
    let* '(success, stdout, _) :=
      run_command u (docker_compose_cmd u ++ ["ps"]) project_path in
    if success && Text.nonempty stdout then
      if Text.search_words running_words stdout
         && negb (Text.search_words exit_words stdout)
      then
        match docker_port project_config with
        | Some port =>
            if port =? 0 then ret true
            else
              let* reachable := _check_port port in
              if reachable then ret true
              else
                do sleep 5 then
                do _check_port port then
                ret true
        | None => ret true
        end
      else ret false
    else ret false.

  (** The [for container in containers] loop of [_detailed_health_check]. *)
Fixpoint scan (containers : list Container) (all_healthy : bool) : Scan :=
    match containers with
    | [] => ScanEnd all_healthy
    | container :: rest =>
        let state := Text.lower (c_State container) in
        let health := Text.lower (c_Health container) in
        if String.eqb state "running"
           && (negb (Text.nonempty health) || String.eqb health "healthy")
        then scan rest all_healthy
        else if String.eqb state "restarting" then scan rest false
        else if String.eqb state "exited" then ScanExited
        else scan rest false
    end.

  (** The [while time.time() - start_time < timeout] loop of
      [_detailed_health_check]; [remaining] counts the polls still
      followed. *)
Fixpoint _detailed_health_check_loop (remaining : nat) (project_path : string)
    (project_config : ProjectConfig) (start_time : Z) : State (World X) (Run bool) :=
    match remaining with
    | O => ret StillPolling
    | S k =>
        let* t := now in
        if negb (t - start_time <? docker_health_check_timeout project_config) then
          ret (Returned false)
        else
          let* stop := shutdown_is_set in
          if stop then ret (Returned false)
          else
            let again :=
              run* _ := sleep_checked (docker_health_check_interval project_config) in
              _detailed_health_check_loop k project_path project_config start_time in
            let* '(success, stdout, _) :=
              run_command u (docker_compose_cmd u ++ ["ps"; "--format"; "json"])
                project_path in
            if negb success then
              let* '(success, _, _) :=
                run_command u (docker_compose_cmd u ++ ["ps"]) project_path in
              if success then
                let* healthy := _simple_health_check project_path project_config in
                ret (Returned healthy)
              else again
            else if Text.nonempty stdout then
              match json_loads stdout with
              | JsonDecodeError =>
                  let* healthy := _simple_health_check project_path project_config in
                  ret (Returned healthy)
              | JsonList containers =>
                  match scan containers true with
                  | ScanExited => ret (Returned false)
                  | ScanEnd true => ret (Returned true)
                  | ScanEnd false => again
                  end
              | JsonBadList containers =>
                  match scan containers true with
                  | ScanExited => ret (Returned false)
                  | ScanEnd _ => ret (Throws "AttributeError")
                  end
              | JsonOther => again
              end
            else again
    end.

  (** [_detailed_health_check] *)
Definition _detailed_health_check (project_path : string) (project_config : ProjectConfig)
    : State (World X) (Run bool) :=
    let* start_time := now in
    _detailed_health_check_loop polls project_path project_config start_time.

  (** [verify_docker_health] *)
Definition verify_docker_health (project_path project_name : string)
    : State (World X) (Run bool) :=
    if negb (verify_health (config u)) then ret (Returned true)
    else
      match lookup_project (projects u) project_name with
      | None => ret (Returned false)
      | Some project_config =>
          run* _ := sleep_checked (wait_before_health_check (config u)) in
          if use_simple_health_check (config u) then
            let* healthy := _simple_health_check project_path project_config in
            ret (Returned healthy)
          else _detailed_health_check project_path project_config
      end.

  (** The [for attempt in range(max_attempts)] loop of
      [rebuild_and_start_docker]. *)
Fixpoint rebuild_loop (remaining : nat) (attempt : Z) (project_path project_name : string)
    : State (World X) (Run bool) :=
    match remaining with
    | O => ret (Returned false)
    | S k =>
        let max_attempts := max_restart_attempts (config u) in
        let* stop := shutdown_is_set in
        if stop then ret (Returned false)
        else
          do (if 0 <? attempt then sleep 5 else ret tt) then
          let cmd :=
            docker_compose_cmd u ++ ["up"; "--build"; "-d"]
              ++ (if remove_orphans (config u) then ["--remove-orphans"] else []) in
          let* '(success, _, _) :=
            run_command_full u cmd (Some project_path) false (Some (docker_timeout u)) None in
          if success then
            run* healthy := verify_docker_health project_path project_name in
            if healthy then ret (Returned true)
            else
              do (if attempt <? max_attempts - 1
                  then do stop_docker_services project_path then ret tt
                  else ret tt) then
              rebuild_loop k (attempt + 1) project_path project_name
          else rebuild_loop k (attempt + 1) project_path project_name
    end.

  (** [rebuild_and_start_docker] *)
Definition rebuild_and_start_docker (project_path project_name : string)
    : State (World X) (Run bool) :=
    let* available := check_docker_availability u in
    if negb available then ret (Returned false)
    else
      do (if auto_prune (config u) then _clean_docker_images project_path else ret tt) then
      rebuild_loop (Z.to_nat (max_restart_attempts (config u))) 0 project_path project_name.

  (** [self._check_docker_config_changed(project_path)] on the files of
      the world. *)
Definition check_config_changed (project_path : string) : State (World X) bool :=
    fun w =>
      let '(changed, fs') := Fingerprint._check_docker_config_changed u project_path (fs w) in
      (changed, mkWorld (ext w) fs' (ticks w) (raised_at w)).

  (** [rollback_set] for a caller that lets the [KeyError] pass. *)
Definition rollback_update (name : string) (kvs : list (string * JVal))
    : State (St X) (Run unit) :=
    let* r := rollback_set name kvs in
    match r with
    | Ok _ => ret (Returned tt)
    | Raised e => ret (Throws e)
    end.

  (** [_perform_docker_deployment] *)
Definition _perform_docker_deployment (project_name project_path : string)
    : State (St X) (Run bool) :=
    let* config_changed := liftW (check_config_changed project_path) in
    let* stopped := liftW (stop_docker_services project_path) in
    if negb stopped then ret (Returned false)
    else
      do (if config_changed && rebuild_on_config_change (config u)
          then liftW (_clean_docker_images project_path)
          else ret tt) then
      run* rebuilt := liftW (rebuild_and_start_docker project_path project_name) in
      if negb rebuilt then ret (Returned false)
      else
        run* _ := rollback_update project_name [("docker_deploy_success", JBool true)] in
        ret (Returned true).

  (** *** One project *)

  (** [_confirm_update]: [input] answers a line, or raises [EOFError]. *)
Definition _confirm_update : State (World X) bool :=
    fun w =>
      let '(r, x') := input_line (ext w) in
      (match r with
       | Some response =>
           let answer := Text.lower (Text.strip response) in
           String.eqb answer "y" || String.eqb answer "yes"
       | None => false
       end,
       mkWorld x' (fs w) (S (ticks w)) (raised_at w)).

  (** [_get_git_changes] *)
Definition _get_git_changes (project_path : string) : State (World X) (list string) :=
    let* '(success, stdout, _) :=
      run_command u ["git"; "diff"; "--name-only"; "HEAD~1..HEAD"] project_path in
    ret (if success && Text.nonempty stdout then Text.lines (Text.strip stdout) else []).

  (** [_execute_custom_commands] *)
Definition _execute_custom_commands (commands : list string) (cwd phase : string)
    : State (World X) unit :=
    for_each commands
      (fun cmd =>
         let tag := phase +:+ ":" in
         if Text.startswith tag cmd then
           match shlex_split (Text.drop (String.length tag) cmd) with
           | Some safe_cmd => do run_command u safe_cmd cwd then ret tt
           | None => ret tt
           end
         else ret tt).

Definition run_custom_commands (project_config : ProjectConfig) (phase : string)
    : State (St X) unit :=
    match custom_commands project_config with
    | [] => ret tt
    | commands => liftW (_execute_custom_commands commands (path project_config) phase)
    end.

  (** The deployment block of [update_project] ([if project_config.has_docker: ...]). *)
Definition update_project_docker (project_name : string) (project_config : ProjectConfig)
    (result : UpdateResult) : State (St X) (Run Flow * UpdateResult) :=
    if negb (has_docker project_config) then ret (Returned Continue, result)
    else
      let* available := liftW (check_docker_availability u) in
      if negb available then
        let* r := rollback_update project_name [("status", JStr "docker_skipped")] in
        match r with
        | Returned _ =>
            ret (Returned Continue,
                 set_docker_status (Some SKIPPED) (set_status PARTIAL result))
        | Throws e => ret (Throws e, result)
        | StillPolling => ret (StillPolling, result)
        end
      else
        let* deployed := _perform_docker_deployment project_name (path project_config) in
        match deployed with
        | Returned docker_success =>
            let result :=
              set_docker_status (Some (if docker_success then SUCCESS else FAILED)) result in
            if negb docker_success then
              let* r := rollback_update project_name [("status", JStr "docker_failed")] in
              match r with
              | Returned _ =>
                  do save_rollback_info then
                  let* t := liftW now in
                  ret (Returned Return,
                       close_result PARTIAL (Some "Docker部署失败") t result)
              | Throws e => ret (Throws e, result)
              | StillPolling => ret (StillPolling, result)
              end
            else ret (Returned Continue, result)
        | Throws e => ret (Throws e, result)
        | StillPolling => ret (StillPolling, result)
        end.

  (** The end of the [try] block of [update_project]: the commands after
      the update, the bookkeeping, and the line that reports the
      duration, which [format] refuses while [result.duration] is
      [None]. *)
Definition update_project_finish (project_name : string) (project_config : ProjectConfig)
    (result : UpdateResult) : State (St X) (Run Flow * UpdateResult) :=
    do run_custom_commands project_config "post" then
    let* t := liftW now in
    let* r :=
      rollback_update project_name
        [("status", JStr "success"); ("update_end", JStr (isoformat t));
         ("changes_count", JNum (changes_count result))] in
    match r with
    | Returned _ =>
        do save_rollback_info then
        match duration result with
        | None =>
            ret (Throws "unsupported format string passed to NoneType.__format__", result)
        | Some _ =>
            let* t := liftW now in
            ret (Returned Continue, set_end_time (Some t) (set_status SUCCESS result))
        end
    | Throws e => ret (Throws e, result)
    | StillPolling => ret (StillPolling, result)
    end.

  (** The [try] block of [update_project] from the statement after the
      git stage on. *)
Definition update_project_after_git (project_name : string)
    (project_config : ProjectConfig) (git_result : UpdateStatus) (result : UpdateResult)
    : State (St X) (Run Flow * UpdateResult) :=
    let result := set_git_status (Some git_result) result in
    if bool_decide (git_result = FAILED) then
      let* r := rollback_update project_name [("status", JStr "git_failed")] in
      match r with
      | Returned _ =>
          do save_rollback_info then
          let* t := liftW now in
          ret (Returned Return, close_result FAILED (Some "Git更新失败") t result)
      | Throws e => ret (Throws e, result)
      | StillPolling => ret (StillPolling, result)
      end
    else
      let* result :=
        (if bool_decide (git_result = SUCCESS) then
           let* changes := liftW (_get_git_changes (path project_config)) in
           ret (set_changes (Z.of_nat (length changes)) (firstn 10 changes) result)
         else ret result) in
      if bool_decide (git_result = NO_CHANGES) && skip_unchanged_docker (config u) then
        let* r := rollback_update project_name [("status", JStr "no_changes")] in
        match r with
        | Returned _ =>
            do save_rollback_info then
            let* t := liftW now in
            ret (Returned Return, set_end_time (Some t) (set_status NO_CHANGES result))
        | Throws e => ret (Throws e, result)
        | StillPolling => ret (StillPolling, result)
        end
      else
        let* '(flow, result) := update_project_docker project_name project_config result in
        match flow with
        | Returned Continue => update_project_finish project_name project_config result
        | _ => ret (flow, result)
        end.

  (** The [try] block of [update_project]. *)
Definition update_project_try (project_name : string) (project_config : ProjectConfig)
    (result : UpdateResult) : State (St X) (Run Flow * UpdateResult) :=
    let* t := liftW now in
    do rollback_assign project_name
         {[ "update_start" := JStr (isoformat t);
            "status" := JStr "in_progress";
            "version" := JStr __version__ ]} then
    do run_custom_commands project_config "pre" then
    let* '(git_result, result) :=
      _perform_git_update u project_name project_config (path project_config) result in
    match git_result with
    | Ok git_result => update_project_after_git project_name project_config git_result result
    | Raised e => ret (Throws e, result)
    end.

  (** [update_project]. [getboolean] raises [ValueError] on a value of
      [interactive_mode] that is no boolean, outside the [try] block. A
      [KeyboardInterrupt] that arrives as the [try] block is entered goes
      to its handler, which fills in the result object, sets the shutdown
      event and raises the exception again: the result object is lost
      with the frame. *)
Definition update_project (project_name : string) : State (St X) (Run UpdateResult) :=
    let* started := liftW now in
    let result := new_result project_name IN_PROGRESS (Some started) None in
    match lookup_project (projects u) project_name with
    | None =>
        let* t := liftW now in
        ret (Returned (close_result FAILED (Some "项目未找到") t result))
    | Some project_config =>
        let* present := liftW (path_exists (path project_config)) in
        if negb present then
          let* t := liftW now in
          ret (Returned (close_result FAILED (Some "项目路径不存在") t result))
        else if negb (Text.nonempty (origin_url project_config)) then
          let* t := liftW now in
          ret (Returned (close_result FAILED (Some "未配置Fork仓库URL") t result))
        else
          match interactive_mode (config u) with
          | None => ret (Throws "ValueError")
          | Some interactive =>
              let* confirmed := (if interactive then liftW _confirm_update else ret true) in
              if negb confirmed then
                let* t := liftW now in
                ret (Returned (close_result CANCELLED (Some "用户取消") t result))
              else
                let* interrupted := liftW keyboard_interrupt in
                if interrupted then
                  let* t := liftW now in
                  do liftW shutdown_set then
                  ret (Throws KeyboardInterrupt)
                else
                  let* '(flow, result) :=
                    update_project_try project_name project_config result in
                  match flow with
                  | Returned _ => ret (Returned result)
                  | StillPolling => ret StillPolling
                  | Throws e =>
                      run* _ :=
                        rollback_update project_name
                          [("status", JStr "exception"); ("error", JStr e)] in
                      do save_rollback_info then
                      let* t := liftW now in
                      ret (Returned (close_result FAILED (Some e) t result))
                  end
          end
    end.

  (** [update_project] as far as its call of [_perform_docker_deployment]
      (lines 965-1058): the configuration of the project and the result
      object as they are when the call is made, [None] when the run does
      not get that far. *)
Definition update_project_to_deployment (project_name : string)
    : State (St X) (option (ProjectConfig * UpdateResult)) :=
    let* started := liftW now in
    let result := new_result project_name IN_PROGRESS (Some started) None in
    match lookup_project (projects u) project_name with
    | None => ret None
    | Some project_config =>
        let* present := liftW (path_exists (path project_config)) in
        if negb present then ret None
        else if negb (Text.nonempty (origin_url project_config)) then ret None
        else
          match interactive_mode (config u) with
          | None => ret None
          | Some interactive =>
              let* confirmed := (if interactive then liftW _confirm_update else ret true) in
              if negb confirmed then ret None
              else
                let* interrupted := liftW keyboard_interrupt in
                if interrupted then ret None
                else
                  let* t := liftW now in
                  do rollback_assign project_name
                       {[ "update_start" := JStr (isoformat t);
                          "status" := JStr "in_progress";
                          "version" := JStr __version__ ]} then
                  do run_custom_commands project_config "pre" then
                  let* '(git_result, result) :=
                    _perform_git_update u project_name project_config (path project_config)
                      result in
                  match git_result with
                  | Raised _ => ret None
                  | Ok git_result =>
                      let result := set_git_status (Some git_result) result in
                      if bool_decide (git_result = FAILED) then ret None
                      else
                        let* result :=
                          (if bool_decide (git_result = SUCCESS) then
                             let* changes :=
                               liftW (_get_git_changes (path project_config)) in
                             ret (set_changes (Z.of_nat (length changes))
                                    (firstn 10 changes) result)
                           else ret result) in
                        if bool_decide (git_result = NO_CHANGES)
                           && skip_unchanged_docker (config u)
                        then ret None
                        else if negb (has_docker project_config) then ret None
                        else
                          let* available := liftW (check_docker_availability u) in
                          ret (if available then Some (project_config, result) else None)
                  end
          end
    end.

  (** [_perform_git_update_only] *)
Definition _perform_git_update_only (project_name : string) : State (St X) UpdateResult :=
    let* started := liftW now in
    let result := new_result project_name IN_PROGRESS (Some started) None in
    match lookup_project (projects u) project_name with
    | None =>
        let* t := liftW now in
        ret (close_result FAILED
               (Some ("项目未找到: " +:+ project_name +:+ "，可用项目: "
                      +:+ Text.join ", " (projects u).*1)) t result)
    | Some project_config =>
        let project_path := path project_config in
        let* present := liftW (path_exists project_path) in
        if negb present then
          let* t := liftW now in
          ret (close_result FAILED (Some "项目路径不存在") t result)
        else if negb (Text.nonempty (origin_url project_config)) then
          let* t := liftW now in
          ret (close_result FAILED (Some "未配置Fork仓库URL") t result)
        else
          let* t := liftW now in
          do rollback_assign project_name
               {[ "update_start" := JStr (isoformat t);
                  "status" := JStr "in_progress" ]} then
          let* '(git_status, result) :=
            _perform_git_update u project_name project_config project_path result in
          let* '(raised, result) :=
            match git_status with
            | Raised e => ret (Some e, result)
            | Ok git_status =>
                let result := set_git_status (Some git_status) result in
                if bool_decide (git_status = FAILED) then
                  let result := set_status FAILED result in
                  let* r := rollback_set project_name [("status", JStr "git_failed")] in
                  ret (match r with Raised e => Some e | Ok _ => None end, result)
                else if bool_decide (git_status = NO_CHANGES) then
                  let result := set_status NO_CHANGES result in
                  let* r := rollback_set project_name [("status", JStr "no_changes")] in
                  ret (match r with Raised e => Some e | Ok _ => None end, result)
                else
                  let result := set_status SUCCESS result in
                  let* r := rollback_set project_name [("status", JStr "git_success")] in
                  match r with
                  | Raised e => ret (Some e, result)
                  | Ok _ =>
                      let* changes := liftW (_get_git_changes project_path) in
                      ret (None,
                           set_changes (Z.of_nat (length changes)) (firstn 10 changes) result)
                  end
            end in
          match raised with
          | None =>
              do save_rollback_info then
              let* t := liftW now in
              ret (set_end_time (Some t) result)
          | Some e =>
              let* t := liftW now in
              ret (close_result FAILED (Some e) t result)
          end
    end.

  (** [_perform_docker_update_only]; the look-up of the project is
      outside its [try]. *)
Definition _perform_docker_update_only (project_name : string) (git_result : UpdateResult)
    : State (St X) (Run UpdateResult) :=
    let result :=
      {| project_name := project_name; status := status git_result;
         git_status := git_status git_result; docker_status := None;
         start_time := start_time git_result; end_time := None;
         error_message := None; changes_count := changes_count git_result;
         files_changed := files_changed git_result;
         backup_branch := backup_branch git_result;
         stash_ref := stash_ref git_result |} in
    match lookup_project (projects u) project_name with
    | None => ret (Throws "KeyError")
    | Some project_config =>
        let* deployed := _perform_docker_deployment project_name (path project_config) in
        let failed e result :=
          set_error_message (Some e)
            (set_docker_status (Some FAILED) (set_status PARTIAL result)) in
        let* closed :=
          match deployed with
          | StillPolling => ret None
          | Throws e => ret (Some (failed e result))
          | Returned docker_success =>
              let result :=
                set_docker_status (Some (if docker_success then SUCCESS else FAILED)) result in
              let result :=
                if negb docker_success then
                  set_error_message (Some "Docker部署失败") (set_status PARTIAL result)
                else result in
              let* r :=
                rollback_set project_name
                  [("status", JStr (if docker_success then "success" else "docker_failed"))] in
              match r with
              | Raised e => ret (Some (failed e result))
              | Ok _ =>
                  let* t := liftW now in
                  let* r := rollback_set project_name [("update_end", JStr (isoformat t))] in
                  match r with
                  | Raised e => ret (Some (failed e result))
                  | Ok _ => do save_rollback_info then ret (Some result)
                  end
              end
          end in
        match closed with
        | None => ret StillPolling
        | Some result =>
            let* t := liftW now in
            ret (Returned (set_end_time (Some t) result))
        end
    end.

  (** *** The fleet *)

  (** [_update_projects_sequential] *)
Fixpoint sequential_loop (names : list string) (results : list UpdateResult)
    : State (St X) (Run (list UpdateResult)) :=
    match names with
    | [] => ret (Returned results)
    | project_name :: rest =>
        let* cancelled :=
          (fun s => if should_cancel s then (true, s) else liftW shutdown_is_set s) in
        if cancelled then
          let* started := liftW now in
          let* ended := liftW now in
          sequential_loop rest
            (results ++ [new_result project_name CANCELLED (Some started) (Some ended)])
        else
          run* result := update_project project_name in
          sequential_loop rest (results ++ [result])
    end.

Definition _update_projects_sequential : State (St X) (Run (list UpdateResult)) :=
    sequential_loop (projects u).*1 [].

  (** The first pool of [_update_projects_parallel], followed under one
      schedule: a worker takes the tasks in the order they were
      submitted, a task runs to its end before the next one starts, and
      the main thread meets each future as it completes. After the
      [break] the tasks still queued run all the same
      ([executor.shutdown] does not cancel them) and their results are
      not collected. *)
Fixpoint collect_git (names : list string) (git_results : gmap string UpdateResult)
    : State (St X) (gmap string UpdateResult) :=
    match names with
    | [] => ret git_results
    | project_name :: rest =>
        let* result := _perform_git_update_only project_name in
        let* stop := liftW shutdown_is_set in
        if stop then
          do for_each rest (fun n => do _perform_git_update_only n then ret tt) then
          ret git_results
        else collect_git rest (<[project_name := result]> git_results)
    end.

Definition deployable (r : UpdateResult) : bool :=
    bool_decide (status r = SUCCESS) || bool_decide (status r = NO_CHANGES).

  (** The tasks of the second pool still queued at the [break]. *)
Fixpoint drain_docker (tasks : list (string * UpdateResult)) : State (St X) (Run unit) :=
    match tasks with
    | [] => ret (Returned tt)
    | (project_name, git_result) :: rest =>
        let* r := _perform_docker_update_only project_name git_result in
        match r with
        | StillPolling => ret StillPolling
        | _ => drain_docker rest
        end
    end.

  (** The second pool, under the same schedule: the main thread looks at
      the event, then waits for the next future; a task that raised
      leaves the result of the git stage in its place. *)
Fixpoint collect_docker (tasks : list (string * UpdateResult))
    (results : list (option UpdateResult)) : State (St X) (Run (list (option UpdateResult))) :=
    match tasks with
    | [] => ret (Returned results)
    | (project_name, git_result) :: rest =>
        let* stop := liftW shutdown_is_set in
        if stop then
          run* _ := drain_docker tasks in
          ret (Returned results)
        else
          let* r := _perform_docker_update_only project_name git_result in
          match r with
          | Returned result => collect_docker rest (results ++ [Some result])
          | Throws _ => collect_docker rest (results ++ [Some git_result])
          | StillPolling => ret StillPolling
          end
    end.

  (** The [for project_name in docker_projects] loop of the branch that
      deploys one project after the other. *)
Fixpoint sequential_docker (names : list string) (git_results : gmap string UpdateResult)
    (results : list (option UpdateResult)) : State (St X) (Run (list (option UpdateResult))) :=
    match names with
    | [] => ret (Returned results)
    | project_name :: rest =>
        let* stop := liftW shutdown_is_set in
        if stop then ret (Returned results)
        else
          match git_results !! project_name with
          | Some git_result =>
              if deployable git_result then
                if bool_decide (status git_result = NO_CHANGES)
                   && skip_unchanged_docker (config u)
                then sequential_docker rest git_results (results ++ [Some git_result])
                else
                  run* result := _perform_docker_update_only project_name git_result in
                  sequential_docker rest git_results (results ++ [Some result])
              else sequential_docker rest git_results (results ++ [Some git_result])
          | None => sequential_docker rest git_results (results ++ [None])
          end
    end.

Definition missing_git_result (project_name : string) : UpdateResult :=
    set_error_message (Some "未找到Git更新结果") (new_result project_name FAILED None None).

  (** [_update_projects_parallel]; a pool asked for no worker raises
      [ValueError], which the first [try] catches. *)
Definition _update_projects_parallel : State (St X) (Run (list (option UpdateResult))) :=
    let git_projects := (projects u).*1 in
    let docker_projects := (filter (fun p => has_docker p.2 = true) (projects u)).*1 in
    let* git_results :=
      (if 0 <? max_workers u then collect_git git_projects ∅ else ret ∅) in
    let* second_stage :=
      match docker_projects with
      | [] => ret false
      | _ =>
          let* available := liftW (check_docker_availability u) in
          if available then
            let* stop := liftW shutdown_is_set in
            ret (negb stop)
          else ret false
      end in
    run* results :=
      (if second_stage then
         if enable_parallel_docker (config u) then
           collect_docker
             (omap (fun n =>
                      match git_results !! n with
                      | Some r => if deployable r then Some (n, r) else None
                      | None => None
                      end) docker_projects)
             []
         else sequential_docker docker_projects git_results []
       else ret (Returned [])) in
    ret (Returned
           (results
            ++ omap (fun n =>
                       if existsb (String.eqb n) docker_projects then None
                       else Some (Some (default (missing_git_result n) (git_results !! n))))
                 git_projects)).

  (** [self.shutdown_event.clear()] *)
Definition shutdown_clear : State (World X) unit :=
    fun w =>
      (tt,
       mkWorld (ext w) (fs w) (S (ticks w))
         (match raised_at w with
          | Some n => if bool_decide (n ≤ ticks w)%nat then None else Some n
          | None => None
          end)).

Definition liftS {A : Type} (m : State (St X) A) : State (Fleet X) A :=
    fun f =>
      let '(a, s') := m (st f) in
      (a, mkFleet s' (update_stats f) (update_results f) (is_running f)).

  (** The results older than an hour are the ones the comprehension at
      the top of [update_all_projects] keeps; an entry that is [None]
      makes it raise. *)
Fixpoint keep_history (t : Z) (l : list (option UpdateResult))
    : option (list (option UpdateResult)) :=
    match l with
    | [] => Some []
    | None :: _ => None
    | Some r :: rest =>
        let old :=
          match start_time r with
          | Some started => started <? t - 3600
          | None => false
          end in
        (fun kept => if old then Some r :: kept else kept) <$> keep_history t rest
    end.

  (** The head of [update_all_projects], up to [start_time = ...]:
      the kept history ([None] where the comprehension raises) and the
      state in which the projects are then updated. *)
Definition fleet_reset (f : Fleet X) : option (list (option UpdateResult)) * St X :=
    let '(t, s1) := liftW now (st f) in
    match keep_history t (update_results f) with
    | None => (None, s1)
    | Some kept =>
        let s2 :=
          mkSt (world s1) (log s1) (rollback_info s1) (git_checkpoints s1) (persisted s1)
            false in
        let '(_, s3) := liftW shutdown_clear s2 in
        let '(_, s4) := liftW now s3 in
        (Some kept, s4)
    end.

  (** [results = self._update_projects_parallel()] or
      [self._update_projects_sequential()] *)
Definition run_fleet (parallel : bool) : State (St X) (Run (list (option UpdateResult))) :=
    if parallel && enable_parallel_git (config u) then _update_projects_parallel
    else
      let* r := _update_projects_sequential in
      ret (match r with
           | Returned results => Returned (Some <$> results)
           | Throws e => Throws e
           | StillPolling => StillPolling
           end).

  (** [failed_count == 0 and cancelled_count == 0] *)
Definition no_failure (stats : gmap string Z) : bool :=
    (default 0 (stats !! UpdateStatus_value FAILED) =? 0)
    && (default 0 (stats !! UpdateStatus_value CANCELLED) =? 0).

  (** [update_all_projects]; its handler of [KeyboardInterrupt] puts
      [should_cancel] up, sets the shutdown event and returns [False]. *)
Definition update_all_projects (parallel : bool) : State (Fleet X) (Run bool) :=
    fun f =>
      match fleet_reset f with
      | (None, s1) => (Throws "AttributeError", mkFleet s1 ∅ (update_results f) (is_running f))
      | (Some kept, s4) =>
          let '(ran, s5) := run_fleet parallel s4 in
          match ran with
          | Returned results =>
              let '(counted, stats) := tally results ∅ in
              if counted then
                let '(_, s6) := save_rollback_info s5 in
                let '(_, s7) := liftW now s6 in
                (Returned (no_failure stats), mkFleet s7 stats (kept ++ results) false)
              else
                (Throws "AttributeError", mkFleet s5 stats (kept ++ results) false)
          | Throws e =>
              if String.eqb e KeyboardInterrupt then
                let s6 :=
                  mkSt (world s5) (log s5) (rollback_info s5) (git_checkpoints s5)
                    (persisted s5) true in
                let '(_, s7) := liftW shutdown_set s6 in
                (Returned false, mkFleet s7 ∅ kept false)
              else (Throws e, mkFleet s5 ∅ kept false)
          | StillPolling => (StillPolling, mkFleet s5 ∅ kept true)
          end
      end.

  (** The [update] action of [main]: the exit code handed to [sys.exit],
      [None] while the run is still polling. An exception that reaches
      [main] exits with 1. *)
Definition main_update (matched_project : option string) (parallel_mode : bool)
    : State (Fleet X) (option Z) :=
    match matched_project with
    | None =>
        let* r := update_all_projects parallel_mode in
        ret (match r with
             | Returned success => Some (if success then 0 else 1)
             | Throws _ => Some 1
             | StillPolling => None
             end)
    | Some project_name =>
        let* r := liftS (update_project project_name) in
        ret (match r with
             | Returned result =>
                 let success :=
                   negb (bool_decide (status result = FAILED)
                         || bool_decide (status result = CANCELLED)) in
                 Some (if success then 0 else 1)
             | Throws _ => Some 1
             | StillPolling => None
             end)
    end.

End Deploy.

(** ** Reading the outcome of a run *)

(** [container.get('State', '').lower()] *)
Definition reported_state (c : Container) : string := Text.lower (c_State c).

(** The fields of a result that the git stage does not assign. *)
Definition same_run_fields (a b : UpdateResult) : Prop :=
  project_name a = project_name b ∧ status a = status b
  ∧ git_status a = git_status b ∧ docker_status a = docker_status b
  ∧ start_time a = start_time b ∧ end_time a = end_time b
  ∧ error_message a = error_message b ∧ changes_count a = changes_count b
  ∧ files_changed a = files_changed b.

Definition keeps_entries {X : Type} (s s' : St X) : Prop :=
  ∀ k, is_Some (rollback_info s !! k) → is_Some (rollback_info s' !! k).

(** What [update_project] returns when it returns: a result for the
    project asked for, which is failed, cancelled, unchanged or partial,
    and is partial exactly when the deployment failed. *)
Definition project_outcome (name : string) (o : Run UpdateResult) : Prop :=
  match o with
  | Returned r =>
      project_name r = name
      ∧ (status r = FAILED ∨ status r = CANCELLED ∨ status r = NO_CHANGES
         ∨ status r = PARTIAL)
      ∧ (docker_status r = Some FAILED ↔ status r = PARTIAL)
  | Throws _ => True
  | StillPolling => True
  end.

(** What a block of the [try] of [update_project] may leave: a result
    returned from inside the block is final; one handed on has no end
    time yet; none carries a failed deployment unless it is returned as
    [PARTIAL]. *)
Definition block_ok (name : string) (out : Run Flow * UpdateResult) : Prop :=
  project_name out.2 = name
  ∧ match out.1 with
    | Returned Return =>
        (status out.2 = FAILED ∨ status out.2 = NO_CHANGES ∨ status out.2 = PARTIAL)
        ∧ (docker_status out.2 = Some FAILED → status out.2 = PARTIAL)
        ∧ (status out.2 = PARTIAL → docker_status out.2 = Some FAILED)
    | Returned Continue => end_time out.2 = None ∧ docker_status out.2 ≠ Some FAILED
    | Throws _ => docker_status out.2 ≠ Some FAILED
    | StillPolling => True
    end.

(** A block run from [s]: its outcome is as [block_ok] says and no entry
    of [rollback_info] is lost. *)
Definition block_spec {X : Type} (name : string) (s : St X)
  (out : (Run Flow * UpdateResult) * St X) : Prop :=
  block_ok name out.1 ∧ keeps_entries s out.2.

(** The same for the blocks that end the [try]: they never hand on. *)
Definition final_spec {X : Type} (name : string) (s : St X)
  (out : (Run Flow * UpdateResult) * St X) : Prop :=
  block_ok name out.1 ∧ out.1.1 ≠ Returned Continue ∧ keeps_entries s out.2.

Definition try_spec {X : Type} (name : string)
  (out : (Run Flow * UpdateResult) * St X) : Prop :=
  block_ok name out.1 ∧ out.1.1 ≠ Returned Continue
  ∧ is_Some (rollback_info out.2 !! name).


(** What [_perform_git_update_only] returns. *)
Definition git_only_outcome (name : string) (r : UpdateResult) : Prop :=
  project_name r = name ∧ is_Some (end_time r) ∧ docker_status r = None
  ∧ (status r = FAILED ∨ status r = NO_CHANGES ∨ status r = SUCCESS).

(** The shutdown event answers [True] in [w]: it was raised at an
    interaction not after the present one. *)
Definition event_set {X : Type} (w : World X) : Prop :=
  ∃ n, raised_at w = Some n ∧ (n ≤ ticks w)%nat.

(** The sequential loop cancels from [s] on: the flag [should_cancel] is
    up or the shutdown event is set. *)
Definition signalled {X : Type} (s : St X) : Prop :=
  should_cancel s = true ∨ event_set (world s).

(** ** A small model of the version-control tool

    Enough of git to follow a merge: commits with their parents, the
    local head, the fetched upstream tip, whether the two sides touch
    the same lines, and whether a merge has stopped on conflicts and is
    still unfinished. A merge of diverged histories makes a merge commit;
    [-X theirs] settles conflicting lines in favour of upstream and still
    makes a merge commit; [reset --hard] moves the head. As git does,
    the model reports the conflicts of a merge on the output stream and
    leaves the error stream empty; on the error stream it refuses to
    merge unrelated histories, and refuses to merge at all while an
    earlier merge is unfinished. The [merge-base --is-ancestor] query
    answers by its exit code. *)

Module MiniGit.

Inductive Commit : Type :=
    | Root (id : string)
    | Child (id : string) (parent : Commit)
    | MergeOf (ours theirs : Commit).

#[global] Instance Commit_eq_dec : EqDecision Commit.
Proof. solve_decision. Defined.

Fixpoint hash_of (c : Commit) : string :=
    match c with
    | Root id => id
    | Child id _ => id
    | MergeOf a b => "merge-" +:+ hash_of a +:+ "-" +:+ hash_of b
    end.

  (** [a] is [c] or one of its ancestors. *)
Fixpoint ancestor (a c : Commit) : bool :=
    bool_decide (a = c)
    || match c with
       | Root _ => false
       | Child _ p => ancestor a p
       | MergeOf p q => ancestor a p || ancestor a q
       end.

Fixpoint roots (c : Commit) : list string :=
    match c with
    | Root id => [id]
    | Child _ p => roots p
    | MergeOf p q => roots p ++ roots q
    end.

Definition related (a b : Commit) : bool :=
    existsb (fun r => existsb (String.eqb r) (roots b)) (roots a).

Record Repo : Type := mkRepo {
    head : Commit;
    upstream_branch : string;
    upstream_tip : Commit;
    conflicting : bool;
    merging : bool
  }.

Definition resolve (r : Repo) (rev : string) : option Commit :=
    if String.eqb rev "HEAD" then Some (head r)
    else if String.eqb rev ("upstream/" +:+ upstream_branch r) then Some (upstream_tip r)
    else None.

Definition with_head (c : Commit) (m : bool) (r : Repo) : Repo :=
    mkRepo c (upstream_branch r) (upstream_tip r) (conflicting r) m.

Definition unknown_rev : string := "fatal: ambiguous argument: unknown revision".

Definition unfinished_merge : string :=
    "error: Merging is not possible because you have unmerged files."
    +:+ String "010"%char "fatal: Exiting because of an unresolved conflict.".

Definition conflict_report : string :=
    "CONFLICT (content): Merge conflict in README.md"
    +:+ String "010"%char
          "Automatic merge failed; fix conflicts and then commit the result.".

  (** [git merge]; [up_to_date] is what it prints when there is nothing
      to merge, in the language of the user. *)
Definition merge (up_to_date : string) (theirs : bool) (rev : string) (r : Repo)
    : ProcOutcome * Repo :=
    if merging r then (Completed 128 "" unfinished_merge, r)
    else
      match resolve r rev with
      | None => (Completed 1 "" "merge: not something we can merge", r)
      | Some c =>
          if ancestor c (head r) then (Completed 0 up_to_date "", r)
          else if ancestor (head r) c then
            (Completed 0 "Fast-forward" "", with_head c false r)
          else if negb (related (head r) c) then
            (Completed 128 "" "fatal: refusing to merge unrelated histories", r)
          else if conflicting r && negb theirs then
            (Completed 1 conflict_report "", with_head (head r) true r)
          else
            (Completed 0 "Merge made by the 'ort' strategy." "",
             with_head (MergeOf (head r) c) false r)
      end.

  (** [git merge-base --is-ancestor a b] *)
Definition is_ancestor_step (a b : string) (r : Repo) : ProcOutcome * Repo :=
    match resolve r a, resolve r b with
    | Some x, Some y => (Completed (if ancestor x y then 0 else 1) "" "", r)
    | _, _ => (Completed 128 "" unknown_rev, r)
    end.

Definition rev_parse_step (rev : string) (r : Repo) : ProcOutcome * Repo :=
    match resolve r rev with
    | Some c => (Completed 0 (hash_of c) "", r)
    | None => (Completed 128 "" unknown_rev, r)
    end.

Definition abort_step (r : Repo) : ProcOutcome * Repo :=
    if merging r then (Completed 0 "" "", with_head (head r) false r)
    else (Completed 128 "" "fatal: There is no merge to abort", r).

Definition reset_step (rev : string) (r : Repo) : ProcOutcome * Repo :=
    match resolve r rev with
    | Some c => (Completed 0 ("HEAD is now at " +:+ hash_of c) "", with_head c false r)
    | None => (Completed 128 "" unknown_rev, r)
    end.

  (** The sub-commands the model knows, by the words after [git]. *)
Definition git_step (up_to_date : string) (cmd : list string) (r : Repo)
    : ProcOutcome * Repo :=
    match cmd with
    | [_; sub; a] =>
        if String.eqb sub "rev-parse" then rev_parse_step a r
        else if String.eqb sub "merge" && String.eqb a "--abort" then abort_step r
        else (Completed 0 "" "", r)
    | [_; sub; a; b] =>
        if String.eqb sub "merge" && String.eqb b "--no-edit" then merge up_to_date false a r
        else if String.eqb sub "reset" && String.eqb a "--hard" then reset_step b r
        else (Completed 0 "" "", r)
    | [_; sub; o; a; b] =>
        if String.eqb sub "merge-base" && String.eqb o "--is-ancestor"
        then is_ancestor_step a b r
        else (Completed 0 "" "", r)
    | [_; sub; a; o1; o2; o3; o4] =>
        if String.eqb sub "merge" && String.eqb o1 "--strategy=recursive"
           && String.eqb o2 "-X" && String.eqb o3 "theirs" && String.eqb o4 "--no-edit"
        then merge up_to_date true a r
        else (Completed 0 "" "", r)
    | _ => (Completed 0 "" "", r)
    end.

  (** git as it speaks to a user whose messages are in [up_to_date]'s
      language; [env] is git in English. *)
Definition env_saying (up_to_date : string) : Env Repo :=
    {| subprocess_run cmd _ _ _ st :=
         let '(o, r') := git_step up_to_date cmd st.1 in (o, (r', st.2));
       time_time _ := 0;
       time_sleep _ x := x;
       connect_ex _ x := (Some 0, x);
       input_line x := (None, x);
       json_loads _ := JsonDecodeError;
       strftime _ _ := "20250101_000000";
       isoformat _ := "2025-01-01T00:00:00";
       shlex_split _ := None;
       stale_bundles _ _ _ _ := [];
       sigint _ := false;
       can_save _ := true |}.

Definition env : Env Repo := env_saying "Already up to date.".


Definition base : Commit := Root "base0".
Definition local_work : Commit := Child "local1" base.
Definition upstream_work : Commit := Child "theirs1" base.

  (** Both sides have a commit of their own on the same lines. *)
Definition diverged : Repo :=
    mkRepo local_work "main" upstream_work true false.

  (** The same, with an earlier merge left unfinished on its conflicts. *)
Definition unfinished : Repo :=
    mkRepo local_work "main" upstream_work true true.

  (** The local branch and upstream share no history. *)
Definition unrelated : Repo :=
    mkRepo (Child "local1" (Root "mine0")) "main" upstream_work false false.


Definition state_of (r : Repo) : St Repo :=
    {| world := {| ext := r; fs := ∅; ticks := 0; raised_at := None |};
       log := [];
       rollback_info := ∅;
       git_checkpoints := ∅;
       persisted := None;
       should_cancel := false |}.

End MiniGit.

(** ** Reading a run off the log *)

Module Journal.

  (** Names of the five checkpoints of the fixed sequence. *)
Definition is_chain_name (n : string) : bool :=
    existsb (String.eqb n)
      (GitCheckpointType_value <$>
         [BEFORE_UPDATE; AFTER_REMOTE_SETUP; AFTER_FETCH; AFTER_MERGE; AFTER_PUSH]).

  (** The log lines that tell how far the git stage got: a checkpoint of
      the sequence begun or stored, and a stage reporting success. *)
Definition relevant (r : LogRec) : bool :=
    match r with
    | LogCheckpointBegin n => is_chain_name n
    | LogCheckpointCreated n _ => is_chain_name n
    | LogRemoteReady remote => String.eqb remote "origin"
    | LogFetchOk | LogMergeUpToDate | LogMergeOk | LogMergeResolved
    | LogPushOk | LogPushUpToDate => true
    | _ => false
    end.

Definition trace (l : list LogRec) : list LogRec :=
    filter (fun r => relevant r = true) l.

  (** The line(s) by which the stage before checkpoint [k] reports that
      it succeeded. *)
Definition stage_ok_lines (k : GitCheckpointType) : list LogRec :=
    match k with
    | AFTER_REMOTE_SETUP => [LogRemoteReady "origin"]
    | AFTER_FETCH => [LogFetchOk]
    | AFTER_MERGE => [LogMergeOk; LogMergeResolved]
    | AFTER_PUSH => [LogPushOk; LogPushUpToDate]
    | _ => []
    end.

  (** The checkpoint that the sequence creates just before [k], from
      [after_remote_setup] on ([before_update] depends on a policy). *)
Definition previous_kind (k : GitCheckpointType) : option GitCheckpointType :=
    match k with
    | AFTER_FETCH => Some AFTER_REMOTE_SETUP
    | AFTER_MERGE => Some AFTER_FETCH
    | AFTER_PUSH => Some AFTER_MERGE
    | _ => None
    end.

Definition gated_kinds : list GitCheckpointType :=
    [AFTER_REMOTE_SETUP; AFTER_FETCH; AFTER_MERGE; AFTER_PUSH].

Definition same_line (a b : LogRec) : bool :=
    match a, b with
    | LogRemoteReady x, LogRemoteReady y => String.eqb x y
    | LogCheckpointBegin x, LogCheckpointBegin y => String.eqb x y
    | LogFetchOk, LogFetchOk | LogMergeOk, LogMergeOk
    | LogMergeResolved, LogMergeResolved | LogPushOk, LogPushOk
    | LogPushUpToDate, LogPushUpToDate | LogMergeUpToDate, LogMergeUpToDate => true
    | _, _ => false
    end.

Definition seen (x : LogRec) (before : list LogRec) : bool :=
    existsb (same_line x) before.

  (** What must have been logged before the line [r]. *)
Definition line_ok (before : list LogRec) (r : LogRec) : bool :=
    match r with
    | LogCheckpointCreated n _ =>
        forallb
          (fun k =>
             negb (String.eqb n (GitCheckpointType_value k))
             || (existsb (fun x => seen x before) (stage_ok_lines k)
                 && match previous_kind k with
                    | Some k' =>
                        seen (LogCheckpointBegin (GitCheckpointType_value k')) before
                    | None => true
                    end))
          gated_kinds
    | _ => true
    end.

  (** Every line of [l] has what it needs before it ([before] is the log
      so far, latest first). *)
Fixpoint chain_ok (before l : list LogRec) : bool :=
    match l with
    | [] => true
    | r :: rest => line_ok before r && chain_ok (r :: before) rest
    end.

Definition is_created (names : list string) (r : LogRec) : bool :=
    match r with
    | LogCheckpointCreated n _ => existsb (String.eqb n) names
    | _ => false
    end.

Definition is_up_to_date (r : LogRec) : bool :=
    match r with LogMergeUpToDate => true | _ => false end.

  (** A run whose merge reported "already up to date" ends [NO_CHANGES]
      (or in the [KeyError] of the bookkeeping) and stores neither of
      the two later checkpoints. *)
Definition up_to_date_ok (a : Exc UpdateStatus) (t : list LogRec) : bool :=
    negb (existsb is_up_to_date t)
    || (match a with Ok NO_CHANGES => true | Raised _ => true | _ => false end
        && negb (existsb (is_created ["after_merge"; "after_push"]) t)).

  Section Frame.
    Context {X : Type}.

    (** [git_checkpoints[p][n]] *)
Definition checkpoint_at (s : St X) (p n : string) : option Checkpoint :=
      git_checkpoints s !! p ≫= (.!! n).

    (** What a step may change besides the world: a checkpoint entry
        only together with its "created" line, and [rollback_info] only
        by adding or replacing entries. *)
Definition frame (s s' : St X) (l : list LogRec) : Prop :=
      (∀ p n, (∀ c, LogCheckpointCreated n c ∉ l) →
              checkpoint_at s' p n = checkpoint_at s p n)
      ∧ (∀ k, is_Some (rollback_info s !! k) → is_Some (rollback_info s' !! k)).

    (** Run from [s], [m] extends the log by some lines [l], respects
        [frame], and its result, the relevant lines among [l] and the
        final state satisfy [Q]. *)
Definition spec_at {A : Type} (s : St X) (m : State (St X) A)
      (Q : A → list LogRec → St X → Prop) : Prop :=
      ∃ l, log (m s).2 = log s ++ l ∧ frame s (m s).2 l ∧ Q (m s).1 (trace l) (m s).2.

Definition spec {A : Type} (m : State (St X) A)
      (Q : A → list LogRec → St X → Prop) : Prop :=
      ∀ s, spec_at s m Q.

    (** What [create_git_checkpoint] leaves in the log. *)
Definition checkpoint_outcome (k : GitCheckpointType) (a : option string)
      (t : list LogRec) : Prop :=
      let n := GitCheckpointType_value k in
      if is_chain_name n then
        (a = None ∧ t = [LogCheckpointBegin n])
        ∨ (∃ c, a = Some c ∧ t = [LogCheckpointBegin n; LogCheckpointCreated n c])
      else t = [].

    (** What [merge_upstream_changes] returns and logs. *)
Definition merge_outcome (a : string) (t : list LogRec) : Prop :=
      (a = "no_changes" ∧ t = [LogMergeUpToDate])
      ∨ (a = "success" ∧ (t = [LogMergeOk] ∨ t = [LogMergeResolved]))
      ∨ (a = "failed" ∧ t = []).
    (** What a run of [_perform_git_update] returns and logs. *)
Definition run_outcome (u : Updater) (name : string) (a : Exc UpdateStatus)
      (t : list LogRec) (s' : St X) : Prop :=
      chain_ok [] t = true
      ∧ up_to_date_ok a t = true
      ∧ match a with
        | Ok SUCCESS | Ok FAILED | Ok NO_CHANGES | Raised _ => True
        | Ok _ => False
        end
      ∧ ∀ e, a = Raised e →
             rollback_info s' !! name = None ∨ lookup_project (projects u) name = None.
  End Frame.

  (** The reading "an after-merge checkpoint exists only if an after-fetch
      checkpoint was created first in the same run", over every
      environment. *)
Definition stored_checkpoints_form_a_chain : Prop :=
    ∀ (X : Type) (E : Env X) (u : Updater) (name : string) (pc : ProjectConfig)
      (project_path : string) (result : UpdateResult) (s : St X)
      (l before after : list LogRec) (commit : string),
      log (_perform_git_update u name pc project_path result s).2 = log s ++ l →
      l = before ++ LogCheckpointCreated "after_merge" commit :: after →
      ∃ c, LogCheckpointCreated "after_fetch" c ∈ before.

  (** A [git reset --hard rev] that exits with 0 leaves [HEAD] at the
      commit [rev] names. *)
Definition reset_lands_on_target {X : Type} `{Env X} (u : Updater) : Prop :=
    ∀ project_path rev capture timeout (w w' : World X) out err,
      proc ["git"; "reset"; "--hard"; rev] (Some project_path) capture timeout w
      = (Completed 0 out err, w') →
      is_Some (rev_parse u rev project_path w')
      ∧ rev_parse u "HEAD" project_path w' = rev_parse u rev project_path w'.

  (** The code's own test for a conflict. *)
Definition reports_conflict (stderr : string) : bool :=
    Text.contains "conflict" (Text.lower stderr)
    || Text.contains "unrelated histories" (Text.lower stderr).

  (** The reading "after a conflict that auto-resolution settles, the
      local head is the upstream tip", over every environment whose
      [reset --hard] behaves. *)
Definition resolved_head_is_upstream_tip : Prop :=
    ∀ (X : Type) (E : Env X) (u : Updater) (project_path branch : string) (s : St X)
      (out err : string) (w' : World X),
      reset_lands_on_target u →
      auto_merge_conflicts (config u) = true →
      run_command u (plain_merge branch) project_path (world s) = ((false, out, err), w') →
      reports_conflict err = true →
      (merge_upstream_changes u project_path branch s).1 = "success" →
      let final := world (merge_upstream_changes u project_path branch s).2 in
      rev_parse u "HEAD" project_path final
      = rev_parse u ("upstream/" +:+ branch) project_path final.



End Journal.

(** ** A sample installation *)

Module Demo.

Definition toolbox : ProjectConfig :=
    {| path := "/srv/VCPToolBox-main";
       upstream_url := "https://github.com/lioensky/VCPToolBox.git";
       origin_url := "https://github.com/me/VCPToolBox.git";
       has_docker := true;
       docker_compose_file := "docker-compose.yml";
       is_git_repo := true;
       docker_health_check_timeout := 60;
       docker_health_check_interval := 5;
       docker_port := Some 3210;
       docker_service_name := Some "vcptoolbox";
       branch := "main";
       auto_stash := true;
       custom_commands := [] |}.

Definition chat : ProjectConfig :=
    {| path := "/srv/VCPChat-main";
       upstream_url := "https://github.com/lioensky/VCPChat.git";
       origin_url := "https://github.com/me/VCPChat.git";
       has_docker := false;
       docker_compose_file := "docker-compose.yml";
       is_git_repo := true;
       docker_health_check_timeout := 60;
       docker_health_check_interval := 5;
       docker_port := None;
       docker_service_name := None;
       branch := "main";
       auto_stash := true;
       custom_commands := [] |}.

Definition updater : Updater :=
    {| config := default_config;
       projects := [("VCPChat-main", chat); ("VCPToolBox-main", toolbox)];
       docker_compose_cmd := ["docker"; "compose"];
       vcp_root := "/srv";
       cache_dir := "/srv/VCPUpdate/__pycache__";
       backup_dir := "/srv/VCPUpdate/backups";
       max_workers := 4;
       git_timeout := 180;
       docker_timeout := 900 |}.

Definition compose_path : string := "/srv/VCPToolBox-main/docker-compose.yml".
Definition hash_path : string :=
    "/srv/VCPUpdate/__pycache__/VCPToolBox-main_docker_config.hash".


  (** A realistic compose file, observed once, then edited. *)
Definition fs_observed : FS :=
    {[ compose_path := File "image: nginx:1.25" true true;
       hash_path := File (MD5.hexdigest "image: nginx:1.25") true true ]}.
Definition fs_edited : FS :=
    <[ compose_path := File "image: nginx:1.26" true true ]> fs_observed.

(** *** A repository whose branch has no commit yet

    [git rev-parse HEAD] fails on an unborn branch and answers once the
    first merge has brought commits in; every other command succeeds
    without output. The hidden state says whether the branch has a
    commit. *)
Definition unborn_run (cmd : list string) (born : bool) : ProcOutcome * bool :=
    if bool_decide (cmd = ["git"; "rev-parse"; "HEAD"]) then
      if born then (Completed 0 "4b825dc642cb6eb9a060e54bf8d69288fbee4904" "", born)
      else (Completed 128 "" "fatal: ambiguous argument 'HEAD': unknown revision", born)
    else if bool_decide (cmd = ["git"; "merge"; "upstream/main"; "--no-edit"]) then
      (Completed 0 "Updating to upstream/main" "", true)
    else (Completed 0 "" "", born).

#[local] Instance unborn_env : Env bool :=
    {| subprocess_run cmd _ _ _ st :=
         let '(o, born') := unborn_run cmd st.1 in (o, (born', st.2));
       time_time _ := 0;
       time_sleep _ x := x;
       connect_ex _ x := (Some 0, x);
       input_line x := (None, x);
       json_loads _ := JsonDecodeError;
       strftime _ _ := "20250101_000000";
       isoformat _ := "2025-01-01T00:00:00";
       shlex_split _ := None;
       stale_bundles _ _ _ _ := [];
       sigint _ := false;
       can_save _ := true |}.

Definition unborn_state : St bool :=
    {| world := {| ext := false;
                   fs := {[ "/srv/VCPChat-main" := Dir; "/srv/VCPChat-main/.git" := Dir ]};
                   ticks := 0;
                   raised_at := None |};
       log := [];
       rollback_info := {[ "VCPChat-main" := ∅ ]};
       git_checkpoints := ∅;
       persisted := None;
       should_cancel := false |}.

Definition blank_result (name : string) : UpdateResult :=
    {| project_name := name; status := IN_PROGRESS; git_status := None;
       docker_status := None; start_time := Some 0; end_time := None;
       error_message := None; changes_count := 0; files_changed := [];
       backup_branch := None; stash_ref := None |}.

Definition unborn_run_result : (Exc UpdateStatus * UpdateResult) * St bool :=
    _perform_git_update updater "VCPChat-main" chat "/srv/VCPChat-main"
      (blank_result "VCPChat-main") unborn_state.

(** *** Environments given by a table

    A command listed in the table gets the listed outcome, any other one
    succeeds without output. Whether a Ctrl-C is waiting and whether the
    rollback document can be written is the same at all times; in
    [table_env] there is no Ctrl-C and the document can be written. *)
Fixpoint table_lookup (table : list (list string * ProcOutcome)) (cmd : list string)
    : ProcOutcome :=
    match table with
    | [] => Completed 0 "" ""
    | (c, o) :: rest => if bool_decide (c = cmd) then o else table_lookup rest cmd
    end.

Definition table_env_with (table : list (list string * ProcOutcome))
    (json : string → PsJson) (interrupt writable : bool) : Env unit :=
    {| subprocess_run cmd _ _ _ st := (table_lookup table cmd, st);
       time_time _ := 0;
       time_sleep _ x := x;
       connect_ex _ x := (Some 0, x);
       input_line x := (None, x);
       json_loads := json;
       strftime _ _ := "20250101_000000";
       isoformat _ := "2025-01-01T00:00:00";
       shlex_split _ := None;
       stale_bundles _ _ _ _ := [];
       sigint _ := interrupt;
       can_save _ := writable |}.

Definition table_env (table : list (list string * ProcOutcome)) (json : string → PsJson)
    : Env unit :=
    table_env_with table json false true.

Definition head_commit : string := "9fceb02d0ae598e95dc970b74767f19372d61af8".

(** Upstream has nothing new. *)
Definition up_to_date_env : Env unit :=
    table_env
      [ (["git"; "rev-parse"; "HEAD"], Completed 0 head_commit "");
        (["git"; "merge"; "upstream/main"; "--no-edit"],
         Completed 0 "Already up to date." "") ]
      (fun _ => JsonDecodeError).

(** The same, with a Ctrl-C waiting. *)
Definition interrupted_env : Env unit :=
    table_env_with
      [ (["git"; "rev-parse"; "HEAD"], Completed 0 head_commit "");
        (["git"; "merge"; "upstream/main"; "--no-edit"],
         Completed 0 "Already up to date." "") ]
      (fun _ => JsonDecodeError) true true.

Definition plain_state (files : FS) : St unit :=
    {| world := {| ext := tt; fs := files; ticks := 0; raised_at := None |};
       log := [];
       rollback_info := {[ "VCPChat-main" := ∅; "VCPToolBox-main" := ∅ ]};
       git_checkpoints := ∅;
       persisted := None;
       should_cancel := false |}.

Definition repo_files : FS :=
    {[ "/srv/VCPChat-main" := Dir; "/srv/VCPChat-main/.git" := Dir;
       "/srv/VCPToolBox-main" := Dir; "/srv/VCPToolBox-main/.git" := Dir;
       compose_path := File "image: nginx:1.25" true true ]}.

(** *** Fleets

    The Docker daemon is down; the shutdown event is raised before the
    first project is looked at; a pool is asked for no worker; the build
    of the container fails; [docker compose ps] lists one service that is
    restarting and one that has exited, or one that is restarting and
    none that has exited. *)
Definition docker_down_env : Env unit :=
    table_env
      [ (["git"; "rev-parse"; "HEAD"], Completed 0 head_commit "");
        (["git"; "merge"; "upstream/main"; "--no-edit"],
         Completed 0 "Already up to date." "");
        (["docker"; "version"], Completed 1 "" "Cannot connect to the Docker daemon") ]
      (fun _ => JsonDecodeError).

Definition signalled_state : St unit :=
    {| world := {| ext := tt; fs := repo_files; ticks := 0; raised_at := Some 0%nat |};
       log := [];
       rollback_info := ∅;
       git_checkpoints := ∅;
       persisted := None;
       should_cancel := false |}.

Definition no_worker : Updater :=
    {| config := default_config;
       projects := [("VCPToolBox-main", toolbox)];
       docker_compose_cmd := ["docker"; "compose"];
       vcp_root := "/srv";
       cache_dir := "/srv/VCPUpdate/__pycache__";
       backup_dir := "/srv/VCPUpdate/backups";
       max_workers := 0;
       git_timeout := 180;
       docker_timeout := 900 |}.

Definition idle_fleet : Fleet unit :=
    {| st := plain_state repo_files; update_stats := ∅; update_results := [];
       is_running := false |}.

Definition build_fails_env : Env unit :=
    table_env
      [ (["git"; "rev-parse"; "HEAD"], Completed 0 head_commit "");
        (["docker"; "compose"; "up"; "--build"; "-d"; "--remove-orphans"],
         Completed 1 "" "failed to solve: process did not complete successfully") ]
      (fun _ => JsonDecodeError).



Definition ps_env (services : list Container) : Env unit :=
    table_env
      [ (["docker"; "compose"; "ps"; "--format"; "json"], Completed 0 "[...]" "") ]
      (fun _ => JsonList services).

(** *** A cautious installation *)
Definition cautious_config : Config :=
    {| auto_merge_conflicts := false; force_push := false;
       backup_before_update := true; verify_health := true;
       skip_unchanged_docker := true; create_restore_points := true;
       push_checkpoints := false; interactive_mode := Some false;
       safe_merge_only := false; max_backup_age_days := 30;
       network_retry_count := 3;
       network_retry_delay := 5; auto_prune := false;
       max_restart_attempts := 3; use_simple_health_check := true;
       wait_before_health_check := 10; rebuild_on_config_change := true;
       remove_orphans := true; prune_scope := "project";
       enable_parallel_git := true; enable_parallel_docker := false;
       ssl_verify := true |}.

  (** The same installation with [auto_merge_conflicts = false]. *)
Definition cautious : Updater :=
    {| config := cautious_config;
       projects := projects updater;
       docker_compose_cmd := ["docker"; "compose"];
       vcp_root := "/srv";
       cache_dir := "/srv/VCPUpdate/__pycache__";
       backup_dir := "/srv/VCPUpdate/backups";
       max_workers := 4;
       git_timeout := 180;
       docker_timeout := 900 |}.

End Demo.

(** * Properties *)

(** ** The digest agrees with [hashlib] on sample inputs *)

Example md5_empty : MD5.hexdigest "" = "d41d8cd98f00b204e9800998ecf8427e".
Proof. vm_compute. reflexivity. Qed.

Example md5_abc : MD5.hexdigest "abc" = "900150983cd24fb0d6963f7d28e17f72".
Proof. vm_compute. reflexivity. Qed.

Example md5_two_blocks :
  MD5.hexdigest "aaaaaaaaaaaaaaaaaaaaaaaaaaaaaaaaaaaaaaaaaaaaaaaaaaaaaaaaaaaaaaaa"
  = "014842d480b571495a4a0363793f7367".
Proof. vm_compute. reflexivity. Qed.

(** ** Text: stripping a string without white space *)

Section StripFacts.
  Import Text.

Lemma solid_spec a :
    solid a = true → (N_of_ascii a < 128)%N ∧ space1 a = false.
  Proof.
    unfold solid. intros [Hn Hs]%andb_true_iff.
    split; [by apply N.ltb_lt | by apply negb_true_iff].
  Qed.

  (** A solid character neither starts nor ends a white-space character
      of two or three bytes. *)
Lemma solid_not_space a b c :
    solid a = true →
    space1 a = false ∧ space2 a b = false ∧ space3 a b c = false
    ∧ space2 b a = false ∧ space3 c b a = false.
  Proof.
    intros [Hn Hs]%solid_spec. split; [done|].
    unfold space2, space3. cbv zeta beta iota.
    repeat match goal with
           | |- context [N.eqb (N_of_ascii a) ?k] =>
               destruct (N.eqb_spec (N_of_ascii a) k); [lia|]
           | |- context [N.leb ?k (N_of_ascii a)] =>
               destruct (N.leb_spec k (N_of_ascii a)); [lia|]
           end.
    by rewrite ?andb_false_r, ?andb_false_l, ?orb_false_r.
  Qed.

Lemma lstrip_no_space s : no_space s = true → Text.lstrip s = s.
  Proof.
    destruct s as [|a s]; [done|]. cbn [no_space].
    intros [Ha _]%andb_true_iff.
    cbn [lstrip]. destruct (solid_not_space a a a Ha) as (-> & _).
    destruct s as [|b s]; [done|].
    destruct (solid_not_space a b b Ha) as (_ & -> & _).
    destruct s as [|c s]; [done|].
    by destruct (solid_not_space a b c Ha) as (_ & _ & -> & _).
  Qed.

Lemma lstrip_reversed_no_space s : no_space s = true → Text.lstrip_reversed s = s.
  Proof.
    destruct s as [|c s]; [done|]. cbn [no_space].
    intros [Hc _]%andb_true_iff.
    cbn [lstrip_reversed]. destruct (solid_not_space c c c Hc) as (-> & _).
    destruct s as [|b s]; [done|].
    destruct (solid_not_space c b b Hc) as (_ & _ & _ & -> & _).
    destruct s as [|a s]; [done|].
    by destruct (solid_not_space c b a Hc) as (_ & _ & _ & _ & ->).
  Qed.

Lemma rev_app_rev_app s1 s2 s3 :
    String.rev_app (String.rev_app s1 s2) s3 = String.rev_app s2 (s1 +:+ s3).
  Proof.
    revert s2 s3. induction s1 as [|a s1 IH]; intros s2 s3; [done|].
    change (String a s1 +:+ s3) with (String a (s1 +:+ s3)). simpl.
    by rewrite IH.
  Qed.

Lemma append_empty_r s : s +:+ "" = s.
  Proof.
    induction s as [|a s IH]; [done|].
    change (String a s +:+ "") with (String a (s +:+ "")). by rewrite IH.
  Qed.

Lemma rev_involutive s : String.rev (String.rev s) = s.
  Proof.
    unfold String.rev. rewrite rev_app_rev_app.
    change (String.rev_app "" (s +:+ "")) with (s +:+ ""). apply append_empty_r.
  Qed.

Lemma no_space_rev_app s1 s2 :
    no_space (String.rev_app s1 s2) = no_space s1 && no_space s2.
  Proof.
    revert s2. induction s1 as [|a s1 IH]; intros s2; simpl; [done|].
    rewrite IH. simpl. destruct (solid a), (no_space s1); simpl; auto.
  Qed.

Lemma strip_no_space s : no_space s = true → Text.strip s = s.
  Proof.
    intros Hs. unfold Text.strip, Text.rstrip.
    rewrite (lstrip_no_space s Hs).
    rewrite lstrip_reversed_no_space; [apply rev_involutive|].
    unfold String.rev. rewrite no_space_rev_app, Hs. done.
  Qed.

  (** Text without white space and beyond ASCII reads as it is stored. *)
Lemma utf8_no_space s : no_space s = true → Text.utf8 s = true.
  Proof.
    induction s as [|a s IH]; [done|]. cbn [no_space utf8].
    intros [[Hn _]%solid_spec Hs]%andb_true_iff.
    apply N.ltb_lt in Hn. rewrite Hn. by apply IH.
  Qed.

Lemma universal_newlines_no_space s :
    no_space s = true → Text.universal_newlines s = s.
  Proof.
    induction s as [|a s IH]; [done|]. cbn [no_space universal_newlines].
    intros [Ha Hs]%andb_true_iff.
    destruct (Ascii.eqb_spec a "013"%char) as [->|_]; [done|].
    by rewrite IH.
  Qed.

Lemma hex_digit_solid n : 0 ≤ n < 16 → solid (MD5.hex_digit n) = true.
  Proof.
    intros Hn.
    assert (n = 0 ∨ n = 1 ∨ n = 2 ∨ n = 3 ∨ n = 4 ∨ n = 5 ∨ n = 6 ∨ n = 7 ∨
            n = 8 ∨ n = 9 ∨ n = 10 ∨ n = 11 ∨ n = 12 ∨ n = 13 ∨ n = 14 ∨ n = 15)
      as Hcases by lia.
    repeat (destruct Hcases as [-> | Hcases]; [reflexivity|]).
    by subst.
  Qed.

Lemma land_15_range x : 0 ≤ Z.land x 15 < 16.
  Proof.
    change 15 with (Z.ones 4). rewrite Z.land_ones by lia.
    apply Z.mod_pos_bound. lia.
  Qed.

Lemma hex_of_bytes_no_space bs : no_space (MD5.hex_of_bytes bs) = true.
  Proof.
    induction bs as [|b bs IH]; simpl; [done|].
    rewrite !hex_digit_solid by apply land_15_range. simpl. exact IH.
  Qed.

Lemma strip_hexdigest c : Text.strip (MD5.hexdigest c) = MD5.hexdigest c.
  Proof. apply strip_no_space, hex_of_bytes_no_space. Qed.

  (** A cache file that holds a digest and nothing else reads as that
      digest. *)
Lemma cached_hash_hexdigest c :
    Fingerprint.cached_hash (MD5.hexdigest c) = Some (MD5.hexdigest c).
  Proof.
    unfold Fingerprint.cached_hash, read_text.
    rewrite utf8_no_space by apply hex_of_bytes_no_space. cbn [fmap option_fmap option_map].
    rewrite universal_newlines_no_space by apply hex_of_bytes_no_space.
    by rewrite strip_hexdigest.
  Qed.

End StripFacts.

(** ** The configuration fingerprint *)

Section FingerprintFacts.
  Import Fingerprint.

  Variable u : Updater.
  Variable project_path : string.

  Local Abbreviation cache := (cache_file u project_path).

Lemma fs_exists_insert_ne (fs : FS) p q n :
    p ≠ q → fs_exists (<[p := n]> fs) q = fs_exists fs q.
  Proof. intros Hne. unfold fs_exists. by rewrite lookup_insert_ne. Qed.

Lemma fs_read_insert_ne (fs : FS) p q n :
    p ≠ q → fs_read (<[p := n]> fs) q = fs_read fs q.
  Proof. intros Hne. unfold fs_read. by rewrite lookup_insert_ne. Qed.

Lemma fs_read_insert_eq (fs : FS) p d r w :
    fs_read (<[p := File d r w]> fs) p = if r then Some d else None.
  Proof. unfold fs_read. rewrite lookup_insert_eq. by destruct r. Qed.

Lemma fs_exists_insert_eq (fs : FS) p n : fs_exists (<[p := n]> fs) p = true.
  Proof. unfold fs_exists. by rewrite lookup_insert_eq. Qed.

  (** Writing the cache leaves every other path as it was. *)
Lemma combined_content_insert (fs : FS) p n files acc :
    Forall (fun f => p ≠ path_join project_path f) files →
    combined_content (<[p := n]> fs) project_path files acc
    = combined_content fs project_path files acc.
  Proof.
    intros Hall. revert acc.
    induction Hall as [|f files Hf _ IH]; intros acc; simpl; [done|].
    rewrite fs_exists_insert_ne, fs_read_insert_ne by done.
    destruct (fs_exists fs _); [destruct (fs_read fs _)|]; apply IH.
  Qed.

Lemma config_files_insert (fs : FS) p n compose_file :
    p ∉ fingerprinted project_path compose_file →
    config_files (<[p := n]> fs) project_path compose_file
    = config_files fs project_path compose_file.
  Proof.
    intros Hp. unfold config_files. f_equal.
    assert (Forall (fun f => p ≠ path_join project_path f) additional_configs) as Hall.
    { apply Forall_forall. intros f Hf ->. apply Hp. unfold fingerprinted.
      apply list_elem_of_fmap. exists f. split; [done|]. by right. }
    induction Hall as [|f l Hf _ IH]; [done|].
    rewrite !filter_cons, fs_exists_insert_ne by done.
    destruct (decide (fs_exists fs (path_join project_path f) = true)); by rewrite IH.
  Qed.

Lemma config_files_fingerprinted (fs : FS) p compose_file :
    p ∉ fingerprinted project_path compose_file →
    Forall (fun f => p ≠ path_join project_path f)
      (config_files fs project_path compose_file).
  Proof.
    intros Hp. apply Forall_forall. intros f Hf ->. apply Hp.
    unfold fingerprinted. apply list_elem_of_fmap. exists f. split; [done|].
    unfold config_files in Hf. apply elem_of_cons in Hf as [->|Hf]; [by left|].
    right. by apply list_elem_of_filter in Hf as [_ ?].
  Qed.

Lemma observed_insert_cache (fs : FS) n :
    cache_apart u project_path →
    observed u project_path (<[cache := n]> fs) = observed u project_path fs.
  Proof.
    intros Hapart. unfold observed.
    destruct (find_project_config _ _) as [pc|] eqn:Hpc; [|done].
    specialize (Hapart pc Hpc).
    assert (cache ≠ path_join project_path (docker_compose_file pc)) as Hne.
    { intros Heq. apply Hapart. rewrite Heq. unfold fingerprinted.
      rewrite fmap_cons. by left. }
    rewrite fs_exists_insert_ne by done.
    destruct (fs_exists fs _); [|done].
    rewrite config_files_insert by done.
    by rewrite combined_content_insert by by apply config_files_fingerprinted.
  Qed.

  (** The check in terms of what it observes. *)
Lemma check_unfold (fs : FS) :
    _check_docker_config_changed u project_path fs =
    match observed u project_path fs with
    | None => (false, fs)
    | Some c =>
        if Text.nonempty c then compare_with_cache fs cache (MD5.hexdigest c)
        else (false, fs)
    end.
  Proof.
    unfold _check_docker_config_changed, observed.
    destruct (find_project_config _ _) as [pc|]; [|done].
    destruct (fs_exists fs _); simpl; [|done].
    by destruct (Text.nonempty _).
  Qed.


  (** Whatever the check did, the cache it leaves behind makes an
      immediate second check on the same files answer "unchanged". *)
Lemma recheck_unchanged (fs : FS) :
    cache_apart u project_path →
    let fs' := (_check_docker_config_changed u project_path fs).2 in
    _check_docker_config_changed u project_path fs' = (false, fs').
  Proof.
    intros Hapart. cbv zeta. rewrite (check_unfold fs).
    destruct (observed u project_path fs) as [c|] eqn:Hobs; simpl.
    2:{ rewrite check_unfold, Hobs. done. }
    destruct (Text.nonempty c) eqn:Hc; simpl.
    2:{ rewrite check_unfold, Hobs, Hc. done. }
    unfold compare_with_cache.
    destruct (fs_exists fs cache) eqn:Hex.
    - destruct (fs_read fs cache ≫= cached_hash) as [cached|] eqn:Hrd; simpl.
      2:{ rewrite check_unfold, Hobs, Hc. unfold compare_with_cache.
          by rewrite Hex, Hrd. }
      destruct (String.eqb_spec (MD5.hexdigest c) cached) as [Heq|Hne]; simpl.
      { rewrite check_unfold, Hobs, Hc. unfold compare_with_cache.
        rewrite Hex, Hrd. destruct (String.eqb_spec (MD5.hexdigest c) cached); done. }
      unfold fs_write. pose proof Hrd as Hrd'. unfold fs_read in Hrd'.
      destruct (fs !! cache) as [[|d r w]|] eqn:Hlk; try done.
      destruct r; [|done]. destruct w; simpl.
      + rewrite check_unfold, observed_insert_cache, Hobs, Hc by done.
        unfold compare_with_cache.
        rewrite fs_exists_insert_eq, fs_read_insert_eq. simpl.
        by rewrite cached_hash_hexdigest, String.eqb_refl.
      + rewrite check_unfold, Hobs, Hc. unfold compare_with_cache.
        rewrite Hex, Hrd. unfold fs_write. rewrite Hlk.
        destruct (String.eqb_spec (MD5.hexdigest c) cached); done.
    - unfold fs_write. unfold fs_exists in Hex.
      destruct (fs !! cache) eqn:Hlk; [done|]. simpl.
      rewrite check_unfold, observed_insert_cache, Hobs, Hc by done.
      unfold compare_with_cache.
      rewrite fs_exists_insert_eq, fs_read_insert_eq. simpl.
      by rewrite cached_hash_hexdigest, String.eqb_refl.
  Qed.

End FingerprintFacts.

(** *** One byte of a fingerprinted file changes *)

Section EditFacts.
  Import Fingerprint.




  Variable project_path : string.
  Variable fs : FS.
  Variable edited : string.
  Variables old new : string.
  Variable w : bool.
  Hypothesis Hold : fs !! edited = Some (File old true w).

  Local Abbreviation fs' := (<[edited := File new true w]> fs).












End EditFacts.

Section FingerprintClaims.
  Import Fingerprint.

End FingerprintClaims.



(** C10. When the check answers "changed" it has stored the digest of
    what it read, and a second check over the same files (the cache file
    is not one of them) answers "unchanged" and leaves the files as they
    are. *)
Theorem change_report_rewrites_cache (u : Updater) (project_path : string) (fs fs' : FS) :
  Fingerprint.cache_apart u project_path →
  Fingerprint._check_docker_config_changed u project_path fs = (true, fs') →
  (∃ c, Fingerprint.observed u project_path fs = Some c
        ∧ fs_read fs' (Fingerprint.cache_file u project_path) = Some (MD5.hexdigest c))
  ∧ Fingerprint._check_docker_config_changed u project_path fs' = (false, fs').
Proof.
  intros Hapart Hrun. split.
  - rewrite check_unfold in Hrun.
    destruct (Fingerprint.observed u project_path fs) as [c|]; [|done].
    exists c. split; [done|].
    destruct (Text.nonempty c); [|done].
    unfold Fingerprint.compare_with_cache, fs_write, fs_exists, fs_read in Hrun.
    destruct (fs !! Fingerprint.cache_file u project_path) as [[|d r w]|] eqn:Hlk;
      [done| |done].
    destruct r; [|done]. destruct (_ ≫= _); [|done].
    destruct (negb _); [|done]. destruct w; [|done].
    injection Hrun as <-. by rewrite fs_read_insert_eq.
  - pose proof (recheck_unchanged u project_path fs Hapart) as Hre.
    by rewrite Hrun in Hre.
Qed.

Lemma change_report_rewrites_cache_witness :
  Fingerprint.cache_apart Demo.updater "/srv/VCPToolBox-main"
  ∧ Fingerprint._check_docker_config_changed Demo.updater "/srv/VCPToolBox-main"
      (Fingerprint._check_docker_config_changed Demo.updater "/srv/VCPToolBox-main"
         Demo.fs_edited).2
    = (false,
       (Fingerprint._check_docker_config_changed Demo.updater "/srv/VCPToolBox-main"
          Demo.fs_edited).2).
Proof.
  assert (Fingerprint.cache_apart Demo.updater "/srv/VCPToolBox-main") as Hapart.
  { intros pc Hpc. vm_compute in Hpc. injection Hpc as <-.
    intros Hin. apply list_elem_of_In in Hin. vm_compute in Hin.
    repeat (destruct Hin as [Hin|Hin]; [discriminate Hin|]). exact Hin. }
  split; [exact Hapart|].
  destruct (Fingerprint._check_docker_config_changed Demo.updater "/srv/VCPToolBox-main"
              Demo.fs_edited) as [b fs'] eqn:Hrun.
  assert (b = true) as ->.
  { change b with ((b, fs').1). rewrite <- Hrun. vm_compute. reflexivity. }
  exact (proj2 (change_report_rewrites_cache Demo.updater "/srv/VCPToolBox-main"
                  Demo.fs_edited fs' Hapart Hrun)).
Defined.

(** ** A small program logic over the log *)

Section SpecRules.
  Import Journal.
  Context {X : Type} `{Env X}.
  Variable u : Updater.

Lemma frame_refl (s : St X) : frame s s [].
  Proof. split; [done|]. auto. Qed.

Lemma frame_world (s : St X) w :
    frame s (mkSt w (log s) (rollback_info s) (git_checkpoints s) (persisted s)
               (should_cancel s)) [].
  Proof. split; [done|]. auto. Qed.

Lemma frame_trans (s s1 s2 : St X) l1 l2 :
    frame s s1 l1 → frame s1 s2 l2 → frame s s2 (l1 ++ l2).
  Proof.
    intros [Hc1 Hr1] [Hc2 Hr2]. split.
    - intros p n Hn. rewrite Hc2, Hc1; [done| |].
      + intros c Hin. apply (Hn c). apply elem_of_app. by left.
      + intros c Hin. apply (Hn c). apply elem_of_app. by right.
    - auto.
  Qed.

Lemma trace_app l1 l2 : trace (l1 ++ l2) = trace l1 ++ trace l2.
  Proof. apply filter_app. Qed.

Lemma spec_ret {A} (a : A) (Q : A → list LogRec → St X → Prop) s :
    Q a [] s → spec_at s (ret a) Q.
  Proof.
    intros HQ. exists []. simpl. rewrite app_nil_r.
    split; [done|]. split; [apply frame_refl|apply HQ].
  Qed.

Lemma spec_bind {A B} (m : State (St X) A) (k : A → State (St X) B) Q1 Q s :
    spec_at s m Q1 →
    (∀ a t1 s1, Q1 a t1 s1 → spec_at s1 (k a) (fun b t2 s2 => Q b (t1 ++ t2) s2)) →
    spec_at s (bind m k) Q.
  Proof.
    intros (l1 & Hl1 & Hf1 & HQ1) Hk. unfold spec_at, bind.
    destruct (m s) as [a s1]. simpl in *.
    destruct (Hk a _ _ HQ1) as (l2 & Hl2 & Hf2 & HQ2).
    exists (l1 ++ l2). rewrite Hl2, Hl1, app_assoc, trace_app.
    split; [done|]. split; [by eapply frame_trans|done].
  Qed.

Lemma spec_weaken {A} (m : State (St X) A) (Q1 Q : A → list LogRec → St X → Prop) s :
    spec_at s m Q1 → (∀ a t s', Q1 a t s' → Q a t s') → spec_at s m Q.
  Proof. intros (l & ? & ? & ?) HQ. exists l. auto. Qed.

Lemma spec_liftW {A} (m : State (World X) A) s :
    spec_at s (liftW m) (fun _ t _ => t = []).
  Proof.
    exists []. unfold liftW. destruct (m (world s)) as [a w'] eqn:Hm. simpl.
    rewrite app_nil_r. split; [done|]. split; [apply frame_world|done].
  Qed.

Lemma spec_log_line r s :
    spec_at (X:=X) s (log_line r) (fun _ t _ => t = if relevant r then [r] else []).
  Proof.
    exists [r]. simpl. split; [done|]. split.
    - split; [|auto]. intros p n Hn. done.
    - unfold trace. rewrite filter_cons, filter_nil.
      destruct (relevant r); by case_decide.
  Qed.

Lemma spec_bind_liftW {A B} (m : State (World X) A) (k : A → State (St X) B) Q s :
    (∀ a s1, spec_at s1 (k a) Q) → spec_at s (bind (liftW m) k) Q.
  Proof.
    intros Hk. eapply spec_bind; [apply spec_liftW|].
    intros a t1 s1 ->. apply Hk.
  Qed.

Lemma spec_bind_log {B} r (k : unit → State (St X) B) Q s :
    (∀ s1, spec_at s1 (k tt) (fun b t s' => Q b ((if relevant r then [r] else []) ++ t) s')) →
    spec_at s (bind (log_line r) k) Q.
  Proof.
    intros Hk. eapply spec_bind; [apply spec_log_line|].
    intros [] t1 s1 ->. apply Hk.
  Qed.

Lemma spec_bind_ret {A B} (a : A) (k : A → State (St X) B) Q s :
    spec_at s (k a) Q → spec_at s (bind (ret a) k) Q.
  Proof. intros Hk. apply Hk. Qed.

Lemma spec_ext {A} (m m' : State (St X) A) Q s :
    (∀ s, m s = m' s) → spec_at s m' Q → spec_at s m Q.
  Proof. intros Heq Hm. unfold spec_at. rewrite Heq. apply Hm. Qed.

Lemma spec_bind_assoc {A B C} (m : State (St X) A) (f : A → State (St X) B)
    (k : B → State (St X) C) Q s :
    spec_at s (bind m (fun a => bind (f a) k)) Q → spec_at s (bind (bind m f) k) Q.
  Proof.
    apply spec_ext. intros s0. unfold bind. by destruct (m s0).
  Qed.

Lemma spec_bind_get_checkpoints {B}
    (k : gmap string (gmap string Checkpoint) → State (St X) B) Q s :
    spec_at s (k (git_checkpoints s)) Q → spec_at s (bind get_git_checkpoints k) Q.
  Proof. intros Hk. apply Hk. Qed.

Lemma spec_bind_get_rollback {B}
    (k : gmap string (gmap string JVal) → State (St X) B) Q s :
    spec_at s (k (rollback_info s)) Q → spec_at s (bind get_rollback_info k) Q.
  Proof. intros Hk. apply Hk. Qed.

Lemma spec_rollback_assign key d s :
    spec_at (X:=X) s (rollback_assign key d) (fun _ t _ => t = []).
  Proof.
    exists []. simpl. rewrite app_nil_r. split; [done|]. split; [|done].
    split; [done|]. intros k Hk. simpl. destruct (decide (key = k)) as [->|Hne].
    - rewrite lookup_insert_eq. eauto.
    - by rewrite lookup_insert_ne.
  Qed.

Lemma spec_bind_rollback_assign {B} key d (k : unit → State (St X) B) Q s :
    (∀ s1, spec_at s1 (k tt) Q) → spec_at s (bind (rollback_assign key d) k) Q.
  Proof.
    intros Hk. eapply spec_bind; [apply spec_rollback_assign|].
    intros [] t1 s1 ->. apply Hk.
  Qed.

Lemma spec_rollback_set name kvs s :
    spec_at (X:=X) s (rollback_set name kvs)
      (fun a t s' => t = [] ∧ ∀ e, a = Raised e → rollback_info s' !! name = None).
  Proof.
    exists []. unfold rollback_set, bind, get_rollback_info, rollback_assign, ret.
    destruct (rollback_info s !! name) as [d|] eqn:Hd; simpl; rewrite app_nil_r.
    - split; [done|]. split; [|done]. split; [done|].
      intros k Hk. simpl. destruct (decide (name = k)) as [->|Hne].
      + rewrite lookup_insert_eq. eauto.
      + by rewrite lookup_insert_ne.
    - split; [done|]. split; [apply frame_refl|]. split; [done|]. by intros e _.
  Qed.
End SpecRules.

Ltac spec_step :=
  lazymatch goal with
  | |- Journal.spec _ _ => intros ?
  | |- Journal.spec_at _ (bind (liftW _) _) _ => apply spec_bind_liftW; intros ? ?
  | |- Journal.spec_at _ (bind (log_line _) _) _ => apply spec_bind_log; intros ?
  | |- Journal.spec_at _ (bind (rollback_assign _ _) _) _ => apply spec_bind_rollback_assign; intros ?
  | |- Journal.spec_at _ (bind get_git_checkpoints _) _ => apply spec_bind_get_checkpoints
  | |- Journal.spec_at _ (bind get_rollback_info _) _ => apply spec_bind_get_rollback
  | |- Journal.spec_at _ (bind (ret _) _) _ => apply spec_bind_ret
  | |- Journal.spec_at _ (bind (bind _ _) _) _ => apply spec_bind_assoc
  | |- Journal.spec_at _ (if String.eqb ?a ?b then _ else _) _ =>
      let v := eval vm_compute in (String.eqb a b) in
      lazymatch v with
      | true => change (String.eqb a b) with true
      | false => change (String.eqb a b) with false
      end
  | |- Journal.spec_at _ (bind (if negb ?c then _ else _) _) _ => destruct c eqn:?; cbn [negb]
  | |- Journal.spec_at _ (if negb ?c then _ else _) _ => destruct c eqn:?; cbn [negb]
  | |- Journal.spec_at _ (bind (if ?c then _ else _) _) _ => destruct c eqn:?
  | |- Journal.spec_at _ (bind (match ?c with _ => _ end) _) _ => destruct c eqn:?
  | |- Journal.spec_at _ (if ?c then _ else _) _ => destruct c eqn:?
  | |- Journal.spec_at _ (match ?c with _ => _ end) _ => destruct c eqn:?
  | |- Journal.spec_at _ (ret _) _ => apply spec_ret
  | |- Journal.spec_at _ (liftW _) _ =>
      eapply spec_weaken; [apply spec_liftW|]; intros ? ? ? ->
  | |- Journal.spec_at _ (log_line _) _ =>
      eapply spec_weaken; [apply spec_log_line|]; intros ? ? ? ->
  end.

Ltac spec_run := repeat (spec_step; cbn beta iota).

Create HintDb vcp_spec discriminated.

(** Use the specification of a call that is already proved. *)
Ltac spec_call :=
  lazymatch goal with
  | |- Journal.spec_at _ (bind _ _) _ =>
      eapply spec_bind; [solve [eauto with vcp_spec]|]; cbn beta; intros ? ? ? ?
  | |- Journal.spec_at _ _ _ =>
      eapply spec_weaken; [solve [eauto with vcp_spec]|]; cbn beta; intros ? ? ? ?
  end.

(** ** What each step of the git stage logs *)

Section GitSpecs.
  Import Journal.
  Context {X : Type} `{Env X}.
  Variable u : Updater.

Lemma spec_check_git_status project_path pc result s :
    spec_at s (check_git_status u project_path pc result) (fun _ t _ => t = []).
  Proof. unfold check_git_status. spec_run; done. Qed.

Lemma checkpoint_at_assign (s : St X) (w : World X) lg pers name kind info p n :
    n ≠ kind →
    checkpoint_at
      (mkSt w lg (rollback_info s)
         (<[name := <[kind := info]> (default ∅ (git_checkpoints s !! name))]>
            (git_checkpoints s)) pers (should_cancel s)) p n
    = checkpoint_at s p n.
  Proof.
    intros Hne. unfold checkpoint_at. simpl.
    destruct (decide (name = p)) as [->|Hp].
    - rewrite lookup_insert_eq. simpl. rewrite lookup_insert_ne by done.
      by destruct (git_checkpoints s !! p).
    - by rewrite lookup_insert_ne.
  Qed.

  (** The last three statements of [create_git_checkpoint]. *)
Lemma spec_store_checkpoint name kind info c (a : option string) s :
    spec_at (X:=X) s
      (bind (checkpoint_assign name kind info) (fun _ =>
         bind save_rollback_info (fun _ =>
           bind (log_line (LogCheckpointCreated kind c)) (fun _ => ret a))))
      (fun b t _ => b = a ∧ t = if is_chain_name kind then [LogCheckpointCreated kind c] else []).
  Proof.
    exists [LogCheckpointCreated kind c].
    unfold bind, checkpoint_assign, save_rollback_info, log_line, ret. simpl.
    split; [done|]. split; [split|].
    - intros p n Hn. apply checkpoint_at_assign.
      intros ->. eapply Hn. by left.
    - auto.
    - split; [done|]. unfold trace. rewrite filter_cons, filter_nil. simpl.
      destruct (is_chain_name kind); by case_decide.
  Qed.

Lemma spec_create_git_checkpoint project_path k descr s :
    spec_at s (create_git_checkpoint u project_path k descr)
      (fun a t _ => checkpoint_outcome k a t).
  Proof.
    unfold create_git_checkpoint.
    repeat first
      [ eapply spec_weaken; [apply spec_store_checkpoint|]; intros ? ? ? [-> ->]
      | spec_step; cbn beta iota ].
    all: unfold checkpoint_outcome; destruct k; vm_compute; eauto.
  Qed.

  Hint Resolve spec_check_git_status spec_create_git_checkpoint spec_rollback_set : vcp_spec.

Ltac outcome :=
    repeat match goal with
      | H : checkpoint_outcome _ _ _ |- _ =>
          unfold checkpoint_outcome in H; simpl in H;
          first [ destruct H as [[-> ->]|(? & -> & ->)] | subst ]
      | H : _ = [] |- _ => subst
      | H : ?t = _ |- _ => is_var t; subst t
      | H : _ ∧ _ |- _ => destruct H
      | H : _ ∨ _ |- _ => destruct H
      | H : ∃ _, _ |- _ => destruct H
      end.

  (** As [outcome], but a checkpoint's two outcomes are told apart only
      at the end of the path. *)
Ltac outcome_late :=
    repeat match goal with
      | H : merge_outcome _ _ |- _ =>
          destruct H as [[-> ->]|[[-> [-> | ->]]|[-> ->]]]
      | H : _ ∧ _ |- _ => destruct H
      | H : ?t = _ |- _ => is_var t; subst t
      end.

Ltac checkpoints_now :=
    repeat match goal with
      | H : checkpoint_outcome _ _ _ |- _ =>
          unfold checkpoint_outcome in H; simpl in H;
          destruct H as [[-> ->]|(? & -> & ->)]
      | H : if ?b then _ else _ |- _ => destruct b
      | H : _ ∨ _ |- _ => destruct H
      | H : ?t = _ |- _ => is_var t; subst t
      end.

Lemma spec_restore_git_checkpoint project_path n s :
    spec_at s (restore_git_checkpoint u project_path n) (fun _ t _ => t = []).
  Proof.
    unfold restore_git_checkpoint.
    repeat first [ spec_step; cbn beta iota | spec_call; outcome ]; done.
  Qed.
  Hint Resolve spec_restore_git_checkpoint : vcp_spec.

Lemma spec_restore_first project_path names s :
    spec_at s (restore_first u project_path names) (fun _ t _ => t = []).
  Proof.
    revert s. induction names as [|n rest IH]; intros s; simpl.
    - spec_run; done.
    - repeat first [ spec_step; cbn beta iota | spec_call; outcome ]; done.
  Qed.
  Hint Resolve spec_restore_first : vcp_spec.

Lemma spec_handle_git_failure project_path stage s :
    spec_at s (_handle_git_failure u project_path stage) (fun _ t _ => t = []).
  Proof.
    unfold _handle_git_failure.
    repeat first [ spec_step; cbn beta iota | spec_call; outcome ]; done.
  Qed.
  Hint Resolve spec_handle_git_failure : vcp_spec.

Lemma spec_setup_git_remote project_path remote url s :
    spec_at s (_setup_git_remote u project_path remote url)
      (fun b t _ => t = if b && String.eqb remote "origin"
                        then [LogRemoteReady remote] else []).
  Proof.
    unfold _setup_git_remote.
    repeat first [ spec_step; cbn beta iota | spec_call; outcome ];
      simpl; destruct (String.eqb remote "origin"); done.
  Qed.
  Hint Resolve spec_setup_git_remote : vcp_spec.

Lemma spec_setup_git_remotes name s :
    spec_at s (setup_git_remotes u name)
      (fun a t s => t = match a with Ok true => [LogRemoteReady "origin"] | _ => [] end
                    ∧ ∀ e, a = Raised e → lookup_project (projects u) name = None).
  Proof.
    unfold setup_git_remotes.
    repeat first [ spec_step; cbn beta iota | spec_call; outcome ];
      simpl; rewrite ?andb_false_r, ?andb_true_r; simpl; try done.
    all: destruct a0; done.
  Qed.
  Hint Resolve spec_setup_git_remotes : vcp_spec.

Lemma spec_fetch_upstream_changes project_path pc s :
    spec_at s (fetch_upstream_changes u project_path pc)
      (fun b t _ => t = if b then [LogFetchOk] else []).
  Proof.
    unfold fetch_upstream_changes.
    repeat first [ spec_step; cbn beta iota | spec_call; outcome ]; done.
  Qed.
  Hint Resolve spec_fetch_upstream_changes : vcp_spec.

Lemma spec_try_strategies project_path l s :
    spec_at s (try_strategies u project_path l)
      (fun a t _ => (a = "success" ∧ t = [LogMergeResolved]) ∨ (a = "failed" ∧ t = [])).
  Proof.
    revert s. induction l as [|st rest IH]; intros s; simpl.
    - spec_run; auto.
    - repeat first [ spec_step; cbn beta iota | spec_call; outcome ]; auto.
  Qed.
  Hint Resolve spec_try_strategies : vcp_spec.

Lemma spec_merge_upstream_changes project_path branch s :
    spec_at s (merge_upstream_changes u project_path branch) (fun a t _ => merge_outcome a t).
  Proof.
    unfold merge_upstream_changes, merge_outcome.
    repeat first [ spec_step; cbn beta iota | spec_call; outcome ]; simpl; auto.
  Qed.
  Hint Resolve spec_merge_upstream_changes : vcp_spec.

Lemma spec_push_to_origin project_path branch force s :
    spec_at s (push_to_origin u project_path branch force)
      (fun b t _ => if b then t = [LogPushOk] ∨ t = [LogPushUpToDate] else t = []).
  Proof.
    unfold push_to_origin.
    repeat first [ spec_step; cbn beta iota | spec_call; outcome ]; simpl; auto.
  Qed.
  Hint Resolve spec_push_to_origin : vcp_spec.

Lemma spec_perform_git_update name pc project_path result s :
    spec_at s (_perform_git_update u name pc project_path result)
      (fun a t s' => run_outcome u name a.1 t s').
  Proof.
    unfold _perform_git_update.
    repeat first [ spec_step; cbn beta iota | spec_call; outcome_late ].
    all: unfold run_outcome; cbn [fst snd].
    all: checkpoints_now.
    all: repeat split; try reflexivity; try discriminate; eauto.
  Qed.
End GitSpecs.

(** ** Reading the checker back *)

Section JournalFacts.
Import Journal.

Lemma same_line_eq a b : same_line a b = true → a = b.
Proof.
  destruct a, b; simpl; try discriminate; try reflexivity;
    intros Heq; apply String.eqb_eq in Heq; by subst.
Qed.

Lemma seen_elem x before : seen x before = true → x ∈ before.
Proof.
  unfold seen. intros Hex. apply existsb_exists in Hex as (y & Hy & Hxy).
  apply same_line_eq in Hxy as ->. by apply list_elem_of_In.
Qed.

Lemma chain_ok_split before t1 r t2 :
  chain_ok before (t1 ++ r :: t2) = true → line_ok (rev t1 ++ before) r = true.
Proof.
  revert before. induction t1 as [|x t1 IH]; intros before; simpl.
  - by intros [? _]%andb_true_iff.
  - intros [_ Hrest]%andb_true_iff. rewrite <- app_assoc. simpl. by apply IH.
Qed.

Lemma trace_split before r after :
  relevant r = true →
  trace (before ++ r :: after) = trace before ++ r :: trace after.
Proof.
  intros Hr. unfold trace. rewrite filter_app, filter_cons. by case_decide.
Qed.

Lemma trace_elem x l : x ∈ trace l → x ∈ l.
Proof. unfold trace. by intros [_ ?]%list_elem_of_filter. Qed.


Lemma seen_in_log x l : seen x (rev (trace l) ++ []) = true → x ∈ l.
Proof.
  rewrite app_nil_r. intros Hs%seen_elem. apply trace_elem.
  apply list_elem_of_In, in_rev. by apply list_elem_of_In in Hs.
Qed.

Lemma gated_is_chain k : k ∈ gated_kinds → is_chain_name (GitCheckpointType_value k) = true.
Proof.
  unfold gated_kinds. rewrite !elem_of_cons, elem_of_nil.
  intros [->|[->|[->|[->|[]]]]]; reflexivity.
Qed.

Lemma line_ok_created before k commit :
  k ∈ gated_kinds →
  line_ok before (LogCheckpointCreated (GitCheckpointType_value k) commit) = true →
  existsb (fun x => seen x before) (stage_ok_lines k) = true
  ∧ match previous_kind k with
    | Some k' => seen (LogCheckpointBegin (GitCheckpointType_value k')) before = true
    | None => True
    end.
Proof.
  intros Hk Hok. unfold line_ok in Hok. rewrite forallb_forall in Hok.
  specialize (Hok k). rewrite String.eqb_refl in Hok. cbn [negb orb] in Hok.
  apply andb_true_iff in Hok as [? Hprev]; [|by apply list_elem_of_In].
  split; [done|]. by destruct (previous_kind k).
Qed.
End JournalFacts.

(** ** The checkpoint sequence of one run *)

Section GitStageClaims.
Context {X : Type} `{Env X}.
Variable u : Updater.
Import Journal.

(** C1 (as amended). In the lines one run of the git stage adds to the
    log, the line that reports a stored after-remote-setup, after-fetch,
    after-merge or after-push checkpoint comes after a line by which the
    stage just before it reports success, and (from after-fetch on)
    after the line that begins the creation of the checkpoint before it
    in the sequence; a checkpoint entry of the store changes only
    together with such a line. *)
Theorem checkpoint_follows_stage_and_attempt (name : string) (pc : ProjectConfig)
  (project_path : string) (result : UpdateResult) (s : St X) :
  let s' := (_perform_git_update u name pc project_path result s).2 in
  ∃ l, log s' = log s ++ l
    ∧ (∀ k commit before after,
         k ∈ gated_kinds →
         l = before ++ LogCheckpointCreated (GitCheckpointType_value k) commit :: after →
         (∃ r, r ∈ stage_ok_lines k ∧ r ∈ before)
         ∧ ∀ k', previous_kind k = Some k' →
                 LogCheckpointBegin (GitCheckpointType_value k') ∈ before)
    ∧ (∀ p n, (∀ c, LogCheckpointCreated n c ∉ l) → checkpoint_at s' p n = checkpoint_at s p n).
Proof.
  destruct (spec_perform_git_update u name pc project_path result s)
    as (l & Hlog & [Hframe _] & Hchain & _).
  exists l. split; [done|]. split; [|done].
  intros k commit before after Hk ->.
  rewrite trace_split in Hchain by (simpl; by apply gated_is_chain).
  apply chain_ok_split, line_ok_created in Hchain as [Hstage Hprev]; [|done].
  split.
  - apply existsb_exists in Hstage as (r & Hr & Hseen).
    exists r. split; [by apply list_elem_of_In|]. by apply seen_in_log.
  - intros k' Hk'. rewrite Hk' in Hprev. by apply seen_in_log.
Qed.
End GitStageClaims.

(** C1, counterexample. On a branch without commits [git rev-parse HEAD]
    fails until the merge has brought commits in: the run stores no
    after-fetch checkpoint and then stores an after-merge one. *)
Lemma after_merge_without_after_fetch : ¬ Journal.stored_checkpoints_form_a_chain.
Proof.
  intros Hclaim.
  destruct (Hclaim bool Demo.unborn_env Demo.updater "VCPChat-main" Demo.chat
              "/srv/VCPChat-main" (Demo.blank_result "VCPChat-main") Demo.unborn_state
              (log Demo.unborn_run_result.2)
              (firstn 11 (log Demo.unborn_run_result.2))
              (skipn 12 (log Demo.unborn_run_result.2))
              "4b825dc642cb6eb9a060e54bf8d69288fbee4904") as [c Hc].
  - reflexivity.
  - vm_compute. reflexivity.
  - apply list_elem_of_In in Hc. vm_compute in Hc.
    repeat (destruct Hc as [Hc|Hc]; [discriminate Hc|]). exact Hc.
Qed.

Example unborn_run_store :
  Demo.unborn_run_result.1.1 = Ok SUCCESS
  ∧ Journal.checkpoint_at Demo.unborn_run_result.2 "VCPChat-main" "after_fetch" = None
  ∧ commit_hash <$> Journal.checkpoint_at Demo.unborn_run_result.2 "VCPChat-main" "after_merge"
    = Some "4b825dc642cb6eb9a060e54bf8d69288fbee4904".
Proof. vm_compute. auto. Qed.

Section UpToDate.
Context {X : Type} `{Env X}.
Variable u : Updater.
Import Journal.



End UpToDate.


(** ** [run_command]: what a success means *)

Section RunCommandFacts.
Context {X : Type} `{Env X}.
Variable u : Updater.

Lemma run_command_loop_success command cwd capture timeout retry max_retries
  remaining attempt (w w' : World X) out err :
  run_command_loop u command cwd capture timeout retry max_retries remaining attempt w
  = ((true, out, err), w') →
  ∃ w0 o e, proc command (Some cwd) capture timeout w0 = (Completed 0 o e, w').
Proof.
  revert attempt w. induction remaining as [|k IH]; intros attempt w; simpl.
  - unfold ret. intros [=].
  - unfold bind at 1. destruct (shutdown_is_set w) as [stop w1].
    destruct stop; [unfold ret; intros [=]|].
    unfold bind at 1.
    destruct ((if 0 <? attempt then sleep (network_retry_delay (config u)) else ret ()) w1)
      as [[] w2].
    unfold bind at 1.
    destruct (proc command (Some cwd) capture timeout w2) as [o w3] eqn:Hproc.
    destruct o as [rc so se| |msg].
    + destruct (rc =? 0) eqn:Hrc.
      * unfold ret. intros [= <- <- <-]. apply Z.eqb_eq in Hrc as ->. eauto.
      * destruct (negb retry || (attempt =? max_retries - 1)); [unfold ret; intros [=]|].
        apply IH.
    + destruct (attempt =? max_retries - 1); [unfold ret; intros [=]|]. apply IH.
    + destruct (attempt =? max_retries - 1); [unfold ret; intros [=]|]. apply IH.
Qed.

Lemma run_command_loop_output command cwd timeout retry max_retries
  remaining attempt (w w' : World X) out err :
  run_command_loop u command cwd true timeout retry max_retries remaining attempt w
  = ((true, out, err), w') →
  ∃ w0 o e, proc command (Some cwd) true timeout w0 = (Completed 0 o e, w')
            ∧ out = Text.strip o ∧ err = Text.strip e.
Proof.
  revert attempt w. induction remaining as [|k IH]; intros attempt w; simpl.
  - unfold ret. intros [=].
  - unfold bind at 1. destruct (shutdown_is_set w) as [stop w1].
    destruct stop; [unfold ret; intros [=]|].
    unfold bind at 1.
    destruct ((if 0 <? attempt then sleep (network_retry_delay (config u)) else ret ()) w1)
      as [[] w2].
    unfold bind at 1.
    destruct (proc command (Some cwd) true timeout w2) as [o w3] eqn:Hproc.
    destruct o as [rc so se| |msg].
    + destruct (rc =? 0) eqn:Hrc.
      * unfold ret. intros [= <- <- <-]. apply Z.eqb_eq in Hrc as ->. eauto 10.
      * destruct (negb retry || (attempt =? max_retries - 1)); [unfold ret; intros [=]|].
        apply IH.
    + destruct (attempt =? max_retries - 1); [unfold ret; intros [=]|]. apply IH.
    + destruct (attempt =? max_retries - 1); [unfold ret; intros [=]|]. apply IH.
Qed.

Lemma run_command_success command cwd (w w' : World X) out err :
  run_command u command cwd w = ((true, out, err), w') →
  ∃ w0 capture timeout o e,
    proc command (Some cwd) capture timeout w0 = (Completed 0 o e, w').
Proof.
  unfold run_command, run_command_full. intros Hrun.
  apply run_command_loop_success in Hrun as (w0 & o & e & Hproc). eauto 10.
Qed.
End RunCommandFacts.

Section MergeClaims.
Context {X : Type} `{Env X}.
Variable u : Updater.
Import Journal.

(** C2 (as amended). After a plain merge that fails with a conflict or
    unrelated-histories error, with auto-resolution enabled, a success of
    [merge_upstream_changes] comes from one of its two strategies: the
    re-merge with [-X theirs] exited with 0 and the repository is what
    that merge left (git's merge result), or that re-merge failed, the
    [reset --hard upstream/<branch>] exited with 0 and the repository is
    what the reset left; in the second case, with a [reset --hard] that
    lands on its target, the local head is the upstream tip. *)
Theorem conflict_resolution_outcome (project_path branch : string) (s : St X)
  (out err : string) (w' : World X) :
  auto_merge_conflicts (config u) = true →
  run_command u (plain_merge branch) project_path (world s) = ((false, out, err), w') →
  reports_conflict err = true →
  (merge_upstream_changes u project_path branch s).1 = "success" →
  let final := world (merge_upstream_changes u project_path branch s).2 in
  let aborted := (run_command u ["git"; "merge"; "--abort"] project_path w').2 in
  let remerge := run_command u (theirs_merge branch) project_path aborted in
  let reset := run_command u (hard_reset branch) project_path remerge.2 in
  if remerge.1.1.1 then final = remerge.2
  else reset.1.1.1 = true
       ∧ final = reset.2
       ∧ (reset_lands_on_target u →
          is_Some (rev_parse u "HEAD" project_path final)
          ∧ rev_parse u "HEAD" project_path final
            = rev_parse u ("upstream/" +:+ branch) project_path final).
Proof.
  intros Hauto Hplain Hconflict. unfold reports_conflict in Hconflict.
  cbv zeta.
  destruct (run_command u ["git"; "merge"; "--abort"] project_path w') as [r0 w1] eqn:Habort.
  destruct (run_command u (theirs_merge branch) project_path w1) as [[[ok1 o1] e1] w2]
    eqn:Hremerge.
  destruct (run_command u (hard_reset branch) project_path w2) as [[[ok2 o2] e2] w3]
    eqn:Hreset.
  assert (merge_upstream_changes u project_path branch s
          = (if ok1 then "success" else if ok2 then "success" else "failed",
             mkSt (if ok1 then w2 else w3)
               (log s ++ [LogMergeConflict; LogMergeTry (theirs_merge branch)]
                  ++ (if ok1 then [LogMergeResolved]
                      else LogMergeTry (hard_reset branch)
                           :: (if ok2 then [LogMergeResolved] else [LogMergeUnresolved])))
               (rollback_info s) (git_checkpoints s) (persisted s) (should_cancel s)))
    as ->.
  { unfold merge_upstream_changes, strategies, try_strategies, bind, liftW, log_line, ret.
    rewrite Hplain. cbn [negb world log rollback_info git_checkpoints persisted
      should_cancel]. rewrite Hconflict, Hauto.
    cbn [negb world log rollback_info git_checkpoints persisted should_cancel].
    rewrite Habort.
    cbn [negb world log rollback_info git_checkpoints persisted should_cancel].
    rewrite Hremerge.
    cbn [negb world log rollback_info git_checkpoints persisted should_cancel].
    destruct ok1.
    - cbn [negb world log rollback_info git_checkpoints persisted should_cancel]. by rewrite <- !app_assoc.
    - cbn [negb world log rollback_info git_checkpoints persisted should_cancel]. rewrite Hreset. cbn [negb world log rollback_info git_checkpoints persisted should_cancel].
      destruct ok2; cbn [negb world log rollback_info git_checkpoints persisted should_cancel]; by rewrite <- !app_assoc. }
  cbn [fst snd world]. rewrite Hremerge. cbn [fst snd world]. rewrite Hreset.
  destruct ok1; cbn [fst snd world]; [done|].
  destruct ok2; cbn [fst snd world]; [|done].
  intros _. split; [done|]. split; [done|]. intros Hlands.
  apply run_command_success in Hreset as (w0 & capture & timeout & o & e & Hproc).
  destruct (Hlands _ _ _ _ _ _ _ _ Hproc) as [Hsome Heq].
  split; [|done]. by rewrite Heq.
Qed.
End MergeClaims.

(** ** The small git model meets the contract *)

Lemma minigit_reset_lands u : Journal.reset_lands_on_target (H := MiniGit.env) u.
Proof.
  intros project_path rev capture timeout w w' out err.
  unfold rev_parse, proc, MiniGit.env.
  cbn [subprocess_run MiniGit.env_saying fst snd].
  unfold MiniGit.git_step. cbn [String.eqb Ascii.eqb Bool.eqb andb].
  unfold MiniGit.reset_step, MiniGit.rev_parse_step.
  destruct (MiniGit.resolve (ext w) rev) as [c|] eqn:Hres; [|intros [=]].
  intros [= <- <- <-]. cbn [ext fst snd].
  unfold MiniGit.resolve in *. cbn [MiniGit.head MiniGit.with_head MiniGit.upstream_branch
    MiniGit.upstream_tip].
  revert Hres. destruct (String.eqb rev "HEAD") eqn:Hhead.
  - intros _. cbn. eauto.
  - destruct (String.eqb rev ("upstream/" +:+ _)); [|done]. intros [= <-]. cbn. eauto.
Qed.

(** C2, counterexample. Both sides have commits of their own and an
    earlier merge was left unfinished on its conflicts: the plain merge
    is refused with "unresolved conflict" on the error stream, the
    script aborts the unfinished merge, the re-merge with [-X theirs]
    makes a merge commit on top of the local work, and [HEAD] is that
    commit, not the upstream tip. *)
Lemma theirs_merge_keeps_local_work : ¬ Journal.resolved_head_is_upstream_tip.
Proof.
  intros Hall.
  pose proof (Hall MiniGit.Repo MiniGit.env Demo.updater "/vcp/VCPToolBox" "main"
                (MiniGit.state_of MiniGit.unfinished)) as Hrun.
  specialize (Hrun _ _ _ (minigit_reset_lands _) eq_refl eq_refl).
  vm_compute in Hrun. specialize (Hrun eq_refl eq_refl). discriminate Hrun.
Qed.


Lemma conflict_resolution_outcome_witness :
  let u := Demo.updater in
  let s := MiniGit.state_of MiniGit.unrelated in
  let final :=
    world (merge_upstream_changes (H := MiniGit.env) u "/vcp/VCPToolBox" "main" s).2 in
  (merge_upstream_changes (H := MiniGit.env) u "/vcp/VCPToolBox" "main" s).1 = "success"
  ∧ is_Some (rev_parse (H := MiniGit.env) u "HEAD" "/vcp/VCPToolBox" final)
  ∧ rev_parse (H := MiniGit.env) u "HEAD" "/vcp/VCPToolBox" final
    = rev_parse (H := MiniGit.env) u "upstream/main" "/vcp/VCPToolBox" final.
Proof.
  pose proof (conflict_resolution_outcome (H := MiniGit.env) Demo.updater "/vcp/VCPToolBox"
                "main" (MiniGit.state_of MiniGit.unrelated) _ _ _ eq_refl eq_refl eq_refl
                eq_refl) as Hrun.
  cbv zeta in Hrun.
  destruct Hrun as (_ & _ & Hhead).
  split; [reflexivity|]. exact (Hhead (minigit_reset_lands _)).
Defined.

(** ** The detailed health check *)

Section HealthFacts.
Context {X : Type} `{Env X}.
Variable u : Updater.


Lemma scan_flag_down containers :
  scan containers false = ScanExited ∨ scan containers false = ScanEnd false.
Proof.
  induction containers as [|c rest IH]; cbn; [by right|].
  repeat case_match; auto.
Qed.



(** A list that the loop leaves with the flag still up has only running
    containers that report no health or [healthy]. *)
Lemma scan_all_healthy containers flag :
  scan containers flag = ScanEnd true →
  flag = true
  ∧ ∀ c, c ∈ containers →
         Text.lower (c_State c) = "running"
         ∧ (c_Health c = "" ∨ Text.lower (c_Health c) = "healthy").
Proof.
  revert flag. induction containers as [|c rest IH]; intros flag; cbn.
  - intros [= ->]. split; [done|]. intros c Hc. by apply elem_of_nil in Hc.
  - destruct (String.eqb (Text.lower (c_State c)) "running") eqn:Hrun; cbn [andb].
    + destruct (negb (Text.nonempty (Text.lower (c_Health c)))
                || String.eqb (Text.lower (c_Health c)) "healthy") eqn:Hh.
      * intros Hs. destruct (IH _ Hs) as [-> Hall]. split; [done|].
        intros c' [->|Hc']%elem_of_cons; [|auto].
        apply String.eqb_eq in Hrun. split; [done|].
        apply orb_true_iff in Hh as [Hh|Hh].
        -- left. destruct (c_Health c); [done|discriminate].
        -- right. by apply String.eqb_eq.
      * repeat case_match; intros Hs; try discriminate;
          destruct (scan_flag_down rest) as [Hx|Hx]; congruence.
    + repeat case_match; intros Hs; try discriminate;
        destruct (scan_flag_down rest) as [Hx|Hx]; congruence.
Qed.


End HealthFacts.


(** ** What the git stage leaves of the result object *)


Section ResultFacts.
Context {X : Type} `{Env X}.
Variable u : Updater.

Lemma same_run_fields_refl r : same_run_fields r r.
Proof. by repeat split. Qed.

Lemma same_run_fields_trans a b c :
  same_run_fields a b → same_run_fields b c → same_run_fields a c.
Proof. unfold same_run_fields. intros; destruct_and!; repeat split; congruence. Qed.

Lemma same_run_fields_stash v r : same_run_fields (set_stash_ref v r) r.
Proof. by repeat split. Qed.

Lemma same_run_fields_backup v r : same_run_fields (set_backup_branch v r) r.
Proof. by repeat split. Qed.

Ltac run_pairs :=
  repeat match goal with
  | |- context [bind ?m ?k ?s] =>
      unfold bind at 1; let a := fresh "a" in let s' := fresh "s" in
      destruct (m s) as [a s']; cbn beta iota
  end.

Lemma check_git_status_result project_path pc result (s : St X) :
  same_run_fields (check_git_status u project_path pc result s).1.2 result.
Proof.
  unfold check_git_status.
  repeat first
    [ progress (unfold bind at 1; cbn beta iota)
    | match goal with
      | |- context [let '(_, _) := ?m in _] => destruct m as [? ?] eqn:?; cbn beta iota
      | |- context [if ?c then _ else _] => destruct c; cbn beta iota
      | |- context [match ?c with _ => _ end] => destruct c; cbn beta iota
      end ];
  unfold ret; cbn [fst snd];
  auto using same_run_fields_refl, same_run_fields_stash.
Qed.

Ltac run_all :=
  repeat first
    [ progress (unfold bind at 1; cbn beta iota)
    | match goal with
      | |- context [let '(_, _) := ?m in _] => destruct m as [? ?] eqn:?; cbn beta iota
      | |- context [if ?c then _ else _] => destruct c; cbn beta iota
      | |- context [match ?c with _ => _ end] => destruct c; cbn beta iota
      end ].

Lemma perform_git_update_result name pc project_path result (s : St X) :
  same_run_fields (_perform_git_update u name pc project_path result s).1.2 result.
Proof.
  unfold _perform_git_update.
  unfold bind at 1. destruct (liftW (get_current_commit u project_path) s) as [initial s1].
  unfold bind at 1.
  pose proof (check_git_status_result project_path pc result s1) as Hc.
  destruct (check_git_status u project_path pc result s1) as [[clean r1] s2].
  cbn [fst snd] in Hc. cbn beta iota.
  destruct clean; cbn [negb]; [|exact Hc].
  unfold bind at 1.
  match goal with
  | |- context [let '(_, _) := ?m s2 in _] =>
      assert (same_run_fields (m s2).1 result) as Hb;
      [| destruct (m s2) as [r2 s3]; cbn [fst snd] in Hb; cbn beta iota ]
  end.
  { destruct (backup_before_update (config u)); [|exact Hc].
    run_all. unfold ret. cbn [fst snd].
    eauto using same_run_fields_trans, same_run_fields_backup. }
  run_all; unfold ret; cbn [fst snd]; exact Hb.
Qed.
End ResultFacts.

(** ** Entries of [rollback_info] are never removed *)


Section EntryFacts.
Context {X : Type} `{Env X}.
Variable u : Updater.
Variable polls : nat.
Implicit Types (s : St X).

Lemma keeps_entries_refl s : keeps_entries s s.
Proof. by intros k. Qed.

Lemma keeps_entries_trans s1 s2 s3 :
  keeps_entries s1 s2 → keeps_entries s2 s3 → keeps_entries s1 s3.
Proof. intros H12 H23 k Hk. auto. Qed.

Lemma keeps_entries_eq s s' : rollback_info s' = rollback_info s → keeps_entries s s'.
Proof. intros Heq k. by rewrite Heq. Qed.

Lemma liftW_rollback_info {A : Type} (m : State (World X) A) s :
  rollback_info (liftW m s).2 = rollback_info s.
Proof. unfold liftW. by destruct (m (world s)). Qed.

Lemma liftW_keeps {A : Type} (m : State (World X) A) s : keeps_entries s (liftW m s).2.
Proof. apply keeps_entries_eq, liftW_rollback_info. Qed.

Lemma save_rollback_info_keeps s : keeps_entries s (save_rollback_info s).2.
Proof. by apply keeps_entries_eq. Qed.

Lemma rollback_assign_keeps name d s : keeps_entries s (rollback_assign name d s).2.
Proof.
  intros k Hk. cbn. destruct (decide (name = k)) as [->|Hne].
  - rewrite lookup_insert_eq. eauto.
  - by rewrite lookup_insert_ne.
Qed.

Lemma rollback_assign_entry name d s : is_Some (rollback_info (rollback_assign name d s).2 !! name).
Proof. cbn. rewrite lookup_insert_eq. eauto. Qed.

Lemma rollback_set_keeps name kvs s : keeps_entries s (rollback_set name kvs s).2.
Proof.
  unfold rollback_set, bind, get_rollback_info. cbn beta iota.
  destruct (rollback_info s !! name); cbn; [|apply keeps_entries_refl].
  apply rollback_assign_keeps.
Qed.

Lemma rollback_set_entry name kvs s :
  is_Some (rollback_info s !! name) → (rollback_set name kvs s).1 = Ok tt.
Proof.
  intros [d Hd]. unfold rollback_set, bind, get_rollback_info. cbn beta iota.
  by rewrite Hd.
Qed.

Lemma rollback_update_keeps name kvs s : keeps_entries s (rollback_update name kvs s).2.
Proof.
  unfold rollback_update, bind. pose proof (rollback_set_keeps name kvs s) as Hk.
  destruct (rollback_set name kvs s) as [[[]|e] s']; exact Hk.
Qed.

Lemma rollback_update_entry name kvs s :
  is_Some (rollback_info s !! name) → (rollback_update name kvs s).1 = Returned tt.
Proof.
  intros Hs. unfold rollback_update, bind. pose proof (rollback_set_entry name kvs s Hs) as Hk.
  destruct (rollback_set name kvs s) as [[[]|e] s']; cbn in *; by try discriminate.
Qed.

Lemma perform_git_update_keeps name pc project_path result s :
  keeps_entries s (_perform_git_update u name pc project_path result s).2.
Proof.
  destruct (spec_perform_git_update u name pc project_path result s)
    as (l & _ & [_ Hdom] & _).
  exact Hdom.
Qed.

Lemma perform_docker_deployment_keeps name project_path s :
  keeps_entries s (_perform_docker_deployment u polls name project_path s).2.
Proof.
  unfold _perform_docker_deployment, bindR.
  repeat match goal with
  | |- keeps_entries ?s (bind (liftW ?m) ?k ?s).2 =>
      unfold bind at 1;
      let Hk := fresh "Hk" in
      pose proof (liftW_keeps m s) as Hk;
      destruct (liftW m s) as [? ?]; cbn [snd] in Hk; cbn beta iota;
      eapply keeps_entries_trans; [exact Hk|]; clear Hk
  | |- keeps_entries _ ((if ?c then _ else _) _).2 => destruct c; cbn [negb]
  | |- keeps_entries _ (match ?c with _ => _ end _).2 => destruct c
  | |- keeps_entries ?s (ret _ ?s).2 => apply keeps_entries_refl
  | |- keeps_entries ?s (bind (rollback_update ?n ?kvs) ?k ?s).2 =>
      unfold bind at 1;
      let Hk := fresh "Hk" in
      pose proof (rollback_update_keeps n kvs s) as Hk;
      destruct (rollback_update n kvs s) as [? ?]; cbn [snd] in Hk; cbn beta iota;
      eapply keeps_entries_trans; [exact Hk|]; clear Hk
  | |- keeps_entries ?s (bind (if ?c then _ else _) ?k ?s).2 => destruct c
  | |- keeps_entries ?s (bind (ret _) ?k ?s).2 => unfold bind at 1, ret at 1; cbn beta iota
  end.
Qed.
End EntryFacts.

(** ** One project: what [update_project] can return *)






Section ProjectFacts.
Context {X : Type} `{Env X}.
Variable u : Updater.
Variable polls : nat.
Implicit Types (s : St X).

Ltac step_liftW a s' :=
  match goal with
  | |- context [bind (liftW ?m) ?k ?s] =>
      unfold bind at 1;
      let Hk := fresh "Hk" in
      pose proof (liftW_keeps m s) as Hk;
      destruct (liftW m s) as [a s'] eqn:?; cbn [snd] in Hk; cbn beta iota
  end.

Ltac step_update Hsome s' :=
  match goal with
  | |- context [bind (rollback_update ?n ?kvs) ?k ?s] =>
      unfold bind at 1;
      let Hk := fresh "Hk" in
      let Hr := fresh "Hr" in
      let r := fresh "r" in
      pose proof (rollback_update_keeps n kvs s) as Hk;
      pose proof (rollback_update_entry n kvs s Hsome) as Hr;
      destruct (rollback_update n kvs s) as [r s'] eqn:?; cbn [fst snd] in Hk, Hr;
      subst r; cbn beta iota
  end.

Ltac block_done :=
  lazymatch goal with
  | |- context [bind] => fail
  | |- _ =>
      solve [ unfold block_spec, final_spec, ret, block_ok; cbn;
              repeat split;
              eauto 6 using keeps_entries_refl, keeps_entries_trans,
                save_rollback_info_keeps;
              try discriminate ]
  end.

Ltac step_save s' :=
  match goal with
  | |- context [bind save_rollback_info ?k ?s] =>
      unfold bind at 1;
      let Hk := fresh "Hk" in
      pose proof (save_rollback_info_keeps s) as Hk;
      destruct (save_rollback_info s) as [[] s']; cbn [snd] in Hk; cbn beta iota
  end.

Lemma update_project_docker_outcome name pc result s :
  project_name result = name → docker_status result = None → end_time result = None →
  is_Some (rollback_info s !! name) →
  block_spec name s (update_project_docker u polls name pc result s).
Proof.
  intros Hname Hdocker Hend Hsome. unfold update_project_docker.
  destruct result as [pn st0 gs ds t0 t1 em cc fc bb sr].
  cbn in Hname, Hdocker, Hend. subst.
  destruct (has_docker pc); cbn [negb]; [|block_done].
  step_liftW available s0. destruct available; cbn [negb].
  - unfold bind at 1.
    pose proof (perform_docker_deployment_keeps u polls name (path pc) s0) as Hd.
    destruct (_perform_docker_deployment u polls name (path pc) s0) as [d s1].
    cbn [snd] in Hd. cbn beta iota.
    assert (is_Some (rollback_info s1 !! name)) as Hsome1 by auto.
    destruct d as [[]| |]; cbn [negb]; try block_done.
    step_update Hsome1 s2.
    step_save s3. step_liftW t s4. block_done.
  - assert (is_Some (rollback_info s0 !! name)) as Hsome0 by auto.
    step_update Hsome0 s1. block_done.
Qed.

Ltac step_custom s' :=
  match goal with
  | |- context [bind (run_custom_commands ?u ?pc ?phase) ?k ?s] =>
      unfold bind at 1;
      let Hk := fresh "Hk" in
      assert (keeps_entries s (run_custom_commands u pc phase s).2) as Hk
        by (unfold run_custom_commands; destruct (custom_commands pc);
            [apply keeps_entries_refl | apply liftW_keeps]);
      destruct (run_custom_commands u pc phase s) as [[] s']; cbn [snd] in Hk; cbn beta iota
  end.

Lemma update_project_finish_outcome name pc result s :
  project_name result = name → docker_status result ≠ Some FAILED → end_time result = None →
  is_Some (rollback_info s !! name) →
  final_spec name s (update_project_finish u name pc result s).
Proof.
  intros Hname Hdocker Hend Hsome. unfold update_project_finish.
  destruct result as [pn st0 gs ds t0 t1 em cc fc bb sr].
  cbn in Hname, Hdocker, Hend. subst.
  step_custom s0. step_liftW t s1.
  assert (is_Some (rollback_info s1 !! name)) as Hsome1 by auto.
  step_update Hsome1 s2. step_save s3.
  unfold duration. cbn [start_time end_time]. destruct t0; block_done.
Qed.

Lemma update_project_after_git_outcome name pc git_result result s :
  project_name result = name → docker_status result = None → end_time result = None →
  is_Some (rollback_info s !! name) →
  final_spec name s (update_project_after_git u polls name pc git_result result s).
Proof.
  intros Hname Hdocker Hend Hsome. unfold update_project_after_git.
  destruct result as [pn st0 gs ds t0 t1 em cc fc bb sr].
  cbn in Hname, Hdocker, Hend. subst. cbn zeta.
  destruct (bool_decide (git_result = FAILED)).
  { step_update Hsome s1. step_save s2. step_liftW t s3. block_done. }
  unfold bind at 1.
  match goal with
  | |- context [let '(_, _) := ?m s in _] =>
      assert (keeps_entries s (m s).2
              ∧ project_name (m s).1 = name ∧ docker_status (m s).1 = None
              ∧ end_time (m s).1 = None) as (Hk0 & Hn & Hd & He);
      [| destruct (m s) as [r1 s1]; cbn [fst snd] in Hk0, Hn, Hd, He; cbn beta iota ]
  end.
  { destruct (bool_decide (git_result = SUCCESS)).
    - unfold bind. pose proof (liftW_keeps (_get_git_changes u (path pc)) s) as Hk.
      destruct (liftW (_get_git_changes u (path pc)) s) as [changes s1].
      unfold ret. cbn. repeat split; auto.
    - unfold ret. cbn. repeat split; auto using keeps_entries_refl. }
  assert (is_Some (rollback_info s1 !! name)) as Hsome1 by auto.
  destruct (bool_decide (git_result = NO_CHANGES) && skip_unchanged_docker (config u)).
  { step_update Hsome1 s2. step_save s3. step_liftW t s4.
    destruct r1 as [pn1 st1 gs1 ds1 t2 t3 em1 cc1 fc1 bb1 sr1].
    cbn in Hn, Hd, He. subst. block_done. }
  unfold bind at 1.
  destruct (update_project_docker_outcome name pc r1 s1 Hn Hd He Hsome1) as [Hb Hk1].
  destruct (update_project_docker u polls name pc r1 s1) as [[flow r2] s2].
  cbn [fst snd] in Hb, Hk1. cbn beta iota.
  destruct flow as [[]| |].
  - split; [exact Hb|]. split; [discriminate | eauto using keeps_entries_trans].
  - destruct Hb as (Hn2 & He2 & Hd2). cbn [fst snd] in *.
    destruct (update_project_finish_outcome name pc r2 s2 Hn2 Hd2 He2) as (Hb3 & Hc3 & Hk3);
      [auto|].
    split; [exact Hb3|]. split; [exact Hc3 | eauto using keeps_entries_trans].
  - split; [exact Hb|]. split; [discriminate | eauto using keeps_entries_trans].
  - split; [exact Hb|]. split; [discriminate | eauto using keeps_entries_trans].
Qed.

Lemma update_project_try_outcome name pc started s :
  try_spec name
    (update_project_try u polls name pc (new_result name IN_PROGRESS (Some started) None) s).
Proof.
  unfold update_project_try. step_liftW t s0.
  unfold bind at 1.
  match goal with
  | |- context [let '(_, _) := rollback_assign ?n ?d s0 in _] =>
      pose proof (rollback_assign_entry n d s0) as Hsome1;
      destruct (rollback_assign n d s0) as [[] s1]; cbn [snd] in Hsome1; cbn beta iota
  end.
  step_custom s2.
  unfold bind at 1.
  pose proof (perform_git_update_result u name pc (path pc)
                (new_result name IN_PROGRESS (Some started) None) s2) as Hres.
  pose proof (perform_git_update_keeps u name pc (path pc)
                (new_result name IN_PROGRESS (Some started) None) s2) as Hk3.
  destruct (_perform_git_update u name pc (path pc)
              (new_result name IN_PROGRESS (Some started) None) s2) as [[g r] s3].
  cbn [fst snd] in Hres, Hk3. cbn beta iota.
  destruct Hres as (Hn & _ & _ & Hd & _ & He & _). cbn in Hn, Hd, He.
  assert (is_Some (rollback_info s3 !! name)) as Hsome3 by auto.
  destruct g as [g|e].
  - destruct (update_project_after_git_outcome name pc g r s3 Hn Hd He Hsome3)
      as (Hb & Hc & Hk4).
    split; [exact Hb|]. split; [exact Hc|]. auto.
  - split; [|split; [discriminate | exact Hsome3]].
    unfold ret, block_ok. cbn. rewrite Hd. split; [done|discriminate].
Qed.

Lemma update_project_outcome name s : project_outcome name (update_project u polls name s).1.
Proof.
  unfold update_project. step_liftW started s0.
  destruct (lookup_project (projects u) name) as [pc|].
  2:{ step_liftW t s1. unfold ret, project_outcome. cbn. split; [done|]. split; [auto|].
      split; discriminate. }
  step_liftW present s1. destruct present; cbn [negb].
  2:{ step_liftW t s2. unfold ret, project_outcome. cbn. split; [done|]. split; [auto|].
      split; discriminate. }
  destruct (Text.nonempty (origin_url pc)); cbn [negb].
  2:{ step_liftW t s2. unfold ret, project_outcome. cbn. split; [done|]. split; [auto|].
      split; discriminate. }
  destruct (interactive_mode (config u)) as [interactive|]; [|done].
  unfold bind at 1.
  match goal with
  | |- context [let '(_, _) := ?m s1 in _] => destruct (m s1) as [confirmed s2]; cbn beta iota
  end.
  destruct confirmed; cbn [negb].
  2:{ step_liftW t s3. unfold ret, project_outcome. cbn. split; [done|]. split; [auto|].
      split; discriminate. }
  step_liftW interrupted s2'. destruct interrupted.
  { step_liftW t s3. step_liftW nothing s4. done. }
  unfold bind at 1.
  pose proof (update_project_try_outcome name pc started s2') as (Hb & Hc & Hsome).
  destruct (update_project_try u polls name pc
              (new_result name IN_PROGRESS (Some started) None) s2') as [[flow r] s3].
  cbn [fst snd] in Hb, Hc, Hsome. cbn beta iota.
  destruct Hb as [Hn Hb]. cbn [fst snd] in Hn, Hb.
  destruct flow as [[]|e|].
  - unfold ret, project_outcome. cbn. destruct Hb as (Hst & Hdp & Hpd).
    split; [done|]. split; [tauto|]. by split.
  - done.
  - unfold bindR. step_update Hsome s4. step_save s5. step_liftW t s6.
    unfold ret, project_outcome. cbn. destruct r. cbn in *. subst.
    split; [done|]. split; [auto|]. split; [done|discriminate].
  - by unfold ret.
Qed.
End ProjectFacts.

(** ** The two halves of a parallel run *)

Ltac run_any :=
  repeat first
    [ progress (unfold bind, ret; cbn beta iota; cbn [negb])
    | match goal with
      | |- context [let '(_, _) := ?m in _] =>
          lazymatch m with
          | context [match _ with _ => _ end] => fail
          | _ => destruct m as [? ?] eqn:?; cbn beta iota
          end
      | |- context [if ?c then _ else _] =>
          lazymatch c with
          | context [match _ with _ => _ end] => fail
          | _ => destruct c eqn:?; cbn beta iota
          end
      | |- context [match ?c with _ => _ end] =>
          lazymatch c with
          | context [match _ with _ => _ end] => fail
          | _ => destruct c eqn:?; cbn beta iota
          end
      end ].



Section HalfFacts.
Context {X : Type} `{Env X}.
Variable u : Updater.
Variable polls : nat.
Implicit Types (s : St X).


Lemma perform_docker_update_only_failed name git_result pc s s1 :
  lookup_project (projects u) name = Some pc →
  _perform_docker_deployment u polls name (path pc) s = (Returned false, s1) →
  ∃ r s', _perform_docker_update_only u polls name git_result s = (Returned r, s')
          ∧ status r = PARTIAL ∧ docker_status r = Some FAILED.
Proof.
  intros Hpc Hdeploy. unfold _perform_docker_update_only. rewrite Hpc.
  unfold bind at 1. rewrite Hdeploy. cbn beta iota.
  run_any; unfold ret; cbn; eauto.
Qed.

Lemma perform_git_update_only_outcome name s :
  git_only_outcome name (_perform_git_update_only u name s).1.
Proof.
  unfold _perform_git_update_only.
  unfold bind at 1. destruct (liftW now s) as [started s0]. cbn beta iota.
  destruct (lookup_project (projects u) name) as [pc|].
  2:{ run_any. unfold ret, git_only_outcome. cbn. eauto 10. }
  unfold bind at 1. destruct (liftW (path_exists (path pc)) s0) as [present s1].
  cbn beta iota. destruct present; cbn [negb].
  2:{ run_any. unfold ret, git_only_outcome. cbn. eauto 10. }
  destruct (Text.nonempty (origin_url pc)); cbn [negb].
  2:{ run_any. unfold ret, git_only_outcome. cbn. eauto 10. }
  unfold bind at 1. destruct (liftW now s1) as [t s2]. cbn beta iota.
  unfold bind at 1.
  match goal with
  | |- context [let '(_, _) := rollback_assign ?n ?d s2 in _] =>
      destruct (rollback_assign n d s2) as [[] s3]; cbn beta iota
  end.
  unfold bind at 1.
  pose proof (perform_git_update_result u name pc (path pc)
                (new_result name IN_PROGRESS (Some started) None) s3) as Hres.
  destruct (_perform_git_update u name pc (path pc)
              (new_result name IN_PROGRESS (Some started) None) s3) as [[g r] s4].
  cbn [fst snd] in Hres. cbn beta iota.
  destruct Hres as (Hn & _ & _ & Hd & _ & _ & _). cbn in Hn, Hd.
  destruct r as [pn st0 gs ds t0 t1 em cc fc bb sr]. cbn in Hn, Hd. subst.
  run_any; unfold ret, git_only_outcome; cbn; eauto 10.
Qed.
End HalfFacts.

(** ** The sequential fleet *)

Section FleetFacts.
Context {X : Type} `{Env X}.
Variable u : Updater.
Variable polls : nat.
Implicit Types (s : St X).

(** What the sequential run returns has one result for each name, in
    order, none of them in progress. *)
Lemma sequential_loop_results names acc s :
  match (sequential_loop u polls names acc s).1 with
  | Returned results =>
      ∃ added, results = acc ++ added ∧ project_name <$> added = names
               ∧ Forall (fun r => is_terminal (status r) = true) added
  | Throws _ => True
  | StillPolling => True
  end.
Proof.
  revert acc s. induction names as [|name rest IH]; intros acc s; cbn [sequential_loop].
  { unfold ret. cbn. exists []. by rewrite app_nil_r. }
  unfold bind at 1. cbn beta.
  assert (∃ cancelled s0,
            (if should_cancel s then (true, s) else liftW shutdown_is_set s)
            = (cancelled, s0)) as (cancelled & s0 & ->)
    by (destruct (should_cancel s); [|destruct (liftW shutdown_is_set s)]; eauto).
  cbn beta iota. destruct cancelled.
  - unfold bind at 1. destruct (liftW now s0) as [started s1]. cbn beta iota.
    unfold bind at 1. destruct (liftW now s1) as [ended s2]. cbn beta iota.
    specialize (IH (acc ++ [new_result name CANCELLED (Some started) (Some ended)]) s2).
    destruct (sequential_loop u polls rest _ s2) as [[results| |] s3]; cbn [fst] in *; try done.
    destruct IH as (added & -> & Hnames & Hterm).
    exists (new_result name CANCELLED (Some started) (Some ended) :: added).
    rewrite <- app_assoc. cbn. rewrite Hnames. repeat split. by constructor.
  - unfold bindR, bind at 1.
    pose proof (update_project_outcome u polls name s0) as Hout.
    destruct (update_project u polls name s0) as [[r| |] s1]; cbn [fst] in *; try done.
    destruct Hout as (Hn & Hst & _).
    specialize (IH (acc ++ [r]) s1).
    destruct (sequential_loop u polls rest _ s1) as [[results| |] s3]; cbn [fst] in *; try done.
    destruct IH as (added & -> & Hnames & Hterm).
    exists (r :: added). rewrite <- app_assoc. cbn. rewrite Hnames, Hn. repeat split.
    constructor; [|done]. by destruct Hst as [->|[->|[->| ->]]].
Qed.
End FleetFacts.

(** ** A failed deployment *)

Section DeployClaims.
Context {X : Type} `{Env X}.
Variable u : Updater.
Variable polls : nat.
Implicit Types (s : St X).

Ltac premise_step :=
  match goal with
  | |- (let '(_, _) := ?m in _) = _ → _ => destruct m as [? ?] eqn:?; cbn beta iota
  | |- (if ?c then _ else _) = _ → _ => destruct c eqn:?; cbn beta iota
  | |- (match ?c with _ => _ end) = _ → _ => destruct c eqn:?; cbn beta iota
  | |- (if ?c then _ else _) _ = _ → _ => destruct c eqn:?; cbn beta iota
  | |- (match ?c with _ => _ end) _ = _ → _ => destruct c eqn:?; cbn beta iota
  end.

(** [update_project] and its prefix are followed side by side up to the
    call of the deployment; from there the failed deployment is
    recorded and the result returned. *)
Lemma update_project_partial name pc result s0 s s1 :
  update_project_to_deployment u name s0 = (Some (pc, result), s) →
  _perform_docker_deployment u polls name (path pc) s = (Returned false, s1) →
  ∃ r s', update_project u polls name s0 = (Returned r, s')
          ∧ status r = PARTIAL ∧ docker_status r = Some FAILED
          ∧ error_message r = Some "Docker部署失败".
Proof.
  intros Hreach Hdep. revert Hreach.
  unfold update_project_to_deployment, update_project.
  unfold update_project_try, update_project_after_git, update_project_docker.
  unfold bind, ret. cbn beta iota.
  repeat (premise_step; try (intros [=]; fail)).
  match goal with
  | |- (if ?c then _ else _, _) = _ → _ => destruct c; [|intros [=]]
  end.
  intros Heq. injection Heq as -> -> ->. cbn [negb]. cbn beta iota.
  rewrite Hdep. cbn [negb]. cbn beta iota.
  assert (is_Some (rollback_info s1 !! name)) as Hsome.
  { pose proof (perform_docker_deployment_keeps u polls name (path pc) s) as Hk.
    rewrite Hdep in Hk. apply Hk.
    match goal with
    | Hq : liftW (check_docker_availability u) ?sa = _ |- _ =>
        pose proof (liftW_keeps (check_docker_availability u) sa) as Hk1;
        rewrite Hq in Hk1; apply Hk1; clear Hk1
    end.
    match goal with
    | Hq : (if ?c then _ else _) ?sa = (result, _) |- _ =>
        destruct c;
        [ match type of Hq with
          | (let '(_, _) := liftW ?m sa in _) = _ =>
              pose proof (liftW_keeps m sa) as Hk1;
              destruct (liftW m sa) as [? ?]; injection Hq as _ <-;
              apply Hk1; clear Hk1
          end
        | injection Hq as _ <- ]
    end.
    all: match goal with
         | Hq : _perform_git_update _ ?n ?p ?pp ?r ?sa = _ |- _ =>
             pose proof (perform_git_update_keeps u n p pp r sa) as Hk1;
             rewrite Hq in Hk1; apply Hk1; clear Hk1
         end.
    all: match goal with
         | Hq : run_custom_commands _ ?p ?ph ?sa = _ |- _ =>
             assert (keeps_entries sa (run_custom_commands u p ph sa).2) as Hk1
               by (unfold run_custom_commands; destruct (custom_commands p);
                   [apply keeps_entries_refl | apply liftW_keeps]);
             rewrite Hq in Hk1; apply Hk1; clear Hk1
         end.
    all: match goal with
         | Hq : rollback_assign ?n ?d ?sa = _ |- _ =>
             pose proof (rollback_assign_entry n d sa) as Hk1;
             by rewrite Hq in Hk1
         end. }
  pose proof (rollback_update_entry name [("status", JStr "docker_failed")] s1 Hsome) as Hr.
  destruct (rollback_update name [("status", JStr "docker_failed")] s1) as [r s2'].
  cbn [fst] in Hr. subst r. cbn beta iota.
  destruct (save_rollback_info s2') as [[] s3']. destruct (liftW now s3') as [t s4'].
  cbn beta iota. eexists _, _. split; [reflexivity|]. by repeat split.
Qed.

(** C7. Let the deployment of a project with a container definition
    return [False] (the rebuild failed after all attempts, or the health
    check failed or ran out of time). Then a run of [update_project]
    that has come to this call of the deployment (the git stage did not
    fail) returns a result for the project that is [PARTIAL], with a
    failed deployment and the message of a failed deployment;
    [_perform_docker_update_only] returns a result that is [PARTIAL]
    with a failed deployment; the deployment block of
    [update_project], entered with Docker available, returns from
    [update_project] with such a result; and whatever [update_project]
    returns with a failed deployment is [PARTIAL], never [SUCCESS]. *)
Theorem failed_deployment_ends_partial (name : string) (pc : ProjectConfig)
  (s s1 : St X) :
  has_docker pc = true →
  lookup_project (projects u) name = Some pc →
  _perform_docker_deployment u polls name (path pc) s = (Returned false, s1) →
  (∀ s0 result,
     update_project_to_deployment u name s0 = (Some (pc, result), s) →
     ∃ r s', update_project u polls name s0 = (Returned r, s')
             ∧ project_name r = name ∧ status r = PARTIAL
             ∧ docker_status r = Some FAILED
             ∧ error_message r = Some "Docker部署失败")
  ∧ (∀ git_result,
       ∃ r s', _perform_docker_update_only u polls name git_result s = (Returned r, s')
               ∧ status r = PARTIAL ∧ docker_status r = Some FAILED)
  ∧ (∀ s0 result,
       liftW (check_docker_availability u) s0 = (true, s) →
       is_Some (rollback_info s0 !! name) →
       ∃ r s', update_project_docker u polls name pc result s0 = ((Returned Return, r), s')
               ∧ status r = PARTIAL ∧ docker_status r = Some FAILED)
  ∧ (∀ s0 r s',
       update_project u polls name s0 = (Returned r, s') →
       docker_status r = Some FAILED → status r = PARTIAL).
Proof.
  intros Hdocker Hpc Hdeploy. split; [|split; [|split]].
  - intros s0 result Hreach.
    destruct (update_project_partial name pc result s0 s s1 Hreach Hdeploy)
      as (r & s' & Hrun & Hst & Hds & Hmsg).
    exists r, s'. split; [done|].
    pose proof (update_project_outcome u polls name s0) as Hout. rewrite Hrun in Hout.
    destruct Hout as (Hn & _). done.
  - intros git_result. by eapply perform_docker_update_only_failed.
  - intros s0 result Havail Hsome. unfold update_project_docker.
    rewrite Hdocker. cbn [negb]. unfold bind at 1. rewrite Havail. cbn beta iota. cbn [negb].
    unfold bind at 1. rewrite Hdeploy. cbn beta iota. cbn [negb].
    assert (is_Some (rollback_info s1 !! name)) as Hsome1.
    { pose proof (perform_docker_deployment_keeps u polls name (path pc) s) as Hk.
      rewrite Hdeploy in Hk. apply Hk.
      pose proof (liftW_keeps (check_docker_availability u) s0) as Hk0.
      rewrite Havail in Hk0. by apply Hk0. }
    unfold bind at 1.
    pose proof (rollback_update_entry name [("status", JStr "docker_failed")] s1 Hsome1) as Hr.
    destruct (rollback_update name [("status", JStr "docker_failed")] s1) as [r s2].
    cbn [fst] in Hr. subst r. cbn beta iota.
    unfold bind at 1. destruct (save_rollback_info s2) as [[] s3]. cbn beta iota.
    unfold bind at 1. destruct (liftW now s3) as [t s4]. cbn beta iota.
    unfold ret. eauto.
  - intros s0 r s' Hrun Hfailed.
    pose proof (update_project_outcome u polls name s0) as Hout. rewrite Hrun in Hout.
    destruct Hout as (_ & _ & Hiff). by apply Hiff.
Qed.
End DeployClaims.

Lemma failed_deployment_ends_partial_witness :
  ∃ r s',
    update_project (H := Demo.build_fails_env) Demo.updater 0 "VCPToolBox-main"
      (Demo.plain_state Demo.repo_files)
    = (Returned r, s')
    ∧ project_name r = "VCPToolBox-main" ∧ status r = PARTIAL
    ∧ docker_status r = Some FAILED.
Proof.
  set (reach := update_project_to_deployment (H := Demo.build_fails_env) Demo.updater
                  "VCPToolBox-main" (Demo.plain_state Demo.repo_files)).
  set (result := match reach.1 with
                 | Some (_, r) => r
                 | None => Demo.blank_result "VCPToolBox-main"
                 end).
  set (deployed := _perform_docker_deployment (H := Demo.build_fails_env) Demo.updater 0
                     "VCPToolBox-main" (path Demo.toolbox) reach.2).
  assert (reach = (Some (Demo.toolbox, result), reach.2)) as Hreach
    by (vm_compute; reflexivity).
  assert (deployed = (Returned false, deployed.2)) as Hdeployed
    by (vm_compute; reflexivity).
  destruct (proj1 (failed_deployment_ends_partial (H := Demo.build_fails_env) Demo.updater 0
                     "VCPToolBox-main" Demo.toolbox reach.2 deployed.2
                     eq_refl eq_refl Hdeployed)
              (Demo.plain_state Demo.repo_files) result Hreach)
    as (r & s' & Hrun & Hn & Hst & Hds & _).
  exists r, s'. by repeat split.
Defined.

(** ** The exit code *)

Section ExitFacts.
Context {X : Type} `{Env X}.
Variable u : Updater.
Variable polls : nat.

Lemma status_value_inj a b : UpdateStatus_value a = UpdateStatus_value b → a = b.
Proof. by destruct a, b. Qed.

(** The count is complete unless an entry is missing, and a key is at 0
    afterwards exactly when it was before and no counted result has it. *)
Lemma tally_spec results stats :
  (∀ k, 0 ≤ default 0 (stats !! k)) →
  ((tally results stats).1 = true ↔ None ∉ results)
  ∧ ((tally results stats).1 = true →
     ∀ k, default 0 ((tally results stats).2 !! k) = 0
          ↔ default 0 (stats !! k) = 0
            ∧ ∀ r, Some r ∈ results → UpdateStatus_value (status r) ≠ k).
Proof.
  revert stats. induction results as [|[r|] rest IH]; intros stats Hpos; cbn [tally].
  - cbn. split; [split; [intros _; apply not_elem_of_nil | done]|].
    intros _ k. split; [|by intros [? _]]. intros Hk. split; [done|].
    intros r Hr. by apply elem_of_nil in Hr.
  - set (key := UpdateStatus_value (status r)).
    set (stats1 := <[key := default 0 (stats !! key) + 1]> stats).
    assert (∀ k, 0 ≤ default 0 (stats1 !! k)) as Hpos1.
    { intros k. unfold stats1. destruct (decide (key = k)) as [<-|Hne].
      - rewrite lookup_insert_eq. cbn. specialize (Hpos key). lia.
      - by rewrite lookup_insert_ne. }
    destruct (IH stats1 Hpos1) as [Hdone Hzero]. split.
    + rewrite Hdone. rewrite not_elem_of_cons. split; [by split|]. by intros [_ ?].
    + intros Hok k. rewrite (Hzero Hok k). unfold stats1.
      destruct (decide (key = k)) as [<-|Hne].
      * rewrite lookup_insert_eq. cbn. specialize (Hpos key). split.
        -- intros [Hk _]. lia.
        -- intros [_ Hno]. exfalso. apply (Hno r); [left|done].
      * rewrite lookup_insert_ne by done. split.
        -- intros [Hk Hno]. split; [done|]. intros r' [[= ->]|Hr']%elem_of_cons; auto.
        -- intros [Hk Hno]. split; [done|]. intros r' Hr'. apply Hno. by right.
  - cbn. split; [split; [done|]|done]. intros Hno. exfalso. apply Hno. left.
Qed.

Lemma no_failure_spec results :
  (tally results ∅).1 = true →
  no_failure (tally results ∅).2 = true
  ↔ ∀ r, Some r ∈ results → status r ≠ FAILED ∧ status r ≠ CANCELLED.
Proof.
  intros Hok.
  destruct (tally_spec results ∅) as [_ Hzero]; [intros k; by rewrite lookup_empty|].
  specialize (Hzero Hok). unfold no_failure.
  rewrite andb_true_iff, !Z.eqb_eq, !Hzero, !lookup_empty. cbn [default]. split.
  - intros [[_ Hf] [_ Hc]] r Hr. split; intros Hs.
    + apply (Hf r Hr). by rewrite Hs.
    + apply (Hc r Hr). by rewrite Hs.
  - intros Hall. split; (split; [done|]); intros r Hr Hv;
      destruct (Hall r Hr) as [Hf Hc].
    + apply Hf. by apply status_value_inj.
    + apply Hc. by apply status_value_inj.
Qed.

(** X18. For a fleet run that returns its results, the exit code is 0
    or 1, and it is 0 exactly when no entry of the results is missing
    and no result is failed or cancelled; a run for one project exits
    with 0 exactly when its result is neither failed nor cancelled. So
    results that are all partial, unchanged, skipped or successful give
    0. *)
Theorem exit_code_of_update_run (parallel : bool) (f : Fleet X)
  (kept results : list (option UpdateResult)) (s s' : St X) :
  fleet_reset f = (Some kept, s) →
  run_fleet u polls parallel s = (Returned results, s') →
  (∃ code, (main_update u polls None parallel f).1 = Some code
           ∧ (code = 0 ∨ code = 1)
           ∧ (code = 0
              ↔ ((None ∉ results)
                 ∧ ∀ r, Some r ∈ results → status r ≠ FAILED ∧ status r ≠ CANCELLED)))
  ∧ (∀ name r f',
       liftS (update_project u polls name) f = (Returned r, f') →
       ∃ code, (main_update u polls (Some name) parallel f).1 = Some code
               ∧ (code = 0 ∨ code = 1)
               ∧ (code = 0 ↔ (status r ≠ FAILED ∧ status r ≠ CANCELLED))).
Proof.
  intros Hreset Hrun. split.
  - unfold main_update, bind, update_all_projects. rewrite Hreset, Hrun.
    pose proof (tally_spec results ∅) as [Hdone _]; [intros k; by rewrite lookup_empty|].
    pose proof (no_failure_spec results) as Hnf.
    destruct (tally results ∅) as [counted stats]. cbn [fst snd] in Hdone, Hnf.
    destruct counted.
    + destruct (save_rollback_info s') as [[] s6]. destruct (liftW now s6) as [t s7].
      unfold ret. cbn [fst]. specialize (Hnf eq_refl).
      destruct (no_failure stats).
      * exists 0. split; [done|]. split; [auto|]. split; [|done].
        intros _. split; [by apply Hdone | by apply Hnf].
      * exists 1. split; [done|]. split; [auto|]. split; [done|].
        intros [_ Hall]. apply Hnf in Hall. discriminate.
    + unfold ret. cbn [fst]. exists 1. split; [done|]. split; [auto|]. split; [done|].
      intros [Hno _]. apply Hdone in Hno. discriminate.
  - intros name r f' Hone. unfold main_update, bind. rewrite Hone. unfold ret. cbn [fst].
    destruct (bool_decide (status r = FAILED)) eqn:Hf; cbn [orb negb].
    + exists 1. split; [done|]. split; [auto|]. split; [done|].
      intros [Hn _]. by apply bool_decide_eq_true in Hf.
    + destruct (bool_decide (status r = CANCELLED)) eqn:Hc; cbn [negb].
      * exists 1. split; [done|]. split; [auto|]. split; [done|].
        intros [_ Hn]. by apply bool_decide_eq_true in Hc.
      * exists 0. split; [done|]. split; [auto|]. split; [|done].
        intros _. apply bool_decide_eq_false in Hf, Hc. by split.
Qed.
End ExitFacts.

(** C8 (the run that departs from it). A pool is asked for no worker
    ([max_workers = 0]); the one project has a container definition,
    Docker is available and upstream has nothing new. In parallel mode
    the pool refuses to start, no git result is collected, the
    deployment loop records [None] for the project, the count of the
    statuses raises [AttributeError] on it and the exit code is 1,
    although no project is failed or cancelled. The sequential run of
    the same fleet ends the project [NO_CHANGES] and exits with 0. *)
Theorem pool_without_worker_exits_with_1 :
  let s := (fleet_reset (H := Demo.up_to_date_env) Demo.idle_fleet).2 in
  (run_fleet (H := Demo.up_to_date_env) Demo.no_worker 0 true s).1 = Returned [None]
  ∧ (update_all_projects (H := Demo.up_to_date_env) Demo.no_worker 0 true
       Demo.idle_fleet).1 = Throws "AttributeError"
  ∧ (main_update (H := Demo.up_to_date_env) Demo.no_worker 0 None true Demo.idle_fleet).1
    = Some 1
  ∧ (∃ r, (run_fleet (H := Demo.up_to_date_env) Demo.no_worker 0 false s).1
          = Returned [Some r]
          ∧ project_name r = "VCPToolBox-main" ∧ status r = NO_CHANGES)
  ∧ (main_update (H := Demo.up_to_date_env) Demo.no_worker 0 None false Demo.idle_fleet).1
    = Some 0.
Proof.
  cbv zeta. split; [vm_compute; reflexivity|]. split; [vm_compute; reflexivity|].
  split; [vm_compute; reflexivity|]. split; [|vm_compute; reflexivity].
  eexists. split; [vm_compute; reflexivity|]. split; reflexivity.
Qed.

Lemma exit_code_of_update_run_witness :
  (main_update (H := Demo.docker_down_env) Demo.updater 0 None false Demo.idle_fleet).1
  = Some 0.
Proof.
  set (s := (fleet_reset (H := Demo.docker_down_env) Demo.idle_fleet).2).
  set (ran := run_fleet (H := Demo.docker_down_env) Demo.updater 0 false s).
  set (results := match ran.1 with Returned l => l | _ => [] end).
  assert (fleet_reset (H := Demo.docker_down_env) Demo.idle_fleet = (Some [], s)) as Hreset
    by (vm_compute; reflexivity).
  assert (ran = (Returned results, ran.2)) as Hrun by (vm_compute; reflexivity).
  destruct (exit_code_of_update_run (H := Demo.docker_down_env) Demo.updater 0 false
              Demo.idle_fleet [] results s ran.2 Hreset Hrun)
    as [(code & Hcode & _ & Hiff) _].
  rewrite Hcode. f_equal. apply Hiff.
  assert (Forall (fun o => match o with
                           | Some r => status r ≠ FAILED ∧ status r ≠ CANCELLED
                           | None => False
                           end) results) as Hall.
  { vm_compute. repeat constructor; discriminate. }
  split.
  - intros Hin. rewrite Forall_forall in Hall. exact (Hall _ Hin).
  - intros r Hr. rewrite Forall_forall in Hall. exact (Hall _ Hr).
Defined.

(** ** The parallel fleet on two runs *)

(** C3 (the run that departs from it). A sequential run of two projects
    is interrupted with Ctrl-C as the first project enters its [try]
    block. The handler in [update_project] sets the shutdown event and
    raises the exception again; [_update_projects_sequential] has no
    handler, so its loop, which would mark the projects not yet started
    [CANCELLED], is left; [update_all_projects] returns [False] with the
    event set. No result is recorded for either project: the one that
    had started is not recorded with a terminal status, the one that had
    not is not marked [CANCELLED]. The exit code is 1. *)
Theorem interrupted_run_records_nothing :
  let s := (fleet_reset (H := Demo.interrupted_env) Demo.idle_fleet).2 in
  let run := update_all_projects (H := Demo.interrupted_env) Demo.updater 0 false
               Demo.idle_fleet in
  (projects Demo.updater).*1 = ["VCPChat-main"; "VCPToolBox-main"]
  ∧ (_update_projects_sequential (H := Demo.interrupted_env) Demo.updater 0 s).1
    = Throws KeyboardInterrupt
  ∧ run.1 = Returned false
  ∧ update_results run.2 = []
  ∧ update_stats run.2 = ∅
  ∧ should_cancel (st run.2) = true
  ∧ event_set (world (st run.2))
  ∧ (main_update (H := Demo.interrupted_env) Demo.updater 0 None false Demo.idle_fleet).1
    = Some 1.
Proof.
  cbv zeta. split; [reflexivity|]. split; [vm_compute; reflexivity|].
  split; [vm_compute; reflexivity|]. split; [vm_compute; reflexivity|].
  split; [vm_compute; reflexivity|]. split; [vm_compute; reflexivity|].
  split; [|vm_compute; reflexivity].
  exists 0%nat. split; [vm_compute; reflexivity|]. lia.
Qed.

(** C6 (the run that departs from it). The Docker daemon is down. The
    parallel run returns one result, for the project without a container
    definition; the project with one, which is part of the fleet, has no
    result at all. The sequential run from the same state returns a
    result for each of the two. *)
Theorem parallel_run_without_docker_drops_project :
  (∃ r s',
     _update_projects_parallel (H := Demo.docker_down_env) Demo.updater 0
       (Demo.plain_state Demo.repo_files)
     = (Returned [Some r], s')
     ∧ project_name r = "VCPChat-main"
     ∧ lookup_project (projects Demo.updater) "VCPToolBox-main" = Some Demo.toolbox)
  ∧ (∃ results s',
       _update_projects_sequential (H := Demo.docker_down_env) Demo.updater 0
         (Demo.plain_state Demo.repo_files)
       = (Returned results, s')
       ∧ project_name <$> results = ["VCPChat-main"; "VCPToolBox-main"]).
Proof.
  split.
  - eexists. eexists. split; [vm_compute; reflexivity | split; reflexivity].
  - eexists. eexists. split; [vm_compute; reflexivity | reflexivity].
Qed.

(** ** Further properties of one project and of the fleet *)

Section ProjectEnds.
Context {X : Type} `{Env X}.
Variable u : Updater.
Variable polls : nat.
Implicit Types (w : World X) (s : St X).

(** X1. A result that [update_project] returns is never [SUCCESS]: the
    line that logs the duration formats [result.duration], which is
    [None] until [end_time] is set, so the path that would end in
    [SUCCESS] raises [TypeError] and the handler makes the result
    [FAILED]. A returned result is for the project asked for, is
    [FAILED], [CANCELLED], [NO_CHANGES] or [PARTIAL], and is [PARTIAL]
    exactly when the deployment failed. Nothing is said of a call that
    raises. *)
Theorem update_project_never_reports_success (name : string) (s : St X) (r : UpdateResult) :
  (update_project u polls name s).1 = Returned r →
  project_name r = name
  ∧ status r ≠ SUCCESS ∧ status r ≠ IN_PROGRESS ∧ status r ≠ SKIPPED
  ∧ (status r = PARTIAL ↔ docker_status r = Some FAILED).
Proof.
  intros Hrun.
  pose proof (update_project_outcome u polls name s) as Hout. rewrite Hrun in Hout.
  destruct Hout as (Hn & Hst & Hiff). split; [done|].
  repeat split; try (destruct Hst as [->|[->|[->| ->]]]; discriminate); apply Hiff.
Qed.

(** X2. What the sequential fleet run returns has exactly one result for
    each project, in the order of the projects, none of them still in
    progress. Nothing is said of a run that raises. *)
Theorem sequential_run_one_result_each (s : St X) (results : list UpdateResult) :
  (_update_projects_sequential u polls s).1 = Returned results →
  project_name <$> results = (projects u).*1
  ∧ Forall (fun r => is_terminal (status r) = true) results.
Proof.
  unfold _update_projects_sequential. intros Hrun.
  pose proof (sequential_loop_results u polls (projects u).*1 [] s) as Hout.
  rewrite Hrun in Hout.
  by destruct Hout as (added & -> & Hnames & Hterm).
Qed.

(** X3. The last act of a [run_command] that returns [True] is a process
    that exited with 0: the world it leaves is the one that process
    left, and the two texts it returns are what that process wrote to
    its output and to its error stream, stripped. *)
Theorem run_command_true_is_exit_zero (command : list string) (cwd : string)
  (w w' : World X) (out err : string) :
  run_command u command cwd w = ((true, out, err), w') →
  ∃ w0 timeout o e,
    proc command (Some cwd) true timeout w0 = (Completed 0 o e, w')
    ∧ out = Text.strip o ∧ err = Text.strip e.
Proof.
  unfold run_command, run_command_full. intros Hrun.
  apply run_command_loop_output in Hrun as (w0 & o & e & Hproc & -> & ->). eauto 10.
Qed.

(** X4. The git stage assigns two fields of the result object and no
    other: [backup_branch] and [stash_ref]. *)
Theorem git_stage_sets_two_fields (name : string) (pc : ProjectConfig)
  (project_path : string) (result : UpdateResult) (s : St X) :
  same_run_fields (_perform_git_update u name pc project_path result s).1.2 result.
Proof. apply perform_git_update_result. Qed.

(** X5. Neither the git stage nor the deployment removes an entry of
    [rollback_info]: a project registered before is registered after. *)
Theorem stages_keep_rollback_entries (name : string) (pc : ProjectConfig)
  (project_path : string) (result : UpdateResult) (s : St X) :
  keeps_entries s (_perform_git_update u name pc project_path result s).2
  ∧ keeps_entries s (_perform_docker_deployment u polls name project_path s).2.
Proof.
  split; [apply perform_git_update_keeps | apply perform_docker_deployment_keeps].
Qed.


(** X7. [_perform_git_update_only] always returns a result for the
    project asked for, with its end time set, without a deployment
    status, and [FAILED], [NO_CHANGES] or [SUCCESS]. *)
Theorem git_half_ends_terminal (name : string) (s : St X) :
  git_only_outcome name (_perform_git_update_only u name s).1.
Proof. apply perform_git_update_only_outcome. Qed.

(** X12. The verdict of the simple health check does not depend on the
    port: it is [True] exactly when [docker compose ps] succeeded with
    output that has a running word and no exit word, whether or not the
    port answers. *)
Theorem simple_check_ignores_port (project_path : string) (pc : ProjectConfig)
  (w : World X) :
  (_simple_health_check u project_path pc w).1
  = (let '(success, stdout, _) :=
       (run_command u (docker_compose_cmd u ++ ["ps"]) project_path w).1 in
     success && Text.nonempty stdout
     && (Text.search_words running_words stdout
         && negb (Text.search_words exit_words stdout))).
Proof.
  unfold _simple_health_check. unfold bind at 1.
  destruct (run_command u (docker_compose_cmd u ++ ["ps"]) project_path w)
    as [[[success stdout] stderr] w1].
  cbn [fst]. destruct (success && Text.nonempty stdout); [|done].
  cbn [andb].
  destruct (Text.search_words running_words stdout
            && negb (Text.search_words exit_words stdout)); [|done].
  destruct (docker_port pc) as [port|]; [|done].
  destruct (port =? 0); [done|].
  run_any; reflexivity.
Qed.
End ProjectEnds.

Lemma update_project_never_reports_success_witness :
  ∃ r,
    (update_project (H := Demo.up_to_date_env) Demo.updater 0 "VCPChat-main"
       (Demo.plain_state Demo.repo_files)).1 = Returned r
    ∧ project_name r = "VCPChat-main" ∧ status r ≠ SUCCESS.
Proof.
  set (run := update_project (H := Demo.up_to_date_env) Demo.updater 0 "VCPChat-main"
                (Demo.plain_state Demo.repo_files)).
  set (r := match run.1 with
            | Returned r => r
            | _ => Demo.blank_result "VCPChat-main"
            end).
  assert (run.1 = Returned r) as Hrun by (vm_compute; reflexivity).
  exists r. split; [exact Hrun|].
  destruct (update_project_never_reports_success (H := Demo.up_to_date_env) Demo.updater 0
              "VCPChat-main" (Demo.plain_state Demo.repo_files) r Hrun)
    as (Hn & Hs & _).
  by split.
Defined.

Lemma sequential_run_one_result_each_witness :
  ∃ results,
    (_update_projects_sequential (H := Demo.docker_down_env) Demo.updater 0
       (Demo.plain_state Demo.repo_files)).1 = Returned results
    ∧ project_name <$> results = ["VCPChat-main"; "VCPToolBox-main"].
Proof.
  set (run := _update_projects_sequential (H := Demo.docker_down_env) Demo.updater 0
                (Demo.plain_state Demo.repo_files)).
  set (results := match run.1 with Returned l => l | _ => [] end).
  assert (run.1 = Returned results) as Hrun by (vm_compute; reflexivity).
  exists results. split; [exact Hrun|].
  exact (proj1 (sequential_run_one_result_each (H := Demo.docker_down_env) Demo.updater 0
                  (Demo.plain_state Demo.repo_files) results Hrun)).
Defined.

Lemma run_command_true_is_exit_zero_witness :
  let w := world (Demo.plain_state Demo.repo_files) in
  ∃ w0 timeout o e,
    proc (H := Demo.up_to_date_env) ["git"; "rev-parse"; "HEAD"] (Some "/srv/VCPChat-main")
      true timeout w0
    = (Completed 0 o e,
       (run_command (H := Demo.up_to_date_env) Demo.updater ["git"; "rev-parse"; "HEAD"]
          "/srv/VCPChat-main" w).2)
    ∧ Demo.head_commit = Text.strip o ∧ "" = Text.strip e.
Proof.
  refine (run_command_true_is_exit_zero (H := Demo.up_to_date_env) Demo.updater
            ["git"; "rev-parse"; "HEAD"] "/srv/VCPChat-main"
            (world (Demo.plain_state Demo.repo_files)) _ Demo.head_commit "" _).
  vm_compute. reflexivity.
Defined.

Section SignalFacts.
Context {X : Type} `{Env X}.
Variable u : Updater.
Variable polls : nat.
Implicit Types (w : World X) (s : St X).

Lemma shutdown_is_set_raised w :
  event_set w →
  shutdown_is_set w = (true, mkWorld (ext w) (fs w) (S (ticks w)) (raised_at w)).
Proof.
  intros (n & Hn & Hle). unfold shutdown_is_set. rewrite Hn.
  by rewrite bool_decide_eq_true_2.
Qed.

(** X11. With the shutdown event set, [run_command] runs nothing: as
    long as it is allowed one attempt it answers
    [(False, "", "操作已取消")] after the one look at the event, and
    the files and the outside world are as before. *)
Theorem run_command_cancelled_at_once (command : list string) (cwd : option string)
  (capture : bool) (timeout : option Z) (retry_on_failure : option bool) (w : World X) :
  event_set w →
  0 < network_retry_count (config u) →
  run_command_full u command cwd capture timeout retry_on_failure w
  = ((false, "", cancelled_msg), mkWorld (ext w) (fs w) (S (ticks w)) (raised_at w)).
Proof.
  intros Hset Hcount. unfold run_command_full. cbv zeta.
  match goal with
  | |- run_command_loop _ _ _ _ _ ?retry ?max (Z.to_nat ?max) _ _ = _ =>
      assert (∃ k, Z.to_nat max = S k) as [k ->]
  end.
  { match goal with
    | |- ∃ k, Z.to_nat (if ?b then _ else _) = _ => destruct b
    end.
    - exists (Z.to_nat (network_retry_count (config u) - 1)). lia.
    - by exists 0%nat. }
  cbn [run_command_loop]. unfold bind at 1. rewrite (shutdown_is_set_raised w Hset).
  reflexivity.
Qed.

(** X10. From a state in which [should_cancel] is up or the shutdown
    event is set, the sequential fleet run starts no stage: it returns
    one [CANCELLED] result for each project, in order, and leaves the
    outside world, the files, the log and [rollback_info] as they
    were. *)
Theorem sequential_run_cancels_all (s : St X) :
  signalled s →
  ∃ results s',
    _update_projects_sequential u polls s = (Returned results, s')
    ∧ project_name <$> results = (projects u).*1
    ∧ Forall (fun r => status r = CANCELLED) results
    ∧ ext (world s') = ext (world s) ∧ fs (world s') = fs (world s)
    ∧ log s' = log s ∧ rollback_info s' = rollback_info s.
Proof.
  unfold _update_projects_sequential.
  assert (∀ names acc s0,
            signalled s0 →
            ∃ results s',
              sequential_loop u polls names acc s0 = (Returned (acc ++ results), s')
              ∧ project_name <$> results = names
              ∧ Forall (fun r => status r = CANCELLED) results
              ∧ ext (world s') = ext (world s0) ∧ fs (world s') = fs (world s0)
              ∧ log s' = log s0 ∧ rollback_info s' = rollback_info s0) as Hloop.
  { induction names as [|name rest IH]; intros acc s0 Hsig; cbn [sequential_loop].
    - exists [], s0. unfold ret. by rewrite app_nil_r.
    - unfold bind at 1. cbn beta.
      assert (∃ s1, (if should_cancel s0 then (true, s0) else liftW shutdown_is_set s0)
                    = (true, s1)
                    ∧ signalled s1 ∧ ext (world s1) = ext (world s0)
                    ∧ fs (world s1) = fs (world s0) ∧ log s1 = log s0
                    ∧ rollback_info s1 = rollback_info s0) as (s1 & -> & Hsig1 & He & Hf & Hl & Hr).
      { destruct (should_cancel s0) eqn:Hc.
        - exists s0. repeat split; auto.
        - destruct Hsig as [Hsig|Hsig]; [congruence|].
          unfold liftW. rewrite (shutdown_is_set_raised _ Hsig).
          eexists. split; [reflexivity|]. cbn. repeat split; auto.
          right. destruct Hsig as (n & Hn & Hle). exists n. cbn. split; [done|lia]. }
      cbn beta iota.
      unfold bind at 1, liftW at 1, now at 1. cbn beta iota.
      unfold bind at 1, liftW at 1, now at 1. cbn beta iota.
      set (r := new_result name CANCELLED _ _).
      match goal with
      | |- ∃ results s', sequential_loop _ _ _ _ ?s2 = _ ∧ _ =>
          destruct (IH (acc ++ [r]) s2) as (results & s' & Hrun & Hnames & Hall & He' & Hf' & Hl' & Hr')
      end.
      { destruct Hsig1 as [Hsig1|Hsig1]; [by left | by right]. }
      exists (r :: results), s'. rewrite Hrun, <- app_assoc. cbn in *.
      rewrite Hnames. repeat split; try congruence. by constructor. }
  intros Hsig. destruct (Hloop (projects u).*1 [] s Hsig) as (results & s' & Hrun & Hrest).
  exists results, s'. by rewrite Hrun.
Qed.
End SignalFacts.

Lemma run_command_cancelled_at_once_witness :
  run_command (H := Demo.up_to_date_env) Demo.updater ["git"; "fetch"; "upstream"]
    "/srv/VCPChat-main" (world Demo.signalled_state)
  = ((false, "", cancelled_msg),
     mkWorld tt Demo.repo_files 1 (Some 0%nat)).
Proof.
  refine (run_command_cancelled_at_once (H := Demo.up_to_date_env) Demo.updater
            ["git"; "fetch"; "upstream"] (Some "/srv/VCPChat-main") true None None
            (world Demo.signalled_state) _ _).
  - exists 0%nat. split; [reflexivity | simpl; lia].
  - reflexivity.
Defined.

Lemma sequential_run_cancels_all_witness :
  ∃ results s',
    _update_projects_sequential (H := Demo.up_to_date_env) Demo.updater 0 Demo.signalled_state
    = (Returned results, s')
    ∧ project_name <$> results = ["VCPChat-main"; "VCPToolBox-main"]
    ∧ Forall (fun r => status r = CANCELLED) results
    ∧ ext (world s') = tt ∧ fs (world s') = Demo.repo_files
    ∧ log s' = [] ∧ rollback_info s' = ∅.
Proof.
  refine (sequential_run_cancels_all (H := Demo.up_to_date_env) Demo.updater 0
            Demo.signalled_state _).
  right. exists 0%nat. split; [reflexivity | simpl; lia].
Defined.

Section PollFacts.
Context {X : Type} `{Env X}.
Variable u : Updater.
Variable polls : nat.
Implicit Types (w : World X) (s : St X).

(** X8. A [True] from the detailed health check has one of two origins:
    the simple health check it fell back to answered [True], or its last
    act was a [docker compose ps --format json] that succeeded with a
    list in which every service is running and reports no health or
    [healthy]; in particular none is restarting or exited. *)
Theorem detailed_check_true_comes_from (remaining : nat) (project_path : string)
  (pc : ProjectConfig) (start_time : Z) (w w' : World X) :
  _detailed_health_check_loop u remaining project_path pc start_time w = (Returned true, w') →
  (∃ w0, _simple_health_check u project_path pc w0 = (true, w'))
  ∨ (∃ w0 stdout stderr containers,
       run_command u (docker_compose_cmd u ++ ["ps"; "--format"; "json"]) project_path w0
       = ((true, stdout, stderr), w')
       ∧ json_loads stdout = JsonList containers
       ∧ ∀ c, c ∈ containers →
              reported_state c = "running"
              ∧ (c_Health c = "" ∨ Text.lower (c_Health c) = "healthy")).
Proof.
  revert w. induction remaining as [|k IH]; intros w; cbn [_detailed_health_check_loop].
  { unfold ret. intros [=]. }
  unfold bind at 1, now at 1. cbn beta iota.
  destruct (time_time (ext w) - start_time <? docker_health_check_timeout pc); cbn [negb];
    [|unfold ret; intros [=]].
  unfold bind at 1. destruct (shutdown_is_set w) as [stop w1]. cbn beta iota.
  destruct stop; [unfold ret; intros [=]|].
  assert (∀ w2,
            (run* _ := sleep_checked (docker_health_check_interval pc) in
             _detailed_health_check_loop u k project_path pc start_time) w2
            = (Returned true, w') →
            ∃ w3, _detailed_health_check_loop u k project_path pc start_time w3
                  = (Returned true, w')) as Hagain.
  { intros w2. unfold bindR, bind at 1, sleep_checked.
    destruct (docker_health_check_interval pc <? 0).
    - unfold ret. intros [=].
    - unfold bind at 1. destruct (sleep (docker_health_check_interval pc) w2) as [[] w3].
      unfold ret at 1. cbn beta iota. eauto. }
  cbv zeta. unfold bind at 1.
  destruct (run_command u (docker_compose_cmd u ++ ["ps"; "--format"; "json"]) project_path w1)
    as [[[success stdout] stderr] w2] eqn:Hps.
  cbn beta iota. destruct success; cbn [negb].
  - destruct (Text.nonempty stdout).
    + destruct (json_loads stdout) as [|containers|containers|] eqn:Hjson.
      * unfold bind at 1.
        destruct (_simple_health_check u project_path pc w2) as [healthy w3] eqn:Hsimple.
        unfold ret. intros [= -> ->]. left. eauto.
      * destruct (scan containers true) as [|[]] eqn:Hscan.
        -- unfold ret. intros [=].
        -- unfold ret. intros [= ->]. right.
           exists w1, stdout, stderr, containers. split; [done|]. split; [done|].
           apply scan_all_healthy in Hscan as [_ Hall]. exact Hall.
        -- intros Hrun. apply Hagain in Hrun as [w3 Hrun]. by apply IH in Hrun.
      * destruct (scan containers true); unfold ret; intros [=].
      * intros Hrun. apply Hagain in Hrun as [w3 Hrun]. by apply IH in Hrun.
    + intros Hrun. apply Hagain in Hrun as [w3 Hrun]. by apply IH in Hrun.
  - unfold bind at 1.
    destruct (run_command u (docker_compose_cmd u ++ ["ps"]) project_path w2)
      as [[[success2 stdout2] stderr2] w3].
    cbn beta iota. destruct success2.
    + unfold bind at 1.
      destruct (_simple_health_check u project_path pc w3) as [healthy w4] eqn:Hsimple.
      unfold ret. intros [= -> ->]. left. eauto.
    + intros Hrun. apply Hagain in Hrun as [w4 Hrun]. by apply IH in Hrun.
Qed.

(** Every result the first pool collects is filed under its own project
    name. *)
Lemma collect_git_names names (git_results : gmap string UpdateResult) s :
  (∀ n r, git_results !! n = Some r → project_name r = n) →
  ∀ n r, (collect_git u names git_results s).1 !! n = Some r → project_name r = n.
Proof.
  revert git_results s. induction names as [|name rest IH]; intros g s Hg; cbn [collect_git].
  { exact Hg. }
  unfold bind at 1.
  pose proof (perform_git_update_only_outcome u name s) as (Hname & _).
  destruct (_perform_git_update_only u name s) as [result s1]. cbn [fst] in Hname.
  cbn beta iota. unfold bind at 1. destruct (liftW shutdown_is_set s1) as [stop s2].
  cbn beta iota. destruct stop.
  - unfold bind at 1.
    destruct (for_each rest (fun n => do _perform_git_update_only u n then ret ()) s2).
    exact Hg.
  - apply IH. intros n r. destruct (decide (name = n)) as [<-|Hne].
    + rewrite lookup_insert_eq. by intros [= <-].
    + rewrite lookup_insert_ne by done. apply Hg.
Qed.

(** X9. Where Docker is never available, the parallel fleet run returns
    a result for no project that has a container definition: such a
    project, although part of the fleet, appears nowhere in the results,
    and no entry of the results is missing. *)
Theorem parallel_run_without_docker (s : St X) :
  (∀ w, (check_docker_availability u w).1 = false) →
  ∃ results s',
    _update_projects_parallel u polls s = (Returned results, s')
    ∧ (None ∉ results)
    ∧ ∀ name pc r,
        (name, pc) ∈ projects u → has_docker pc = true → Some r ∈ results →
        project_name r ≠ name.
Proof.
  intros Hdown. unfold _update_projects_parallel. cbv zeta.
  unfold bind at 1.
  match goal with
  | |- context [let '(_, _) := ?m s in _] =>
      assert (∀ n r, (m s).1 !! n = Some r → project_name r = n) as Hnames;
      [| destruct (m s) as [git_results s1]; cbn [fst] in Hnames; cbn beta iota ]
  end.
  { destruct (0 <? max_workers u).
    - apply collect_git_names. intros n r. by rewrite lookup_empty.
    - unfold ret. cbn. intros n r. by rewrite lookup_empty. }
  unfold bind at 1.
  match goal with
  | |- context [let '(_, _) := ?m s1 in _] =>
      assert ((m s1).1 = false) as Hstage;
      [| destruct (m s1) as [second_stage s2]; cbn [fst] in Hstage; subst second_stage;
         cbn beta iota ]
  end.
  { destruct ((filter (fun p => has_docker p.2 = true) (projects u)).*1); [done|].
    unfold bind at 1, liftW at 1.
    specialize (Hdown (world s1)).
    destruct (check_docker_availability u (world s1)) as [available w1].
    cbn [fst] in Hdown. by subst available. }
  unfold bindR, bind at 1, ret at 1. cbn beta iota. unfold ret.
  eexists. eexists. split; [reflexivity|]. rewrite app_nil_l. split.
  - intros Hin. apply list_elem_of_omap in Hin as (n & _ & Hf).
    destruct (existsb (String.eqb n) _); discriminate.
  - intros name pc r Hin Hdocker Hr Heq.
    apply list_elem_of_omap in Hr as (n & _ & Hf).
    destruct (existsb (String.eqb n)
                (filter (fun p => has_docker p.2 = true) (projects u)).*1) eqn:Hex;
      [discriminate|].
    injection Hf as <-.
    assert (n = name) as ->.
    { rewrite <- Heq. destruct (git_results !! n) as [r|] eqn:Hr; cbn; [|done].
      symmetry. by apply Hnames. }
    assert (existsb (String.eqb name)
              (filter (fun p => has_docker p.2 = true) (projects u)).*1 = true) as Hyes.
    { apply existsb_exists. exists name. split; [|apply String.eqb_refl].
      apply list_elem_of_In, list_elem_of_fmap. exists (name, pc). split; [done|].
      apply list_elem_of_filter. by split. }
    congruence.
Qed.
End PollFacts.

Lemma detailed_check_true_comes_from_witness :
  let env := Demo.ps_env [mkContainer "running" "healthy" "web"] in
  let w := world (Demo.plain_state Demo.repo_files) in
  (∃ w0, _simple_health_check (H := env) Demo.updater "/srv/VCPToolBox-main" Demo.toolbox w0
         = (true, (_detailed_health_check_loop (H := env) Demo.updater 1
                     "/srv/VCPToolBox-main" Demo.toolbox 0 w).2))
  ∨ (∃ w0 stdout stderr containers,
       run_command (H := env) Demo.updater ["docker"; "compose"; "ps"; "--format"; "json"]
         "/srv/VCPToolBox-main" w0
       = ((true, stdout, stderr),
          (_detailed_health_check_loop (H := env) Demo.updater 1
             "/srv/VCPToolBox-main" Demo.toolbox 0 w).2)
       ∧ json_loads (Env := env) stdout = JsonList containers
       ∧ ∀ c, c ∈ containers →
              reported_state c = "running"
              ∧ (c_Health c = "" ∨ Text.lower (c_Health c) = "healthy")).
Proof.
  refine (detailed_check_true_comes_from
            (H := Demo.ps_env [mkContainer "running" "healthy" "web"]) Demo.updater 1
            "/srv/VCPToolBox-main" Demo.toolbox 0
            (world (Demo.plain_state Demo.repo_files)) _ _).
  vm_compute. reflexivity.
Defined.

Lemma parallel_run_without_docker_witness :
  ∃ results s',
    _update_projects_parallel (H := Demo.docker_down_env) Demo.updater 0
      (Demo.plain_state Demo.repo_files)
    = (Returned results, s')
    ∧ (None ∉ results)
    ∧ ∀ name pc r,
        (name, pc) ∈ projects Demo.updater → has_docker pc = true → Some r ∈ results →
        project_name r ≠ name.
Proof.
  refine (parallel_run_without_docker (H := Demo.docker_down_env) Demo.updater 0
            (Demo.plain_state Demo.repo_files) _).
  intros w. reflexivity.
Defined.

Section GitEdgeFacts.
Context {X : Type} `{Env X}.
Variable u : Updater.
Implicit Types (w : World X) (s : St X).

(** X13. [create_git_checkpoint] returns [None] without touching the
    store or the saved document, and when it returns a commit it has
    filed an entry for it under the directory name of the project and
    the name of the checkpoint; the saved document then holds the store
    if the write went through, and is what it was if the write
    failed. *)
Theorem checkpoint_stored_iff_returned (project_path : string) (k : GitCheckpointType)
  (descr : string) (s : St X) :
  let out := create_git_checkpoint u project_path k descr s in
  match out.1 with
  | None =>
      git_checkpoints out.2 = git_checkpoints s ∧ persisted out.2 = persisted s
      ∧ rollback_info out.2 = rollback_info s
  | Some c =>
      Text.nonempty c = true
      ∧ (commit_hash <$> Journal.checkpoint_at out.2 (path_name project_path)
                           (GitCheckpointType_value k)) = Some (Text.strip c)
      ∧ persisted out.2
        = (if can_save (ext (world out.2))
           then Some (rollback_info out.2, git_checkpoints out.2)
           else persisted s)
  end.
Proof.
  cbv zeta. unfold create_git_checkpoint. cbv zeta.
  unfold bind, liftW, log_line, checkpoint_assign, save_rollback_info, ret.
  cbn [world log rollback_info git_checkpoints persisted should_cancel].
  destruct (get_current_commit u project_path (world s)) as [commit w1].
  cbn beta iota. destruct commit as [c|]; cbn [truthy negb]; [|by repeat split].
  destruct (Text.nonempty c) eqn:Hc; cbn [negb]; [|by repeat split].
  cbn [world log rollback_info git_checkpoints persisted should_cancel].
  repeat match goal with
  | |- context [let '(_, _) := ?m in _] =>
      lazymatch m with
      | context [match _ with _ => _ end] => fail
      | _ => destruct m as [? ?]; cbn beta iota;
             cbn [fst snd world log rollback_info git_checkpoints persisted
                  should_cancel]
      end
  | |- context [if ?c then _ else _] =>
      lazymatch c with
      | context [match _ with _ => _ end] => fail
      | _ => destruct c; cbn beta iota;
             cbn [fst snd world log rollback_info git_checkpoints persisted
                  should_cancel]
      end
  end;
  cbn [fst snd git_checkpoints rollback_info persisted default];
  (split; [done|]; split; [|done]);
  unfold Journal.checkpoint_at; cbn [git_checkpoints];
  rewrite lookup_insert_eq; cbn; rewrite lookup_insert_eq; reflexivity.
Qed.

(** X14. With nothing stored for the project, the restore loop of
    [_handle_git_failure] restores nothing and runs nothing: for each
    name it logs that the checkpoint is missing, then that no restore
    was possible, and the world, [rollback_info] and the store are as
    before. *)
Theorem restore_without_checkpoints (project_path : string) (names : list string)
  (s : St X) :
  git_checkpoints s !! path_name project_path = None →
  restore_first u project_path names s
  = (tt,
     mkSt (world s) (log s ++ (LogRestoreMissing <$> names) ++ [LogNoRestore])
       (rollback_info s) (git_checkpoints s) (persisted s) (should_cancel s)).
Proof.
  intros Hnone. revert s Hnone.
  induction names as [|n rest IH]; intros s Hnone; cbn [restore_first fmap list_fmap].
  - reflexivity.
  - unfold bind at 1, restore_git_checkpoint. unfold bind at 1, get_git_checkpoints.
    cbn beta iota. rewrite Hnone. cbn [mbind option_bind].
    unfold bind at 1, log_line at 1, ret at 1. cbn beta iota.
    rewrite IH by done. cbn. by rewrite <- !app_assoc.
Qed.

(** X15. With auto-resolution switched off, a plain merge that fails
    with a conflict makes [merge_upstream_changes] answer "failed" at
    once: nothing is aborted, re-merged or reset, and the repository is
    what the failed merge left. *)
Theorem conflict_without_auto_merge (project_path branch : string) (s : St X)
  (out err : string) (w' : World X) :
  auto_merge_conflicts (config u) = false →
  run_command u (plain_merge branch) project_path (world s) = ((false, out, err), w') →
  Journal.reports_conflict err = true →
  merge_upstream_changes u project_path branch s
  = ("failed",
     mkSt w' (log s ++ [LogMergeDisabled]) (rollback_info s) (git_checkpoints s)
       (persisted s) (should_cancel s)).
Proof.
  intros Hauto Hplain Hconflict. unfold Journal.reports_conflict in Hconflict.
  unfold merge_upstream_changes, bind, liftW, log_line, ret.
  rewrite Hplain. cbn beta iota. rewrite Hconflict, Hauto. reflexivity.
Qed.

(** X16. [_execute_custom_commands] runs only the commands tagged with
    the phase: when no command starts with the tag, nothing is run and
    the world is as before. *)
Theorem untagged_commands_are_skipped (commands : list string) (cwd phase : string)
  (w : World X) :
  Forall (fun cmd => Text.startswith (phase +:+ ":") cmd = false) commands →
  _execute_custom_commands u commands cwd phase w = (tt, w).
Proof.
  unfold _execute_custom_commands. induction 1 as [|cmd rest Hcmd _ IH]; cbn [for_each].
  - reflexivity.
  - unfold bind at 1. cbv zeta. rewrite Hcmd. unfold ret at 1. exact IH.
Qed.

(** X17. Whatever a check of the configuration fingerprint answered, a
    second check over the files it left (the cache file is not one of
    the fingerprinted files) answers "unchanged" and writes nothing. *)
Theorem second_check_is_quiet (project_path : string) (fs : FS) :
  Fingerprint.cache_apart u project_path →
  let fs' := (Fingerprint._check_docker_config_changed u project_path fs).2 in
  Fingerprint._check_docker_config_changed u project_path fs' = (false, fs').
Proof. apply recheck_unchanged. Qed.
End GitEdgeFacts.

Lemma restore_without_checkpoints_witness :
  restore_first (H := Demo.up_to_date_env) Demo.updater "/srv/VCPChat-main"
    checkpoints_priority (Demo.plain_state Demo.repo_files)
  = (tt,
     mkSt (world (Demo.plain_state Demo.repo_files))
       ((LogRestoreMissing <$> checkpoints_priority) ++ [LogNoRestore])
       (rollback_info (Demo.plain_state Demo.repo_files)) ∅ None false).
Proof.
  refine (restore_without_checkpoints (H := Demo.up_to_date_env) Demo.updater
            "/srv/VCPChat-main" checkpoints_priority (Demo.plain_state Demo.repo_files) _).
  reflexivity.
Defined.

Lemma conflict_without_auto_merge_witness :
  (merge_upstream_changes (H := MiniGit.env) Demo.cautious "/srv/VCPToolBox-main" "main"
     (MiniGit.state_of MiniGit.unrelated)).1
  = "failed".
Proof.
  refine (f_equal fst
            (conflict_without_auto_merge (H := MiniGit.env) Demo.cautious
               "/srv/VCPToolBox-main" "main" (MiniGit.state_of MiniGit.unrelated)
               _ _ _ _ _ _)).
  - reflexivity.
  - vm_compute. reflexivity.
  - vm_compute. reflexivity.
Defined.

Lemma untagged_commands_are_skipped_witness :
  _execute_custom_commands (H := Demo.up_to_date_env) Demo.updater
    ["post:make docs"] "/srv/VCPChat-main" "pre" (world (Demo.plain_state Demo.repo_files))
  = (tt, world (Demo.plain_state Demo.repo_files)).
Proof.
  refine (untagged_commands_are_skipped (H := Demo.up_to_date_env) Demo.updater
            ["post:make docs"] "/srv/VCPChat-main" "pre" _ _).
  repeat constructor.
Defined.

Lemma second_check_is_quiet_witness :
  Fingerprint._check_docker_config_changed Demo.updater "/srv/VCPToolBox-main"
    (Fingerprint._check_docker_config_changed Demo.updater "/srv/VCPToolBox-main"
       Demo.repo_files).2
  = (false,
     (Fingerprint._check_docker_config_changed Demo.updater "/srv/VCPToolBox-main"
        Demo.repo_files).2).
Proof.
  refine (second_check_is_quiet Demo.updater "/srv/VCPToolBox-main" Demo.repo_files _).
  intros pc Hpc. vm_compute in Hpc. injection Hpc as <-.
  intros Hin. apply list_elem_of_In in Hin. vm_compute in Hin.
  repeat (destruct Hin as [Hin|Hin]; [discriminate Hin|]). exact Hin.
Defined.
